(** * Result reconciliation and presentation engine of the RFx dashboard

    A shallow embedding of the front-end logic of the repository
    (src/frontend/src/components and src/frontend/src/services):

    - the step finders of [Dashboard], [Clarifications] and
      [ArchitectureDiagram] ([Array.prototype.find] over the pipeline steps),
    - the download listing filter of [Dashboard],
    - [startSimulatedProgress] and [processRFP] of awsService.js,
    - the payload normalisers [renderPricingTable], [processClarifications]
      and [renderArchitectureInfo],
    - the [localStorage] result cache written by [handleUpload] and read by
      [Results],
    - the discovery of the files of a user ([listUserFiles],
      [findLatestUserFile] and the finders built on them), the gallery, and
      their callers in [Dashboard] (the loading at mount and "Refresh Files"),
    - the controls of [Dashboard]: the file selection, the image modal, the
      summary and the pricing card,
    - [Login], the [Clarifications] page (loading, answers, continuing),
      [downloadDiagram] of [ArchitectureDiagram], and the session and routes
      of [App].

    Conventions of the model.
    - A JavaScript string is a list of characters ([str]); the model covers
      ASCII text, for which UTF-16 code units and bytes coincide.
    - A JavaScript number is an integer ([Z]); all arithmetic the code does on
      integers (sum, product, min, max, ceil of a tenth) is exact on them
      within the safe integer range.  [NaN] is kept apart ([num]).
    - A thrown exception is the [Throw] case of [result].
    - An object is the list of its own properties in enumeration order. *)

From Stdlib Require Import List Bool Ascii String ZArith Lia Arith Sorted.
From Stdlib Require Import Permutation.
From Stdlib Require Import DecimalString DecimalZ DecimalPos DecimalFacts.
Import ListNotations.

(** [length] is the length of a list throughout. *)
#[local] Abbreviation length := List.length (only parsing).

Local Open Scope string_scope.
Local Open Scope list_scope.
Local Open Scope Z_scope.

(* ===================================================================== *)
(** * JavaScript strings *)
(* ===================================================================== *)

Module JsString.

Definition str := list ascii.

Definition lit (s : string) : str := list_ascii_of_string s.

(** Character equality and string equality ([===] on strings). *)
Fixpoint eqb (a b : str) : bool :=
  match a, b with
  | [], [] => true
  | x :: a', y :: b' => Ascii.eqb x y && eqb a' b'
  | _, _ => false
  end.

(** [String.prototype.toLowerCase] on ASCII text. *)
Definition lowerChar (c : ascii) : ascii :=
  let n := N_of_ascii c in
  if (65 <=? n)%N && (n <=? 90)%N then ascii_of_N (n + 32) else c.

Definition toLowerCase (s : str) : str := map lowerChar s.

(** [String.prototype.startsWith]. *)
Fixpoint startsWith (s p : str) {struct p} : bool :=
  match p, s with
  | [], _ => true
  | x :: p', y :: s' => Ascii.eqb x y && startsWith s' p'
  | _ :: _, [] => false
  end.

(** [String.prototype.endsWith]: the last [length suffix] characters of [s]
    are those of [suffix]. *)
Definition endsWith (s suffix : str) : bool :=
  startsWith (rev s) (rev suffix).

(** [String.prototype.includes]: [sub] occurs at some position of [s]. *)
Fixpoint includes (s sub : str) : bool :=
  startsWith s sub ||
  match s with
  | [] => false
  | _ :: s' => includes s' sub
  end.

(** [s.split('/').pop()]: the text after the last slash. *)
Fixpoint lastSegment (s : str) : str :=
  match s with
  | [] => []
  | c :: s' =>
      if existsb (Ascii.eqb "/"%char) s' then lastSegment s'
      else if Ascii.eqb c "/"%char then s' else s
  end.

(** A string is truthy when it is not empty. *)
Definition nonEmpty (s : str) : bool :=
  match s with [] => false | _ => true end.

End JsString.

Import JsString.

Coercion lit : string >-> str.

(* ===================================================================== *)
(** * JavaScript values *)
(* ===================================================================== *)

Module Js.

(** A value of JSON data, as [JSON.parse] and [response.json()] return it.
    The induction principle that reaches the nested values is
    [value_nested_ind] below. *)
#[local] Unset Elimination Schemes.
Inductive value :=
| VNull
| VBool (b : bool)
| VNum (n : Z)
| VStr (s : str)
| VArr (items : list value)
| VObj (fields : list (str * value)).
#[local] Set Elimination Schemes.

(** The result of an expression: JSON data, [undefined] or [NaN]. *)
Inductive jsval :=
| JUndef
| JNaN
| JV (v : value).

(** A number computed by the code. *)
Inductive num :=
| Int (n : Z)
| NaN.

(** What a [throw] carries. *)
Inductive exn :=
| TypeError
| SyntaxError
| Error (message : str).

(** An evaluation returns or throws. *)
Inductive result (A : Type) :=
| Ok (a : A)
| Throw (e : exn).

Arguments Ok {A} a.
Arguments Throw {A} e.

Definition bind {A B : Type} (r : result A) (k : A -> result B) : result B :=
  match r with
  | Ok a => k a
  | Throw e => Throw e
  end.

Notation "x <- e ;; k" := (bind e (fun x => k))
  (at level 61, e at next level, right associativity).

(** [array.map(f)] where [f] may throw: the first exception ends the loop.
    [f] receives the element and its index. *)
Fixpoint mapiM {A B : Type} (f : A -> nat -> result B) (i : nat) (l : list A)
  : result (list B) :=
  match l with
  | [] => Ok []
  | x :: l' =>
      bind (f x i) (fun y => bind (mapiM f (S i) l') (fun ys => Ok (y :: ys)))
  end.

(** [array.map(f)] for an [f] that ignores the index. *)
Fixpoint mapM {A B : Type} (f : A -> result B) (l : list A) : result (list B) :=
  match l with
  | [] => Ok []
  | x :: l' =>
      bind (f x) (fun y => bind (mapM f l') (fun ys => Ok (y :: ys)))
  end.

(** The part of the runtime the model leaves open: the number a string
    denotes ([Number(s)] on a string). *)
Class Runtime := { StringToNumber : str -> num }.

(** ** Conversions *)

(** The decimal text of an integer. *)
Definition numToStr (n : Z) : str :=
  list_ascii_of_string (NilZero.string_of_int (Z.to_int n)).

Definition natToStr (n : nat) : str := numToStr (Z.of_nat n).

(** [String(v)], also the conversion of an interpolated [${v}]. *)
Fixpoint toStringValue (v : value) : str :=
  match v with
  | VNull => "null"
  | VBool b => if b then "true" else "false"
  | VNum n => numToStr n
  | VStr s => s
  | VArr items =>
      (fix join (l : list value) : str :=
         match l with
         | [] => []
         | x :: l' =>
             match x with VNull => [] | _ => toStringValue x end
             ++ match l' with [] => [] | _ => lit "," ++ join l' end
         end) items
  | VObj _ => "[object Object]"
  end.

Definition toString (v : jsval) : str :=
  match v with
  | JUndef => "undefined"
  | JNaN => "NaN"
  | JV x => toStringValue x
  end.

(** [Number(v)]. *)
Definition toNumber `{Runtime} (v : jsval) : num :=
  match v with
  | JUndef | JNaN => NaN
  | JV VNull => Int 0
  | JV (VBool b) => Int (if b then 1 else 0)
  | JV (VNum n) => Int n
  | JV (VStr s) => StringToNumber s
  | JV x => StringToNumber (toStringValue x)
  end.

Definition ofNum (n : num) : jsval :=
  match n with
  | Int z => JV (VNum z)
  | NaN => JNaN
  end.

Definition numAdd (a b : num) : num :=
  match a, b with
  | Int x, Int y => Int (x + y)
  | _, _ => NaN
  end.

Definition numMul (a b : num) : num :=
  match a, b with
  | Int x, Int y => Int (x * y)
  | _, _ => NaN
  end.

(** [a > 0] after [ToNumber]. *)
Definition numPositive (n : num) : bool :=
  match n with
  | Int z => 0 <? z
  | NaN => false
  end.

(** ** Tests *)

(** [!!v] *)
Definition truthy (v : jsval) : bool :=
  match v with
  | JUndef | JNaN => false
  | JV VNull => false
  | JV (VBool b) => b
  | JV (VNum n) => negb (n =? 0)
  | JV (VStr s) => nonEmpty s
  | JV (VArr _) | JV (VObj _) => true
  end.

(** [v == null]: undefined or null. *)
Definition nullish (v : jsval) : bool :=
  match v with
  | JUndef | JV VNull => true
  | _ => false
  end.

(** [v !== undefined] *)
Definition defined (v : jsval) : bool :=
  match v with
  | JUndef => false
  | _ => true
  end.

(** [a || b] and [a ?? b] *)
Definition jsOr (a b : jsval) : jsval := if truthy a then a else b.
Definition jsCoalesce (a b : jsval) : jsval := if nullish a then b else a.

Definition jsStr (s : str) : jsval := JV (VStr s).
Definition jsNum (n : Z) : jsval := JV (VNum n).
Definition emptyObject : jsval := JV (VObj []).

(** ** Properties *)

Fixpoint lookup (k : str) (fields : list (str * value)) : option value :=
  match fields with
  | [] => None
  | (k', v) :: rest => if JsString.eqb k k' then Some v else lookup k rest
  end.

Definition ofOption (o : option value) : jsval :=
  match o with
  | Some v => JV v
  | None => JUndef
  end.

(** The element of an array or the character of a string at the index the
    key [k] writes in decimal. *)
Fixpoint atIndex {A : Type} (k : str) (i : nat) (l : list A) : option A :=
  match l with
  | [] => None
  | x :: l' => if JsString.eqb k (natToStr i) then Some x else atIndex k (S i) l'
  end.

(** [v.k] or [v[k]]: a property of an object, an index or the length of an
    array or string; reading a property of undefined or null throws. *)
Definition get (v : jsval) (k : str) : result jsval :=
  match v with
  | JUndef | JV VNull => Throw TypeError
  | JV (VObj fields) => Ok (ofOption (lookup k fields))
  | JV (VArr items) =>
      if JsString.eqb k "length" then Ok (JV (VNum (Z.of_nat (List.length items))))
      else Ok (ofOption (atIndex k 0 items))
  | JV (VStr s) =>
      if JsString.eqb k "length" then Ok (JV (VNum (Z.of_nat (List.length s))))
      else Ok (ofOption (option_map (fun c => VStr [c]) (atIndex k 0 s)))
  | JV (VBool _) | JV (VNum _) | JNaN => Ok JUndef
  end.

(** [v?.k] *)
Definition getOpt (v : jsval) (k : str) : jsval :=
  match get v k with
  | Ok x => x
  | Throw _ => JUndef
  end.

(** [Array.isArray(v) ? v : absent] *)
Definition asArray (v : jsval) : option (list value) :=
  match v with
  | JV (VArr items) => Some items
  | _ => None
  end.

(** [typeof v === 'string'] *)
Definition asString (v : jsval) : option str :=
  match v with
  | JV (VStr s) => Some s
  | _ => None
  end.

(** [Object.keys(v)] for a [v] that is not undefined or null. *)
Definition keys (v : jsval) : list str :=
  match v with
  | JV (VObj fields) => map fst fields
  | JV (VArr items) => map natToStr (seq 0 (List.length items))
  | JV (VStr s) => map natToStr (seq 0 (List.length s))
  | _ => []
  end.

(** [e.message].  The text of an error the runtime raises is the engine's;
    the model keeps the kind of the error as its text. *)
Definition messageOf (e : exn) : str :=
  match e with
  | Error m => m
  | TypeError => "TypeError"
  | SyntaxError => "SyntaxError"
  end.

(** [array.map(...)] on a value: only an array has the method. *)
Definition arrayOf (v : jsval) : result (list value) :=
  match v with
  | JV (VArr items) => Ok items
  | _ => Throw TypeError
  end.

End Js.

Import Js.


(* ===================================================================== *)
(** * JSON.stringify and JSON.parse *)
(* ===================================================================== *)

(** The two functions of the runtime the result cache goes through.  The
    parser follows the JSON grammar on the number domain of the model:
    a literal with a fraction or an exponent denotes no integer and is
    rejected, as is a [\u] escape above the character range of [str]. *)
Module Json.

Definition dquote : ascii := ascii_of_nat 34.
Definition backslash : ascii := ascii_of_nat 92.

Definition hexDigit (n : N) : ascii :=
  if (n <? 10)%N then ascii_of_N (48 + n) else ascii_of_N (87 + n).

(** The escape of a character inside a string literal. *)
Definition escapeChar (c : ascii) : str :=
  let n := N_of_ascii c in
  if (n =? 34)%N then [backslash; dquote]
  else if (n =? 92)%N then [backslash; backslash]
  else if (n =? 8)%N then [backslash; "b"%char]
  else if (n =? 12)%N then [backslash; "f"%char]
  else if (n =? 10)%N then [backslash; "n"%char]
  else if (n =? 13)%N then [backslash; "r"%char]
  else if (n =? 9)%N then [backslash; "t"%char]
  else if (n <? 32)%N then
    [backslash; "u"%char; "0"%char; "0"%char;
     hexDigit (n / 16); hexDigit (n mod 16)]
  else [c].

Definition quote (s : str) : str :=
  dquote :: flat_map escapeChar s ++ [dquote].

Fixpoint commaSep (l : list str) : str :=
  match l with
  | [] => []
  | [x] => x
  | x :: l' => x ++ lit "," ++ commaSep l'
  end.

(** [JSON.stringify(v)] *)
Fixpoint stringify (v : value) : str :=
  match v with
  | VNull => "null"
  | VBool b => if b then "true" else "false"
  | VNum n => numToStr n
  | VStr s => quote s
  | VArr items => lit "[" ++ commaSep (map stringify items) ++ lit "]"
  | VObj fields =>
      lit "{"
      ++ commaSep (map (fun '(k, x) => quote k ++ lit ":" ++ stringify x) fields)
      ++ lit "}"
  end.

(** ** The parser *)

Definition isWs (c : ascii) : bool :=
  let n := N_of_ascii c in
  ((n =? 32) || (n =? 9) || (n =? 10) || (n =? 13))%N.

Fixpoint skipWs (s : str) : str :=
  match s with
  | c :: r => if isWs c then skipWs r else s
  | [] => []
  end.

Definition isDigit (c : ascii) : bool :=
  let n := N_of_ascii c in ((48 <=? n) && (n <=? 57))%N.

Fixpoint spanDigits (s : str) : str * str :=
  match s with
  | c :: r =>
      if isDigit c then let (d, rest) := spanDigits r in (c :: d, rest)
      else ([], s)
  | [] => ([], [])
  end.

Definition hexVal (c : ascii) : option N :=
  let n := N_of_ascii c in
  if ((48 <=? n) && (n <=? 57))%N then Some (n - 48)%N
  else if ((97 <=? n) && (n <=? 102))%N then Some (n - 87)%N
  else if ((65 <=? n) && (n <=? 70))%N then Some (n - 55)%N
  else None.

(** The code unit four hexadecimal digits write. *)
Definition hex4 (a b c d : ascii) : option N :=
  match hexVal a, hexVal b, hexVal c, hexVal d with
  | Some x, Some y, Some z, Some w => Some (((x * 16 + y) * 16 + z) * 16 + w)%N
  | _, _, _, _ => None
  end.

Definition push (c : ascii) (r : option (str * str)) : option (str * str) :=
  match r with
  | Some (s, rest) => Some (c :: s, rest)
  | None => None
  end.

(** The characters of a string literal after its opening quote, and the
    input after its closing quote. *)
Fixpoint parseChars (s : str) : option (str * str) :=
  match s with
  | [] => None
  | c :: r =>
      if Ascii.eqb c dquote then Some ([], r)
      else if Ascii.eqb c backslash then
        match r with
        | [] => None
        | e :: r1 =>
            if Ascii.eqb e dquote then push dquote (parseChars r1)
            else if Ascii.eqb e backslash then push backslash (parseChars r1)
            else if Ascii.eqb e "/"%char then push "/"%char (parseChars r1)
            else if Ascii.eqb e "b"%char then push (ascii_of_nat 8) (parseChars r1)
            else if Ascii.eqb e "f"%char then push (ascii_of_nat 12) (parseChars r1)
            else if Ascii.eqb e "n"%char then push (ascii_of_nat 10) (parseChars r1)
            else if Ascii.eqb e "r"%char then push (ascii_of_nat 13) (parseChars r1)
            else if Ascii.eqb e "t"%char then push (ascii_of_nat 9) (parseChars r1)
            else if Ascii.eqb e "u"%char then
              match r1 with
              | h1 :: h2 :: h3 :: h4 :: r2 =>
                  match hex4 h1 h2 h3 h4 with
                  | Some code =>
                      if (code <? 256)%N
                      then push (ascii_of_N code) (parseChars r2)
                      else None
                  | None => None
                  end
              | _ => None
              end
            else None
        end
      else if (N_of_ascii c <? 32)%N then None
      else push c (parseChars r)
  end.

(** A number literal: an optional minus and the digits, without a
    superfluous leading zero. *)
Definition parseNumber (s : str) : option (Z * str) :=
  let '(negative, s1) :=
    match s with
    | c :: r => if Ascii.eqb c "-"%char then (true, r) else (false, s)
    | [] => (false, s)
    end in
  let (digits, rest) := spanDigits s1 in
  match digits with
  | [] => None
  | d :: more =>
      if Ascii.eqb d "0"%char && nonEmpty more then None
      else if match rest with
              | c :: _ => Ascii.eqb c "."%char || Ascii.eqb c "e"%char
                          || Ascii.eqb c "E"%char
              | [] => false
              end then None
      else
        match NilZero.uint_of_string (string_of_list_ascii digits) with
        | Some u =>
            let n := Z.of_N (N.of_uint u) in
            Some (if negative then - n else n, rest)
        | None => None
        end
  end.

(** [object[k] = v] while the object is built: a repeated key keeps its
    place and takes the later value. *)
Fixpoint setField (k : str) (v : value) (fields : list (str * value))
  : list (str * value) :=
  match fields with
  | [] => [(k, v)]
  | (k', v') :: rest =>
      if JsString.eqb k k' then (k', v) :: rest
      else (k', v') :: setField k v rest
  end.

(** The input after the keyword [word]. *)
Definition expect (word s : str) : option str :=
  if startsWith s word then Some (skipn (List.length word) s) else None.

Definition withRest {A B : Type} (f : A -> B) (r : option (A * str))
  : option (B * str) :=
  match r with
  | Some (a, rest) => Some (f a, rest)
  | None => None
  end.

Fixpoint parseValue (fuel : nat) (s : str) {struct fuel} : option (value * str) :=
  match fuel with
  | O => None
  | S fuel' =>
      match skipWs s with
      | [] => None
      | c :: r =>
          if Ascii.eqb c "n"%char then
            option_map (pair VNull) (expect "ull" r)
          else if Ascii.eqb c "t"%char then
            option_map (pair (VBool true)) (expect "rue" r)
          else if Ascii.eqb c "f"%char then
            option_map (pair (VBool false)) (expect "alse" r)
          else if Ascii.eqb c dquote then withRest VStr (parseChars r)
          else if Ascii.eqb c "["%char then
            match skipWs r with
            | [] => None
            | c' :: r' =>
                if Ascii.eqb c' "]"%char then Some (VArr [], r')
                else withRest VArr (parseElements fuel' r)
            end
          else if Ascii.eqb c "{"%char then
            match skipWs r with
            | [] => None
            | c' :: r' =>
                if Ascii.eqb c' "}"%char then Some (VObj [], r')
                else withRest VObj (parseMembers fuel' [] r)
            end
          else withRest VNum (parseNumber (c :: r))
      end
  end

with parseElements (fuel : nat) (s : str) {struct fuel}
  : option (list value * str) :=
  match fuel with
  | O => None
  | S fuel' =>
      match parseValue fuel' s with
      | None => None
      | Some (v, r) =>
          match skipWs r with
          | [] => None
          | c :: r' =>
              if Ascii.eqb c ","%char then
                withRest (cons v) (parseElements fuel' r')
              else if Ascii.eqb c "]"%char then Some ([v], r')
              else None
          end
      end
  end

with parseMembers (fuel : nat) (acc : list (str * value)) (s : str)
    {struct fuel} : option (list (str * value) * str) :=
  match fuel with
  | O => None
  | S fuel' =>
      match skipWs s with
      | [] => None
      | c :: r =>
          if Ascii.eqb c dquote then
            match parseChars r with
            | None => None
            | Some (k, r1) =>
                match skipWs r1 with
                | [] => None
                | c1 :: r2 =>
                    if Ascii.eqb c1 ":"%char then
                      match parseValue fuel' r2 with
                      | None => None
                      | Some (v, r3) =>
                          let acc' := setField k v acc in
                          match skipWs r3 with
                          | [] => None
                          | c3 :: r4 =>
                              if Ascii.eqb c3 ","%char
                              then parseMembers fuel' acc' r4
                              else if Ascii.eqb c3 "}"%char
                              then Some (acc', r4)
                              else None
                          end
                      end
                    else None
                end
            end
          else None
      end
  end.

(** [JSON.parse(text)]: the value the whole text denotes, or a
    [SyntaxError].  The model reads the JSON texts whose numbers are integer
    literals and whose escapes denote code units below 256; the texts
    [stringify] writes are among them.  [JSON.parse] also reads numbers with
    a fraction or an exponent and higher escapes, and it enumerates
    integer-like keys in numeric order; the values of the model cannot express
    these, and the model reports a [SyntaxError] on such a text: its failure
    on a text is therefore no evidence that the text is no JSON.  Where a
    statement is about a text that is no JSON, it says so by the shape of the
    text. *)
Definition parse (text : str) : result value :=
  match parseValue (S (List.length text)) text with
  | Some (v, rest) =>
      match skipWs rest with
      | [] => Ok v
      | _ :: _ => Throw SyntaxError
      end
  | None => Throw SyntaxError
  end.

(** Data as [JSON.parse] builds it: the keys of an object are distinct. *)
Fixpoint wellFormed (v : value) : Prop :=
  match v with
  | VArr items =>
      (fix all (l : list value) : Prop :=
         match l with
         | [] => True
         | x :: l' => wellFormed x /\ all l'
         end) items
  | VObj fields =>
      NoDup (map fst fields) /\
      (fix all (l : list (str * value)) : Prop :=
         match l with
         | [] => True
         | (_, x) :: l' => wellFormed x /\ all l'
         end) fields
  | _ => True
  end.

(** [JSON.stringify] applied to the result of an expression. *)
Definition stringifyJs (v : jsval) : jsval :=
  match v with
  | JUndef => JUndef
  | JNaN => jsStr "null"
  | JV x => jsStr (stringify x)
  end.

End Json.


(** A runtime for examples: [Number(s)] on the decimal writing of an
    integer, with surrounding white space and an optional sign; every other
    text reads as [NaN] here.  The properties below hold for every runtime. *)
Module DecimalRuntime.

Definition trim (s : str) : str :=
  rev (Json.skipWs (rev (Json.skipWs s))).

Definition unsigned (digits : str) : num :=
  if nonEmpty digits && forallb Json.isDigit digits then
    match NilZero.uint_of_string (string_of_list_ascii digits) with
    | Some u => Int (Z.of_N (N.of_uint u))
    | None => NaN
    end
  else NaN.

Definition negate (n : num) : num :=
  match n with
  | Int z => Int (- z)
  | NaN => NaN
  end.

Definition stringToNumber (s : str) : num :=
  match trim s with
  | [] => Int 0
  | c :: r =>
      if Ascii.eqb c "-"%char then negate (unsigned r)
      else if Ascii.eqb c "+"%char then unsigned r
      else unsigned (c :: r)
  end.

Definition runtime : Runtime := {| StringToNumber := stringToNumber |}.

End DecimalRuntime.


(* ===================================================================== *)
(** * awsService.js: simulated progress *)
(* ===================================================================== *)

Module AwsService.

(** The options of [startSimulatedProgress]. *)
Record SimOptions := mkSimOptions {
  start : Z;
  ceiling : Z;
  intervalMs : Z;
  minStep : Z;
  maxStep : Z
}.

(** [{ start = 5, ceiling = 95, intervalMs = 800, minStep = 1, maxStep = 5 }] *)
Definition defaultOptions : SimOptions :=
  {| start := 5; ceiling := 95; intervalMs := 800; minStep := 1; maxStep := 5 |}.

(** [Math.ceil(distance / 10)] on an integer. *)
Definition ceilTenth (distance : Z) : Z := - ((- distance) / 10).

(** The variables the closures of [startSimulatedProgress] share: [current],
    [stopped], and whether the interval [id] has been cleared. *)
Record Sim := mkSim {
  current : Z;
  stopped : bool;
  cleared : bool
}.

(** The synchronous part: the first call of [onTick] and the creation of the
    interval.  The second component is what [onTick] receives. *)
Definition startSimulatedProgress (o : SimOptions) : Sim * list Z :=
  ({| current := start o; stopped := false; cleared := false |},
   [Z.min (start o) (ceiling o)]).

(** One period of the interval: the callback runs unless the interval has
    been cleared. *)
Definition tick (o : SimOptions) (s : Sim) : Sim * list Z :=
  if cleared s then (s, [])
  else if stopped s then (s, [])
  else
    let distance := Z.max 0 (ceiling o - current s) in
    let stepBase :=
      Z.max (minStep o) (Z.min (maxStep o) (ceilTenth distance)) in
    let delta := Z.max (minStep o) (Z.min (maxStep o) stepBase) in
    let current' := Z.min (current s + delta) (ceiling o) in
    ({| current := current'; stopped := stopped s;
        cleared := ceiling o <=? current' |},
     [current']).

(** The function [startSimulatedProgress] returns: [stopSim]. *)
Definition stopSim (s : Sim) : Sim :=
  {| current := current s; stopped := true; cleared := true |}.

(** [n] periods of the interval. *)
Fixpoint ticks (o : SimOptions) (n : nat) (s : Sim) : Sim * list Z :=
  match n with
  | O => (s, [])
  | S n' =>
      let (s1, e1) := tick o s in
      let (s2, e2) := ticks o n' s1 in
      (s2, e1 ++ e2)
  end.

(** A run: the start and [n] periods. *)
Definition simulate (o : SimOptions) (n : nat) : Sim * list Z :=
  let (s0, e0) := startSimulatedProgress o in
  let (s1, e1) := ticks o n s0 in
  (s1, e0 ++ e1).

(** The progress values a run hands to [onTick], in order. *)
Definition emitted (o : SimOptions) (n : nat) : list Z := snd (simulate o n).

(** ** uploadFileToS3, invokeLambdaFunction and processRFP *)

Definition S3_INPUT_BUCKET : str := "presales-rfp-inputs".
Definition S3_OUTPUT_BUCKET : str := "presales-rfp-outputs".

(** The argument of [onProgress]. *)
Record ProgressInfo := mkProgress {
  step : str;
  message : str;
  progress : Z
}.

Record File := mkFile {
  name : str;
  type : str
}.

(** What the world outside does during one call of [processRFP]. *)
Record World := mkWorld {
  (** [Date.now()] *)
  now : Z;
  (** the percentages of the [httpUploadProgress] events *)
  uploadProgress : list Z;
  (** the error [upload.done()] fails with, if it fails *)
  uploadFailure : option exn;
  (** the periods of the interval that elapse before the invocation settles *)
  periods : nat;
  (** [lambdaClient.invoke]: the decoded payload of the response to a
      request payload, or the failure of the call *)
  lambda : str -> result str;
  (** [localStorage.setItem] throws (quota, private mode) *)
  storageFull : bool
}.

Record UploadResult := mkUploadResult {
  success : bool;
  key : str;
  bucket : str
}.

(** [userEmail.split('@')[0]] *)
Fixpoint beforeAt (s : str) : str :=
  match s with
  | [] => []
  | c :: r => if Ascii.eqb c "@"%char then [] else c :: beforeAt r
  end.

(** The percentages handed to the progress callback, and the result. *)
Definition uploadFileToS3 (file : File) (userEmail : str) (w : World)
  : list Z * result UploadResult :=
  let username := beforeAt userEmail in
  let s3Key := username ++ lit "/" ++ numToStr (now w) ++ lit "_" ++ name file in
  match uploadFailure w with
  | None =>
      (uploadProgress w,
       Ok {| success := true; key := s3Key; bucket := S3_INPUT_BUCKET |})
  | Some err =>
      (uploadProgress w,
       Throw (Error (lit "Failed to upload: " ++ messageOf err)))
  end.

(** [v !== n] for a number [n]. *)
Definition differsFrom (n : Z) (v : jsval) : bool :=
  match v with
  | JV (VNum m) => negb (m =? n)
  | _ => true
  end.

Definition invokeLambdaFunction (payload : value) (w : World) : result value :=
  text <- lambda w (Json.stringify payload) ;;
  result <- Json.parse text ;;
  statusCode <- get (JV result) "statusCode" ;;
  if truthy statusCode && differsFrom 200 statusCode then
    body <- get (JV result) "body" ;;
    Throw (Error (toString (jsOr body (jsStr "Lambda returned error"))))
  else Ok result.

(** [{ success: true, uploadResult, processingResult }] *)
Record Processed := mkProcessed {
  uploadResult : UploadResult;
  processingResult : value
}.

(** A call of [processRFP]: the calls of [onProgress] in order, the
    simulation when the call ends if it was started, and what the call
    returns or throws. *)
Record Run := mkRun {
  reported : list ProgressInfo;
  timer : option Sim;
  returned : result Processed
}.

Definition pipelineOptions : SimOptions :=
  {| start := 10; ceiling := 95; intervalMs := 900;
     minStep := minStep defaultOptions; maxStep := maxStep defaultOptions |}.

Definition pipelinePayload (s3Key : str) : value :=
  VObj [ (lit "action", VStr "full_pipeline");
         (lit "bucket", VStr S3_INPUT_BUCKET);
         (lit "s3_key", VStr s3Key);
         (lit "prompt", VStr "Process RPF") ].

Definition processRFP (file : File) (userEmail : str) (w : World) : Run :=
  let (percentages, uploaded) := uploadFileToS3 file userEmail w in
  let uploading :=
    mkProgress "upload" "Uploading file..." 0
    :: map (mkProgress "upload" "Uploading to S3...") percentages in
  match uploaded with
  | Throw err => {| reported := uploading; timer := None; returned := Throw err |}
  | Ok uploadResult =>
      let (s0, first) := startSimulatedProgress pipelineOptions in
      let (s1, later) := ticks pipelineOptions (periods w) s0 in
      let invoking :=
        uploading
        ++ [ mkProgress "upload" "Upload complete" 100;
             mkProgress "process" "Invoking Bedrock Agent..." 10 ]
        ++ map (mkProgress "process" "Processing...") (first ++ later) in
      match invokeLambdaFunction (pipelinePayload (key uploadResult)) w with
      | Ok result =>
          {| reported :=
               invoking ++ [ mkProgress "process" "Processing complete!" 100 ];
             timer := Some (stopSim s1);
             returned := Ok {| uploadResult := uploadResult;
                               processingResult := result |} |}
      | Throw err =>
          {| reported := invoking;
             timer := Some (stopSim s1);
             returned := Throw err |}
      end
  end.


End AwsService.


(* ===================================================================== *)
(** * Pipeline steps and the step finders *)
(* ===================================================================== *)

(** A step record of the pipeline result.  The field the source reads as
    [s.step] is the step's name; [s.output] is the storage key of its
    artifact.  [None] is an absent (undefined or null) field. *)
Record StepRecord := mkStep {
  step : option str;
  output : option str;
  status : option str
}.

Module JsArray.

(** [x || ''] on an optional string. *)
Definition orEmpty (x : option str) : str :=
  match x with Some s => s | None => [] end.

(** [Array.prototype.find].  The element is returned with its position,
    which stands for the reference of the object found. *)
Fixpoint findFrom {A : Type} (p : A -> bool) (i : nat) (l : list A)
  : option (nat * A) :=
  match l with
  | [] => None
  | x :: l' => if p x then Some (i, x) else findFrom p (S i) l'
  end.

Definition find {A : Type} (p : A -> bool) (l : list A) : option (nat * A) :=
  findFrom p 0 l.

(** [a || b] where [a] and [b] are results of [find]. *)
Definition orElse {A : Type} (a b : option A) : option A :=
  match a with Some _ => a | None => b end.

End JsArray.

Import JsArray.

(** The step records of a pipeline result:
    [results.body?.steps || results.steps || []], when it is an array.  A
    step is read through the text of its fields; a field that holds no text
    reads as absent.  This is what the callbacks of the finders read on a
    step that is not null and whose name and output are strings or falsy;
    on another step the callbacks throw a [TypeError] at
    [(s.step || '').toLowerCase()], which the record does not express: the
    statements about the effect of a component on a whole result take steps
    of the first kind. *)
Definition stepOfValue (v : value) : StepRecord :=
  {| step := asString (getOpt (JV v) "step");
     output := asString (getOpt (JV v) "output");
     status := asString (getOpt (JV v) "status") |}.

Definition stepsOf (results : jsval) : option (list StepRecord) :=
  let steps :=
    jsOr (getOpt (getOpt results "body") "steps")
         (jsOr (getOpt results "steps") (JV (VArr []))) in
  option_map (map stepOfValue) (asArray steps).

(** [localStorage]: the items, by key. *)
Module LocalStorage.

Definition Storage := list (str * str).

Fixpoint getItem (k : str) (s : Storage) : option str :=
  match s with
  | [] => None
  | (k', v) :: rest => if JsString.eqb k k' then Some v else getItem k rest
  end.

Fixpoint setItem (k v : str) (s : Storage) : Storage :=
  match s with
  | [] => [(k, v)]
  | (k', v') :: rest =>
      if JsString.eqb k k' then (k', v) :: rest else (k', v') :: setItem k v rest
  end.

End LocalStorage.


(** ** Dashboard (ChatAgent.js, second document): SOW, pricing and
    architecture detection, and the download listing *)
Module Dashboard.

Definition sowNamed (s : StepRecord) : bool :=
  let name := toLowerCase (orEmpty (step s)) in
  let out := toLowerCase (orEmpty (output s)) in
  let isDoc := endsWith out ".docx" || endsWith out ".pdf" in
  isDoc && (includes name "sow" || includes name "statement of work"
            || includes out "sow").

Definition sowFallback (s : StepRecord) : bool :=
  let out := toLowerCase (orEmpty (output s)) in
  nonEmpty out && (endsWith out ".docx" || endsWith out ".pdf").

Definition sowStep (steps : list StepRecord) : option (nat * StepRecord) :=
  orElse (find sowNamed steps) (find sowFallback steps).

Definition pricingNamed (s : StepRecord) : bool :=
  let name := toLowerCase (orEmpty (step s)) in
  let out := toLowerCase (orEmpty (output s)) in
  let looksJson := endsWith out ".json" in
  let mentionsPricing :=
    includes name "pricing" || includes out "pricing" || includes out "price" in
  looksJson && mentionsPricing.

Definition pricingFallback (s : StepRecord) : bool :=
  let out := toLowerCase (orEmpty (output s)) in
  nonEmpty out && endsWith out ".json".

Definition pricingStep (steps : list StepRecord) : option (nat * StepRecord) :=
  orElse (find pricingNamed steps) (find pricingFallback steps).

Definition architectureMatch (s : StepRecord) : bool :=
  let name := toLowerCase (orEmpty (step s)) in
  let out := toLowerCase (orEmpty (output s)) in
  let isPng := endsWith out ".png" in
  let mentionsArchitecture :=
    includes name "architecture" || includes name "diagram"
    || includes out "architecture" || includes out "diagram" in
  isPng && mentionsArchitecture.

Definition architectureStep (steps : list StepRecord)
  : option (nat * StepRecord) :=
  find architectureMatch steps.

(** The filter of the "Download Results" grid. *)
Definition downloadable (s : StepRecord) : bool :=
  let name := toLowerCase (orEmpty (step s)) in
  nonEmpty (orEmpty (output s))
  && negb (includes name "parsing") && negb (includes name "clarification").

Definition downloadListing (steps : list StepRecord) : list StepRecord :=
  filter downloadable steps.

(** *** renderPricingTable *)

(** [toCurrency(value, currency)]: the amount and the currency code handed
    to [Intl.NumberFormat], whose formatting is the runtime's. *)
Record Money := mkMoney {
  amount : jsval;
  currencyCode : jsval
}.

Definition toCurrency `{Runtime} (v currency : jsval) : Money :=
  let num :=
    match asString v with
    | Some s => ofNum (StringToNumber s)
    | None => v
    end in
  {| amount := jsOr num (jsNum 0); currencyCode := jsOr currency (jsStr "USD") |}.

(** A cell of the breakdown table: interpolated text or a formatted amount. *)
Inductive Cell :=
| Plain (text : str)
| Formatted (m : Money).

Record BreakdownRow := mkBreakdownRow {
  label : str;
  cell : Cell
}.

Definition breakdownLabels : list (str * str) :=
  [ (lit "infra_monthly", lit "Infra Monthly");
    (lit "migration_per_app_total", lit "Migration (per app total)");
    (lit "data_migration_total", lit "Data Migration Total");
    (lit "pm_and_testing", lit "PM & Testing");
    (lit "contingency", lit "Contingency");
    (lit "duration_months", lit "Duration (months)") ].

Record Recommendation := mkRecommendation {
  recType : jsval;
  recAmount : Money;
  recRationale : option jsval
}.

Record StructuredEstimate := mkStructuredEstimate {
  estimatedLow : option Money;
  estimatedHigh : option Money;
  duration : option jsval;
  feasible : bool;
  feasibilityText : jsval;
  fundingGap : option (Money * option jsval);
  breakdownRows : list BreakdownRow;
  recommendations : list Recommendation
}.

Record Row := mkRow {
  description : jsval;
  quantity : jsval;
  unitPrice : jsval;
  total : jsval
}.

Record TabularEstimate := mkTabularEstimate {
  rows : list Row;
  grandTotal : num;
  currency : jsval
}.

(** What [renderPricingTable] displays. *)
Inductive PricingView :=
| NoPricing
| Structured (e : StructuredEstimate) (raw : jsval)
| Tabular (t : TabularEstimate)
| RawJson (raw : jsval).

Definition whenDefined {A : Type} (v : jsval) (a : A) : option A :=
  if defined v then Some a else None.

(** The rows of the breakdown table: the keys of [breakdownLabels], in its
    order, that [breakdown] defines. *)
Fixpoint breakdownRowsOf `{Runtime} (breakdown currency : jsval)
    (labels : list (str * str)) : result (list BreakdownRow) :=
  match labels with
  | [] => Ok []
  | (key, lbl) :: labels' =>
      val <- get breakdown key ;;
      rest <- breakdownRowsOf breakdown currency labels' ;;
      if defined val then
        let isMonths := JsString.eqb key "duration_months" in
        Ok ({| label := lbl;
               cell := if isMonths then Plain (toString val)
                       else Formatted (toCurrency val currency) |} :: rest)
      else Ok rest
  end.

Definition renderRecommendation `{Runtime} (currency : jsval) (rec : value)
  : result Recommendation :=
  type <- get (JV rec) "type" ;;
  amt <- get (JV rec) "amount" ;;
  rationale <- get (JV rec) "rationale" ;;
  Ok {| recType := type;
        recAmount := toCurrency amt currency;
        recRationale := if truthy rationale then Some rationale else None |}.

Definition renderStructured `{Runtime} (data : jsval) : result StructuredEstimate :=
  pc0 <- get data "pricing_check" ;;
  let pc := jsOr pc0 emptyObject in
  ecr0 <- get pc "estimated_cost_range" ;;
  let ecr := jsOr ecr0 emptyObject in
  breakdown0 <- get pc "breakdown" ;;
  let breakdown := jsOr breakdown0 emptyObject in
  feasibility0 <- get pc "feasibility" ;;
  let feasibility := jsOr feasibility0 emptyObject in
  recs0 <- get pc "funding_recommendations" ;;
  let recs := match asArray recs0 with Some l => l | None => [] end in
  ecrCurrency <- get ecr "currency" ;;
  let currency := jsOr (jsOr ecrCurrency (getOpt data "currency")) (jsStr "USD") in
  bRows <- breakdownRowsOf breakdown currency breakdownLabels ;;
  let gapAbs := getOpt feasibility "funding_gap_absolute" in
  let gapPct := getOpt feasibility "funding_gap_pct" in
  let feasibilityName := getOpt feasibility "feasibility" in
  let isFeasible :=
    JsString.eqb (toLowerCase (toString (jsOr feasibilityName (jsStr ""))))
                 "feasible" in
  let low := getOpt ecr "low" in
  let high := getOpt ecr "high" in
  let months := getOpt breakdown "duration_months" in
  rendered <- mapM (renderRecommendation currency) recs ;;
  Ok {| estimatedLow := whenDefined low (toCurrency low currency);
        estimatedHigh := whenDefined high (toCurrency high currency);
        duration := whenDefined months months;
        feasible := isFeasible;
        feasibilityText :=
          if isFeasible then jsStr "Feasible"
          else jsOr feasibilityName (jsStr "Unknown");
        fundingGap :=
          whenDefined gapAbs
            (toCurrency gapAbs currency, whenDefined gapPct gapPct);
        breakdownRows := bRows;
        recommendations := rendered |}.

(** The array the tabular view reads its items from. *)
Definition itemsOf (data : jsval) : option (list value) :=
  match asArray data with
  | Some l => Some l
  | None =>
      match asArray (getOpt data "items") with
      | Some l => Some l
      | None =>
          match asArray (getOpt data "lineItems") with
          | Some l => Some l
          | None => asArray (getOpt data "pricing")
          end
      end
  end.

(** The total of an item: [it.total ?? it.extendedPrice ?? it.amount ??
    (Number(quantity) * Number(unitPrice))]. *)
Definition rowTotal `{Runtime} (itTotal itExtendedPrice itAmount qty price : jsval)
  : jsval :=
  jsCoalesce itTotal
    (jsCoalesce itExtendedPrice
       (jsCoalesce itAmount (ofNum (numMul (toNumber qty) (toNumber price))))).

Definition renderRow `{Runtime} (it : value) (idx : nat) : result Row :=
  d1 <- get (JV it) "description" ;;
  d2 <- get (JV it) "item" ;;
  d3 <- get (JV it) "name" ;;
  let description :=
    jsOr d1 (jsOr d2 (jsOr d3
      (jsStr (lit "Item " ++ toString (jsNum (Z.of_nat idx + 1)))))) in
  q1 <- get (JV it) "quantity" ;;
  q2 <- get (JV it) "qty" ;;
  let quantity := jsCoalesce q1 (jsCoalesce q2 (jsNum 1)) in
  u1 <- get (JV it) "unitPrice" ;;
  u2 <- get (JV it) "pricePerUnit" ;;
  u3 <- get (JV it) "unit_rate" ;;
  u4 <- get (JV it) "rate" ;;
  let unitPrice :=
    jsCoalesce u1 (jsCoalesce u2 (jsCoalesce u3 (jsCoalesce u4 (jsNum 0)))) in
  t1 <- get (JV it) "total" ;;
  t2 <- get (JV it) "extendedPrice" ;;
  t3 <- get (JV it) "amount" ;;
  Ok {| description := description;
        quantity := quantity;
        unitPrice := unitPrice;
        total := rowTotal t1 t2 t3 quantity unitPrice |}.

(** [rows.reduce((acc, r) => acc + Number(r.total || 0), 0)] *)
Definition sumTotals `{Runtime} (rows : list Row) : num :=
  fold_left (fun acc r => numAdd acc (toNumber (jsOr (total r) (jsNum 0))))
            rows (Int 0).

Definition renderPricingTable `{Runtime} (data : jsval) : result PricingView :=
  if negb (truthy data) then Ok NoPricing
  else if truthy (getOpt data "pricing_check") then
    e <- renderStructured data ;;
    Ok (Structured e data)
  else
    match itemsOf data with
    | None => Ok (RawJson data)
    | Some items =>
        let first := ofOption (nth_error items 0) in
        let currency :=
          jsOr (jsOr (getOpt data "currency") (getOpt first "currency"))
               (jsStr "USD") in
        rows <- mapiM renderRow 0 items ;;
        Ok (Tabular {| rows := rows;
                       grandTotal := sumTotals rows;
                       currency := currency |})
    end.


(** *** handleUpload *)

(** The state [handleUpload] works on. *)
Record UploadState := mkUploadState {
  selectedFile : option AwsService.File;
  processing : bool;
  progress : AwsService.ProgressInfo;
  results : jsval;
  error : str
}.

Definition idle : AwsService.ProgressInfo :=
  AwsService.mkProgress [] [] 0.

(** [useState] at mount: [results] starts as [presetResults || null]. *)
Definition initialUploadState (presetResults : jsval) : UploadState :=
  {| selectedFile := None; processing := false; progress := idle;
     results := jsOr presetResults (JV VNull); error := [] |}.

(** A Lambda proxy response may carry its body as JSON text: the body is
    parsed, and left as it is when it does not parse. *)
Definition normalizeBody (processing : value) : value :=
  match processing with
  | VObj fields =>
      match asString (getOpt (JV processing) "body") with
      | Some text =>
          match Json.parse text with
          | Ok parsed => VObj (Json.setField "body" parsed fields)
          | Throw _ => processing
          end
      | None => processing
      end
  | _ => processing
  end.

(** [err.message || fallback] *)
Definition messageOr (err : exn) (fallback : str) : str :=
  if nonEmpty (messageOf err) then messageOf err else fallback.

(** What a call of [handleUpload] leaves behind: the state, the storage, the
    route navigated to with its state, the successive values of [progress],
    and the simulation of [processRFP]. *)
Record Handled := mkHandled {
  state : UploadState;
  storage : LocalStorage.Storage;
  navigated : option (str * jsval);
  shown : list AwsService.ProgressInfo;
  simulation : option AwsService.Sim
}.

Definition handleUpload (st : UploadState) (userEmail : str)
    (store : LocalStorage.Storage) (w : AwsService.World) : Handled :=
  match selectedFile st with
  | None =>
      {| state := {| selectedFile := None; processing := processing st;
                     progress := progress st; results := results st;
                     error := "Please select a file first" |};
         storage := store; navigated := None; shown := [];
         simulation := None |}
  | Some file =>
      let run := AwsService.processRFP file userEmail w in
      match AwsService.returned run with
      | Ok result =>
          let processed := normalizeBody (AwsService.processingResult result) in
          {| state := {| selectedFile := None; processing := false;
                         progress := idle; results := JV processed;
                         error := [] |};
             storage :=
               if AwsService.storageFull w then store
               else LocalStorage.setItem "rfx_results"
                      (Json.stringify processed) store;
             navigated := Some (lit "/clarifications", JV processed);
             shown := AwsService.reported run ++ [idle];
             simulation := AwsService.timer run |}
      | Throw err =>
          {| state := {| selectedFile := Some file; processing := false;
                         progress := idle; results := JV VNull;
                         error := messageOr err "Failed to process RFP" |};
             storage := store; navigated := None;
             shown := AwsService.reported run ++ [idle];
             simulation := AwsService.timer run |}
      end
  end.

(** *** The effect on [results] *)

(** The state of the roles the Dashboard displays. *)
Record RoleState := mkRoleState {
  sowKey : str;
  sowFilename : str;
  pricingData : jsval;
  pricingLoading : bool;
  pricingError : str;
  architectureKey : str;
  architectureFilename : str;
  architectureLoading : bool;
  architectureError : str
}.

Definition noRoles : RoleState :=
  {| sowKey := []; sowFilename := []; pricingData := JV VNull;
     pricingLoading := false; pricingError := [];
     architectureKey := []; architectureFilename := [];
     architectureLoading := false; architectureError := [] |}.

(** The state after the effect has run, and the key of the pricing
    artifact whose fetch it has started. *)
Definition detectOutputs (results : jsval) (prev : RoleState)
  : RoleState * option str :=
  if negb (truthy results) then
    ({| sowKey := []; sowFilename := []; pricingData := JV VNull;
        pricingLoading := false; pricingError := [];
        architectureKey := []; architectureFilename := [];
        architectureLoading := false; architectureError := [] |}, None)
  else
    match stepsOf results with
    | None => (prev, None)
    | Some steps =>
        let sowOut := option_map (fun f => orEmpty (output (snd f))) (sowStep steps) in
        let pricingOut :=
          option_map (fun f => orEmpty (output (snd f))) (pricingStep steps) in
        let archOut :=
          option_map (fun f => orEmpty (output (snd f))) (architectureStep steps) in
        ({| sowKey := match sowOut with Some k => k | None => [] end;
            sowFilename :=
              match sowOut with Some k => lastSegment k | None => [] end;
            pricingData :=
              match pricingOut with
              | Some _ => pricingData prev
              | None => JV VNull
              end;
            pricingLoading :=
              match pricingOut with Some _ => true | None => false end;
            pricingError := [];
            architectureKey := match archOut with Some k => k | None => [] end;
            architectureFilename :=
              match archOut with Some k => lastSegment k | None => [] end;
            architectureLoading := false;
            architectureError := [] |},
         pricingOut)
    end.

(** The fetch of the pricing artifact settles. *)
Definition pricingSettled (fetched : result value) (st : RoleState) : RoleState :=
  {| sowKey := sowKey st; sowFilename := sowFilename st;
     pricingData :=
       match fetched with Ok data => JV data | Throw _ => pricingData st end;
     pricingLoading := false;
     pricingError :=
       match fetched with
       | Ok _ => pricingError st
       | Throw e => messageOr e "Failed to load pricing data"
       end;
     architectureKey := architectureKey st;
     architectureFilename := architectureFilename st;
     architectureLoading := architectureLoading st;
     architectureError := architectureError st |}.


End Dashboard.

(** ** ArchitectureDiagram (ArchitectureDiagram.js, first document) *)
Module ArchitectureDiagram.

Definition architectureMatch (s : StepRecord) : bool :=
  match step s with
  | Some name => JsString.eqb name "Architecture Diagram"
  | None => false
  end
  && nonEmpty (orEmpty (output s))
  && endsWith (orEmpty (output s)) ".json".

Definition architectureStep (steps : list StepRecord)
  : option (nat * StepRecord) :=
  find architectureMatch steps.

(** The state of the component. *)
Record State := mkState {
  architectureData : jsval;
  loading : bool;
  error : str
}.

Definition initialState : State :=
  {| architectureData := JV VNull; loading := false; error := [] |}.

(** The state once the effect on [results] has run and the promise of
    [fetchS3Json] has settled with [fetched]. *)
Definition loadArchitecture (steps : list StepRecord)
    (fetched : str -> result value) (st : State) : State :=
  match architectureStep steps with
  | Some (_, s) =>
      match fetched (orEmpty (output s)) with
      | Ok data =>
          {| architectureData := JV data; loading := false; error := [] |}
      | Throw e =>
          {| architectureData := architectureData st;
             loading := false;
             error := if nonEmpty (messageOf e) then messageOf e
                      else lit "Failed to load architecture diagram" |}
      end
  | None => {| architectureData := JV VNull; loading := false; error := [] |}
  end.

(** What [renderArchitectureInfo] displays. *)
Record ArchitectureInfo := mkArchitectureInfo {
  title : jsval;
  customer : jsval;
  generatedAt : jsval;
  recommendedServices : list value;
  explanation : jsval;
  mermaidCode : option jsval;
  implementationNotes : option (list value)
}.

Definition renderArchitectureInfo `{Runtime} (architectureData : jsval)
  : result (option ArchitectureInfo) :=
  if negb (truthy architectureData) then Ok None
  else
    ad <- get architectureData "architecture_diagram" ;;
    if negb (truthy ad) then Ok None
    else
      proposal <- get ad "proposal" ;;
      diagram <- get ad "diagram" ;;
      info <- get proposal "project_info" ;;
      title <- get info "title" ;;
      customer <- get info "customer" ;;
      generated <- get info "generated_at" ;;
      architecture <- get proposal "architecture" ;;
      services <- get architecture "recommended_services" ;;
      serviceList <- arrayOf services ;;
      explanation <- get architecture "explanation" ;;
      mermaid <-
        (if truthy diagram then
           code <- get diagram "mermaid_code" ;;
           Ok (if truthy code then Some code else None)
         else Ok None) ;;
      notes <- get proposal "implementation_notes" ;;
      noteList <-
        (if truthy notes then
           len <- get notes "length" ;;
           if numPositive (toNumber len) then
             l <- arrayOf notes ;; Ok (Some l)
           else Ok None
         else Ok None) ;;
      Ok (Some {| title := title;
                  customer := customer;
                  generatedAt := generated;
                  recommendedServices := serviceList;
                  explanation := explanation;
                  mermaidCode := mermaid;
                  implementationNotes := noteList |}).

(** What the component displays. *)
Inductive View :=
| LoadingView
| ErrorView (message : str)
| NoDataView
| InfoView (info : option ArchitectureInfo).

Definition render `{Runtime} (st : State) : result View :=
  if loading st then Ok LoadingView
  else if nonEmpty (error st) then Ok (ErrorView (error st))
  else if negb (truthy (architectureData st)) then Ok NoDataView
  else
    info <- renderArchitectureInfo (architectureData st) ;;
    Ok (InfoView info).

End ArchitectureDiagram.

(** ** Clarifications (ArchitectureDiagram.js, third document) *)
Module Clarifications.

Definition clarNamed (s : StepRecord) : bool :=
  let name := toLowerCase (orEmpty (step s)) in
  let out := toLowerCase (orEmpty (output s)) in
  endsWith out ".json"
  && (includes name "clarification" || includes out "clarification").

Definition clarFallback (s : StepRecord) : bool :=
  endsWith (toLowerCase (orEmpty (output s))) ".json".

Definition clarStep (steps : list StepRecord) : option (nat * StepRecord) :=
  orElse (find clarNamed steps) (find clarFallback steps).

(** A question of the list: [{ text }]. *)
Record Question := mkQuestion { text : jsval }.

(** An element of a bare array of questions. *)
Definition questionOfItem (q : value) : result Question :=
  match q with
  | VStr _ => Ok {| text := JV q |}
  | _ =>
      a <- get (JV q) "question" ;;
      b <- get (JV q) "q" ;;
      c <- get (JV q) "text" ;;
      d <- get (JV q) "prompt" ;;
      Ok {| text := jsOr a (jsOr b (jsOr c (jsOr d (jsStr (Json.stringify q))))) |}
  end.

(** An element of [json.questions] or [json.clarifications]. *)
Definition questionOfEntry (q : value) : result Question :=
  match q with
  | VStr _ => Ok {| text := JV q |}
  | _ =>
      a <- get (JV q) "question" ;;
      c <- get (JV q) "text" ;;
      Ok {| text := jsOr a (jsOr c (jsStr (Json.stringify q))) |}
  end.

(** The pseudo-question of a key of the payload:
    [`${k}: ${typeof json[k] === 'string' ? json[k] : JSON.stringify(json[k])}`] *)
Definition questionOfKey (json : jsval) (k : str) : result Question :=
  v <- get json k ;;
  let shown :=
    match asString v with
    | Some s => s
    | None => toString (Json.stringifyJs v)
    end in
  Ok {| text := jsStr (k ++ lit ": " ++ shown) |}.

(** The list [processClarifications] hands to [setQuestions]. *)
Definition processClarifications (json : jsval) : result (list Question) :=
  match asArray json with
  | Some items => mapM questionOfItem items
  | None =>
      match asArray (getOpt json "questions") with
      | Some items => mapM questionOfEntry items
      | None =>
          match asArray (getOpt json "clarifications") with
          | Some items => mapM questionOfEntry items
          | None =>
              mapM (questionOfKey json) (keys (jsOr json emptyObject))
          end
      end
  end.

End Clarifications.

(** ** Results (unnamed/part_000): the results of the page *)
Module Results.

(** [location.state?.results], else the cached item parsed, else null; a
    cached item that does not parse reads as null. *)
Definition results (locationResults : jsval) (store : LocalStorage.Storage)
  : jsval :=
  if truthy locationResults then locationResults
  else
    match LocalStorage.getItem "rfx_results" store with
    | Some cached =>
        if nonEmpty cached then
          match Json.parse cached with
          | Ok v => JV v
          | Throw _ => JV VNull
          end
        else JV VNull
    | None => JV VNull
    end.

End Results.


(** ** The classification of the steps into roles

    The source has no single classifier: each component finds the step of
    its role on its own.  [classify] puts the four finders side by side. *)
Inductive Role := Pricing | Clarification | Architecture | Sow.

Definition RoleBinding := Role -> option (nat * StepRecord).

Definition classify (steps : list StepRecord) : RoleBinding :=
  fun r =>
    match r with
    | Pricing => Dashboard.pricingStep steps
    | Clarification => Clarifications.clarStep steps
    | Architecture => Dashboard.architectureStep steps
    | Sow => Dashboard.sowStep steps
    end.

(** The position a role is bound to. *)
Definition boundAt (b : RoleBinding) (r : Role) : option nat :=
  option_map fst (b r).

(* ===================================================================== *)
(** * Further components *)
(* ===================================================================== *)

(** ** awsService.js: dynamic file discovery and the gallery *)
Module AwsDiscovery.

(** An entry of the listing of a bucket: its key and the time of its last
    modification, in milliseconds. *)
Record S3Object := mkS3Object {
  Key : str;
  LastModified : Z
}.

(** The filter of [listUserFiles] for a file type that is given. *)
Definition matchesType (fileType : str) (file : S3Object) : bool :=
  let key := toLowerCase (Key file) in
  if JsString.eqb fileType "clarifications" then
    includes key "clarifications" && endsWith key ".json"
  else if JsString.eqb fileType "architectures" then
    includes key "architecture" && endsWith key ".json"
  else if JsString.eqb fileType "pricing" then
    includes key "pricing" && endsWith key ".json"
  else if JsString.eqb fileType "sow" then
    includes key "sow" && endsWith key ".docx"
  else if JsString.eqb fileType "parsed" then
    includes key "parsed" && endsWith key ".json"
    && negb (includes key "clarifications") && negb (includes key "pricing")
  else endsWith key ".json" || endsWith key ".docx".

(** [files.sort((a, b) => new Date(b.LastModified) - new Date(a.LastModified))]:
    the sort is stable; an element goes before the first one that is not
    newer than it. *)
Fixpoint insertNewest (x : S3Object) (sorted : list S3Object) : list S3Object :=
  match sorted with
  | [] => [x]
  | y :: rest =>
      if LastModified y <=? LastModified x then x :: y :: rest
      else y :: insertNewest x rest
  end.

Definition sortNewestFirst (files : list S3Object) : list S3Object :=
  fold_right insertNewest [] files.

(** [listUserFiles] on the response of the listing: [Contents] may be
    absent; the type filters when it is a non-empty string. *)
Definition listUserFiles (response : result (option (list S3Object)))
    (fileType : option str) : result (list S3Object) :=
  r <- response ;;
  let files := match r with Some l => l | None => [] end in
  let filtered :=
    match fileType with
    | Some t => if nonEmpty t then filter (matchesType t) files else files
    | None => files
    end in
  Ok (sortNewestFirst filtered).

(** [files.length > 0 ? files[0] : null] *)
Definition findLatestUserFile (response : result (option (list S3Object)))
    (fileType : str) : result (option S3Object) :=
  files <- listUserFiles response (Some fileType) ;;
  Ok (hd_error files).

(** The listing of the output bucket under a prefix. *)
Definition Listing := str -> result (option (list S3Object)).

Definition userPrefix (userEmail folder : str) : str :=
  AwsService.beforeAt userEmail ++ lit "/" ++ folder ++ lit "/".

Definition findUserClarifications (userEmail : str) (bucket : Listing)
  : result (option S3Object) :=
  findLatestUserFile (bucket (userPrefix userEmail "clarifications"))
    "clarifications".

Definition findUserArchitectures (userEmail : str) (bucket : Listing)
  : result (option S3Object) :=
  findLatestUserFile (bucket (userPrefix userEmail "aws_architectures"))
    "architectures".

Definition findUserPricing (userEmail : str) (bucket : Listing)
  : result (option S3Object) :=
  findLatestUserFile (bucket (userPrefix userEmail "pricing_outputs")) "pricing".

Definition findUserSOW (userEmail : str) (bucket : Listing)
  : result (option S3Object) :=
  findLatestUserFile (bucket (userPrefix userEmail "sow_drafts")) "sow".

Definition findUserParsed (userEmail : str) (bucket : Listing)
  : result (option S3Object) :=
  findLatestUserFile (bucket (userPrefix userEmail "parsed_outputs")) "parsed".

(** *** The gallery *)

Definition REGION : str := "us-east-1".

Definition architectureDiagrams : list str :=
  [ lit "snehashri.pg/diagrams/RFP_1_20251019_174314_parsed_20251019_174501_custom_diagram.png";
    lit "snehashri.pg/diagrams/RFP_1_20251018_145341_parsed_20251018_145516_custom_diagram.png" ].

(** [https://${bucket}.s3.${REGION}.amazonaws.com/${key}] *)
Definition getS3FileUrl (bucket key : str) : str :=
  lit "https://" ++ bucket ++ lit ".s3." ++ REGION ++ lit ".amazonaws.com/" ++ key.

Record GalleryDiagram := mkGalleryDiagram {
  diagramKey : option str;
  diagramUrl : str
}.

(** [getRandomArchitectureDiagram], from the milliseconds elapsed since the
    last day of the year before: the day of the year selects the diagram.
    [architectureDiagrams[i]] is undefined out of range, and interpolates as
    ["undefined"]. *)
Definition getRandomArchitectureDiagram (elapsedMs : Z) : GalleryDiagram :=
  let dayOfYear := elapsedMs / (1000 * 60 * 60 * 24) in
  let randomIndex := Z.rem dayOfYear (Z.of_nat (length architectureDiagrams)) in
  let selectedDiagram :=
    if randomIndex <? 0 then None
    else nth_error architectureDiagrams (Z.to_nat randomIndex) in
  {| diagramKey := selectedDiagram;
     diagramUrl :=
       getS3FileUrl AwsService.S3_OUTPUT_BUCKET
         (match selectedDiagram with Some k => k | None => lit "undefined" end) |}.

(** [getArchitectureDiagramUrl]: the presigned link, or the direct one when
    signing fails. *)
Definition getArchitectureDiagramUrl (key : str) (presigned : result str) : str :=
  match presigned with
  | Ok url => url
  | Throw _ => getS3FileUrl AwsService.S3_OUTPUT_BUCKET key
  end.

End AwsDiscovery.


(** ** Login (ArchitectureDiagram.js, second document) *)
Module Login.

Definition domain : str := "@hcltech.com".

(** The characters [\s] matches among the first 256 code units. *)
Definition isSpace (c : ascii) : bool :=
  let n := N_of_ascii c in
  ((9 <=? n) && (n <=? 13) || (n =? 32) || (n =? 160))%N.

(** [[^\s@]] *)
Definition localChar (c : ascii) : bool :=
  negb (isSpace c) && negb (Ascii.eqb c "@"%char).

(** The longest prefix of characters of the class, and the rest. *)
Fixpoint spanLocal (s : str) : str * str :=
  match s with
  | c :: r =>
      if localChar c then let (l, rest) := spanLocal r in (c :: l, rest)
      else ([], s)
  | [] => ([], [])
  end.

(** [/^[^\s@]+@hcltech\.com$/.test(email)]: the class excludes the ["@"]
    the literal starts with, so the repetition takes the longest prefix. *)
Definition emailRegex (email : str) : bool :=
  let (l, rest) := spanLocal email in
  nonEmpty l && JsString.eqb rest domain.

(** What [handleSubmit] does: it shows an error, or calls [onLogin]. *)
Inductive Outcome :=
| Rejected (error : str)
| LoggedIn (email : str).

Definition handleSubmit (email : str) : Outcome :=
  if negb (endsWith email domain) then
    Rejected "Only @hcltech.com email addresses are allowed"
  else if negb (emailRegex email) then
    Rejected "Please enter a valid email address"
  else LoggedIn email.

End Login.

(** ** Dashboard: the file picker, the image modal, the summary and the
    pricing card *)
Module DashboardControls.

Import Dashboard.

Definition validTypes : list str :=
  [ lit "application/pdf";
    lit "application/vnd.openxmlformats-officedocument.wordprocessingml.document" ].

(** [validTypes.includes(file.type)] *)
Definition isValidType (t : str) : bool :=
  existsb (JsString.eqb t) validTypes.

(** [handleFileSelect] for [e.target.files[0]]. *)
Definition handleFileSelect (file : option AwsService.File) (st : UploadState)
  : UploadState :=
  match file with
  | None => st
  | Some f =>
      if negb (isValidType (AwsService.type f)) then
        {| selectedFile := selectedFile st; processing := processing st;
           progress := progress st; results := results st;
           error := "Please select a PDF or DOCX file" |}
      else
        {| selectedFile := Some f; processing := processing st;
           progress := progress st; results := results st; error := [] |}
  end.

(** *** The image modal *)

Record Modal := mkModal {
  imageModalOpen : bool;
  imageZoom : Z
}.

Definition initialModal : Modal := {| imageModalOpen := false; imageZoom := 100 |}.

Definition openImageModal (m : Modal) : Modal :=
  {| imageModalOpen := true; imageZoom := 100 |}.

Definition closeImageModal (m : Modal) : Modal :=
  {| imageModalOpen := false; imageZoom := 100 |}.

Definition zoomIn (m : Modal) : Modal :=
  {| imageModalOpen := imageModalOpen m;
     imageZoom := Z.min (imageZoom m + 25) 300 |}.

Definition zoomOut (m : Modal) : Modal :=
  {| imageModalOpen := imageModalOpen m;
     imageZoom := Z.max (imageZoom m - 25) 25 |}.

Definition resetZoom (m : Modal) : Modal :=
  {| imageModalOpen := imageModalOpen m; imageZoom := 100 |}.

(** The handlers the modal calls. *)
Inductive ModalEvent := Open | Close | ZoomIn | ZoomOut | Reset.

Definition modalStep (m : Modal) (e : ModalEvent) : Modal :=
  match e with
  | Open => openImageModal m
  | Close => closeImageModal m
  | ZoomIn => zoomIn m
  | ZoomOut => zoomOut m
  | Reset => resetZoom m
  end.

(** [disabled={imageZoom <= 25}] and [disabled={imageZoom >= 300}] *)
Definition zoomOutDisabled (m : Modal) : bool := imageZoom m <=? 25.
Definition zoomInDisabled (m : Modal) : bool := 300 <=? imageZoom m.

(** *** The summary *)

(** [results.body?.steps?.length || results.steps?.length || 4], for results
    that are not null. *)
Definition stepCount (results : jsval) : jsval :=
  jsOr (getOpt (getOpt (getOpt results "body") "steps") "length")
       (jsOr (getOpt (getOpt results "steps") "length") (jsNum 4)).

(** The text of "Processing Time". *)
Definition processingTime `{Runtime} (results : jsval) : str :=
  let totalTime :=
    jsOr (getOpt (getOpt results "body") "total_time_seconds")
         (getOpt results "total_time_seconds") in
  if truthy totalTime then toString totalTime ++ lit "s"
  else
    let estimatedTime := numMul (toNumber (stepCount results)) (Int 30) in
    lit "~" ++ toString (ofNum estimatedTime) ++ lit "s (estimated)".

(** [step.status === 'success' ? 'Success' : 'Failed'] *)
Definition statusLabel (s : StepRecord) : str :=
  match status s with
  | Some t => if JsString.eqb t "success" then lit "Success" else lit "Failed"
  | None => "Failed"
  end.

(** *** The pricing card *)

(** What the card shows; it is absent when nothing is loading, loaded or
    failed. *)
Inductive PricingCard :=
| NoCard
| CardLoading (alsoError : bool)
| CardError (message : str)
| CardTable (data : jsval).

Definition pricingCard (st : RoleState) : PricingCard :=
  if pricingLoading st || truthy (pricingData st) || nonEmpty (pricingError st)
  then
    if pricingLoading st then CardLoading (nonEmpty (pricingError st))
    else if nonEmpty (pricingError st) then CardError (pricingError st)
    else CardTable (pricingData st)
  else NoCard.

End DashboardControls.


(** ** ArchitectureDiagram: downloadDiagram *)
Module ArchitectureDownload.


End ArchitectureDownload.

(** ** Clarifications: loading, answering and continuing *)
Module ClarificationsPage.

Import Clarifications.

(** [location.state?.results], else the cached item parsed, else null. *)
Definition results (locationResults : jsval) (store : LocalStorage.Storage)
  : jsval :=
  jsOr locationResults
    (match LocalStorage.getItem "rfx_results" store with
     | Some cached =>
         if nonEmpty cached then
           match Json.parse cached with
           | Ok v => JV v
           | Throw _ => JV VNull
           end
         else JV VNull
     | None => JV VNull
     end).

Record State := mkState {
  loading : bool;
  error : str;
  questions : list Question
}.

Definition initialState : State :=
  {| loading := true; error := []; questions := [] |}.

(** The body of the [try] of [loadClarifications]: the questions to set,
    or nothing when no clarification is found. *)
Definition findClarifications (results : jsval) (userEmail : option str)
    (fetched : str -> result value) (bucket : AwsDiscovery.Listing)
  : result (option (list Question)) :=
  fromResults <-
    (if truthy results then
       match stepsOf results with
       | None => Throw TypeError
       | Some steps =>
           match clarStep steps with
           | Some (_, s) =>
               if nonEmpty (orEmpty (output s)) then
                 json <- fetched (orEmpty (output s)) ;;
                 qs <- processClarifications (JV json) ;;
                 Ok (Some qs)
               else Ok None
           | None => Ok None
           end
       end
     else Ok None) ;;
  match fromResults with
  | Some qs => Ok (Some qs)
  | None =>
      match userEmail with
      | Some email =>
          if nonEmpty email then
            latestFile <- AwsDiscovery.findUserClarifications email bucket ;;
            match latestFile with
            | Some file =>
                json <- fetched (AwsDiscovery.Key file) ;;
                qs <- processClarifications (JV json) ;;
                Ok (Some qs)
            | None => Ok None
            end
          else Ok None
      | None => Ok None
      end
  end.

(** The state when [loadClarifications] has run to its end. *)
Definition loadClarifications (results : jsval) (userEmail : option str)
    (fetched : str -> result value) (bucket : AwsDiscovery.Listing)
    (st : State) : State :=
  match findClarifications results userEmail fetched bucket with
  | Ok (Some qs) => {| loading := false; error := []; questions := qs |}
  | Ok None =>
      {| loading := false;
         error := "No clarifications found. Please process an RFP first.";
         questions := questions st |}
  | Throw e =>
      {| loading := false;
         error := Dashboard.messageOr e "Failed to load clarifications";
         questions := questions st |}
  end.

(** *** The answers *)

(** The object [answers]: its keys are indices, which an object keeps in
    increasing order. *)
Definition Answers := list (nat * str).

(** [{ ...prev, [index]: value }] *)
Fixpoint handleAnswerChange (index : nat) (v : str) (prev : Answers) : Answers :=
  match prev with
  | [] => [(index, v)]
  | (i, w) :: rest =>
      if (index <? i)%nat then (index, v) :: (i, w) :: rest
      else if (index =? i)%nat then (i, v) :: rest
      else (i, w) :: handleAnswerChange index v rest
  end.

Fixpoint answerAt (idx : nat) (answers : Answers) : option str :=
  match answers with
  | [] => None
  | (i, w) :: rest => if (idx =? i)%nat then Some w else answerAt idx rest
  end.

(** The value of the text area of a question: [answers[idx] || '']. *)
Definition shownAnswer (idx : nat) (answers : Answers) : str :=
  orEmpty (answerAt idx answers).

(** The object as JSON data. *)
Definition answersValue (answers : Answers) : value :=
  VObj (map (fun '(i, w) => (natToStr i, VStr w)) answers).

(** *** handleContinue *)

(** What [handleContinue] leaves behind: the storage, and the route
    navigated to with its state. *)
Record Continued := mkContinued {
  storage : LocalStorage.Storage;
  route : str;
  stateResults : jsval;
  stateAnswers : Answers
}.

(** The two writes are in one [try]: when the first throws the second is
    not attempted, and a failure is swallowed. *)
Definition handleContinue (results : value) (answers : Answers)
    (store : LocalStorage.Storage) (firstFails secondFails : bool) : Continued :=
  {| storage :=
       if firstFails then store
       else
         let written :=
           LocalStorage.setItem "rfx_results" (Json.stringify results) store in
         if secondFails then written
         else
           LocalStorage.setItem "rfx_clarification_answers"
             (Json.stringify (answersValue answers)) written;
     route := "/results";
     stateResults := JV results;
     stateAnswers := answers |}.

End ClarificationsPage.


(** ** Dashboard: the files of the user in the bucket *)
Module DashboardFiles.

Import Dashboard.

(** [setArchitectureKey(key); setArchitectureFilename(key.split('/').pop())] *)
Definition withArchitecture (key : str) (st : RoleState) : RoleState :=
  {| sowKey := sowKey st; sowFilename := sowFilename st;
     pricingData := pricingData st; pricingLoading := pricingLoading st;
     pricingError := pricingError st;
     architectureKey := key; architectureFilename := lastSegment key;
     architectureLoading := architectureLoading st;
     architectureError := architectureError st |}.

(** [setPricingData(data)] *)
Definition withPricingData (data : value) (st : RoleState) : RoleState :=
  {| sowKey := sowKey st; sowFilename := sowFilename st;
     pricingData := JV data; pricingLoading := pricingLoading st;
     pricingError := pricingError st;
     architectureKey := architectureKey st;
     architectureFilename := architectureFilename st;
     architectureLoading := architectureLoading st;
     architectureError := architectureError st |}.

(** [setSowKey(key); setSowFilename(key.split('/').pop())] *)
Definition withSow (key : str) (st : RoleState) : RoleState :=
  {| sowKey := key; sowFilename := lastSegment key;
     pricingData := pricingData st; pricingLoading := pricingLoading st;
     pricingError := pricingError st;
     architectureKey := architectureKey st;
     architectureFilename := architectureFilename st;
     architectureLoading := architectureLoading st;
     architectureError := architectureError st |}.

Definition whenFound (file : option AwsDiscovery.S3Object)
    (set : str -> RoleState -> RoleState) (st : RoleState) : RoleState :=
  match file with
  | Some f => set (AwsDiscovery.Key f) st
  | None => st
  end.

(** The handler of "Refresh Files": the roles and the error of the
    Dashboard when it has run.  An exception leaves what was set before it
    and sets the error. *)
Definition refreshFiles (userEmail : str) (bucket : AwsDiscovery.Listing)
    (fetched : str -> result value) (st : RoleState) (error : str)
  : RoleState * str :=
  let failed := lit "Failed to refresh files" in
  match AwsDiscovery.findUserArchitectures userEmail bucket with
  | Throw _ => (st, failed)
  | Ok archFile =>
      let st1 := whenFound archFile withArchitecture st in
      match AwsDiscovery.findUserPricing userEmail bucket with
      | Throw _ => (st1, failed)
      | Ok pricingFile =>
          match
            match pricingFile with
            | Some f =>
                data <- fetched (AwsDiscovery.Key f) ;;
                Ok (withPricingData data st1)
            | None => Ok st1
            end
          with
          | Throw _ => (st1, failed)
          | Ok st2 =>
              match AwsDiscovery.findUserSOW userEmail bucket with
              | Throw _ => (st2, failed)
              | Ok sowFile => (whenFound sowFile withSow st2, error)
              end
          end
      end
  end.

(** [loadLatestFiles], run when the component is mounted: without the
    address of a user nothing is loaded; a failure of the fetch of the pricing
    is ignored, and another exception ends the loading silently. *)
Definition loadLatestFiles (userEmail : option str) (bucket : AwsDiscovery.Listing)
    (fetched : str -> result value) (st : RoleState) : RoleState :=
  match userEmail with
  | None => st
  | Some email =>
      if negb (nonEmpty email) then st
      else
        match AwsDiscovery.findUserArchitectures email bucket with
        | Throw _ => st
        | Ok archFile =>
            let st1 := whenFound archFile withArchitecture st in
            match AwsDiscovery.findUserPricing email bucket with
            | Throw _ => st1
            | Ok pricingFile =>
                let st2 :=
                  match pricingFile with
                  | Some f =>
                      match fetched (AwsDiscovery.Key f) with
                      | Ok data => withPricingData data st1
                      | Throw _ => st1
                      end
                  | None => st1
                  end in
                match AwsDiscovery.findUserSOW email bucket with
                | Throw _ => st2
                | Ok sowFile => whenFound sowFile withSow st2
                end
            end
        end
  end.

End DashboardFiles.


(** ** App: the session and the routes *)
Module App.

(** [{ email }] *)
Record User := mkUser { email : str }.

(** [handleLogin] and [handleLogout]: the next value of [user]. *)
Definition handleLogin (e : str) : option User := Some {| email := e |}.
Definition handleLogout : option User := None.

(** The entries of [<Routes>], by their paths ["/login"], ["/dashboard"],
    ["/clarifications"], ["/results"], ["/chat"] and ["/"]. *)
Inductive Route :=
| LoginRoute | DashboardRoute | ClarificationsRoute | ResultsRoute | ChatRoute
| RootRoute.

(** What an entry renders: a page with its [user] prop, or [<Navigate to>]
    the entry of the given path. *)
Inductive Element :=
| LoginElement
| DashboardElement (user : User)
| ClarificationsElement (user : User)
| ResultsElement (user : User)
| ChatAgentElement (user : User)
| Navigate (to : Route).

Definition element (user : option User) (r : Route) : Element :=
  match r with
  | LoginRoute =>
      match user with None => LoginElement | Some _ => Navigate DashboardRoute end
  | DashboardRoute =>
      match user with Some u => DashboardElement u | None => Navigate LoginRoute end
  | ClarificationsRoute =>
      match user with
      | Some u => ClarificationsElement u
      | None => Navigate LoginRoute
      end
  | ResultsRoute =>
      match user with Some u => ResultsElement u | None => Navigate LoginRoute end
  | ChatRoute =>
      match user with Some u => ChatAgentElement u | None => Navigate LoginRoute end
  | RootRoute => Navigate LoginRoute
  end.

End App.


(* ===================================================================== *)
(** * The vocabulary of the properties *)
(* ===================================================================== *)

(** ** Step classification *)
(** The lowercased output key of a step. *)
Definition lowerOut (s : StepRecord) : str := toLowerCase (orEmpty (output s)).

(** The extension a finder requires of the output key. *)
Inductive Ext := Json | Png | Doc.

Definition hasExt (e : Ext) (out : str) : Prop :=
  match e with
  | Json => endsWith out ".json" = true
  | Png => endsWith out ".png" = true
  | Doc => endsWith out ".docx" = true \/ endsWith out ".pdf" = true
  end.

Definition roleExt (r : Role) : Ext :=
  match r with
  | Pricing | Clarification => Json
  | Architecture => Png
  | Sow => Doc
  end.

(** The claim of C1 as it is written: two different roles are never bound
    to the same position of the step list. *)
Definition noDoubleBinding (steps : list StepRecord) : Prop :=
  forall (r1 r2 : Role) (i : nat),
    r1 <> r2 ->
    boundAt (classify steps) r1 = Some i ->
    boundAt (classify steps) r2 <> Some i.

(** A parsing step that is the only JSON producer. *)
Definition parsingOnly : list StepRecord :=
  [ mkStep (Some (lit "RFx Parsing")) (Some (lit "alice/parsed_rfx.json"))
      (Some (lit "success")) ].

(** A run of the whole pipeline, as the back end reports it. *)
Definition fullPipeline : list StepRecord :=
  [ mkStep (Some (lit "RFx Parsing")) (Some (lit "alice/parsed_rfx.json"))
      (Some (lit "success"));
    mkStep (Some (lit "Clarification Questions"))
      (Some (lit "alice/clarifications.json")) (Some (lit "success"));
    mkStep (Some (lit "Pricing Estimate")) (Some (lit "alice/pricing.json"))
      (Some (lit "success"));
    mkStep (Some (lit "Architecture Diagram"))
      (Some (lit "alice/architecture.png")) (Some (lit "success"));
    mkStep (Some (lit "SOW Generation")) (Some (lit "alice/SOW_final.docx"))
      (Some (lit "success")) ].

(** The selection rule of the specification, in its words: the output ends
    in [.png] or [.json], and the name or the output mentions
    "architecture" or "diagram". *)
Definition spec_architectureMatch (s : StepRecord) : bool :=
  let name := toLowerCase (orEmpty (step s)) in
  let out := toLowerCase (orEmpty (output s)) in
  (endsWith out ".png" || endsWith out ".json")
  && (includes name "architecture" || includes name "diagram"
      || includes out "architecture" || includes out "diagram").

Definition spec_architectureStep (steps : list StepRecord)
  : option (nat * StepRecord) :=
  find spec_architectureMatch steps.

(** What the finder of the Dashboard selects: a [.png] output, and a
    mention of "architecture" or "diagram" in the name or the output. *)
Definition pngDiagram (s : StepRecord) : Prop :=
  endsWith (lowerOut s) ".png" = true /\
  (includes (toLowerCase (orEmpty (step s))) "architecture" = true \/
   includes (toLowerCase (orEmpty (step s))) "diagram" = true \/
   includes (lowerOut s) "architecture" = true \/
   includes (lowerOut s) "diagram" = true).

(** The step is named "Architecture Diagram" and its output ends in
    [.json]. *)
Definition jsonOfArchitectureDiagram (s : StepRecord) : Prop :=
  step s = Some (lit "Architecture Diagram") /\
  exists out, output s = Some out /\ endsWith out ".json" = true.


(** ** Simulated progress and the pipeline run *)
Module PipelineSpec.

Import AwsService.

(** The progress values reported for the step "process". *)
Definition processValues (events : list ProgressInfo) : list Z :=
  map progress (filter (fun e => JsString.eqb (step e) "process") events).

End PipelineSpec.

Import PipelineSpec.

(** The options of a run with the given start and ceiling, the steps at
    their defaults. *)
Definition runOptions (start ceiling : Z) : AwsService.SimOptions :=
  {| AwsService.start := start; AwsService.ceiling := ceiling;
     AwsService.intervalMs := 800;
     AwsService.minStep := 1; AwsService.maxStep := 5 |}.

(** ** Pricing *)
(** The sum of a list of numbers. *)
Definition numSum (l : list num) : num := fold_right numAdd (Int 0) l.

(** The payload of C5, with the feasibility verdict left open. *)
Definition pricingCheckPayload (verdict : str) : value :=
  VObj [ (lit "pricing_check",
    VObj [ (lit "estimated_cost_range",
              VObj [ (lit "low", VNum 100); (lit "high", VNum 200);
                     (lit "currency", VStr "USD") ]);
           (lit "breakdown", VObj [ (lit "duration_months", VNum 3) ]);
           (lit "feasibility", VObj [ (lit "feasibility", VStr verdict) ]) ]) ].



Module TabularSpec.

Import Dashboard.


End TabularSpec.

Import TabularSpec.

(** ** Clarifications *)
(** How the value of a key is shown: a string as it is, anything else
    through [JSON.stringify]. *)
Definition shownValue (v : value) : str :=
  match v with
  | VStr s => s
  | _ => Json.stringify v
  end.

Definition pseudoQuestion (k : str) (v : value) : Clarifications.Question :=
  {| Clarifications.text := jsStr (k ++ lit ": " ++ shownValue v) |}.

(** ** Architecture *)
Module ArchitectureSpec.

Import ArchitectureDiagram.

(** The state that holds a fetched payload. *)
Definition loaded (data : jsval) : State :=
  {| architectureData := data; loading := false; error := [] |}.

(** A payload [{architecture_diagram: {proposal, diagram}}]; the diagram may
    be left out. *)
Definition payloadOf (proposal : value) (diagram : option value) : value :=
  VObj [ (lit "architecture_diagram",
          VObj ((lit "proposal", proposal)
                :: match diagram with
                   | Some d => [ (lit "diagram", d) ]
                   | None => []
                   end)) ].

(** A proposal with all the parts the view reads. *)
Definition fullProposal : value :=
  VObj [ (lit "project_info",
          VObj [ (lit "title", VStr "Cloud migration");
                 (lit "customer", VStr "ACME");
                 (lit "generated_at", VStr "2025-01-01T00:00:00Z") ]);
         (lit "architecture",
          VObj [ (lit "recommended_services", VArr [ VStr "S3"; VStr "Lambda" ]);
                 (lit "explanation", VStr "Serverless ingestion") ]);
         (lit "implementation_notes", VArr [ VStr "Start with a pilot" ]) ].

Definition sampleDiagram : value :=
  VObj [ (lit "mermaid_code", VStr "graph TD; A-->B") ].

Definition withoutDiagram (info : ArchitectureInfo) : ArchitectureInfo :=
  {| title := title info;
     customer := customer info;
     generatedAt := generatedAt info;
     recommendedServices := recommendedServices info;
     explanation := explanation info;
     mermaidCode := None;
     implementationNotes := implementationNotes info |}.

End ArchitectureSpec.

Import ArchitectureSpec.

(** ** The JSON round trip *)
Module JsonSpec.

Import Json.

(** The characters of a decimal number. *)
Definition digitsOf (d : Decimal.uint) : str :=
  list_ascii_of_string (NilEmpty.string_of_uint d).

(** Text that cannot continue a number. *)
Definition delimited (rest : str) : bool :=
  match rest with
  | [] => true
  | c :: _ => Ascii.eqb c ","%char || Ascii.eqb c "]"%char || Ascii.eqb c "}"%char
  end.

(** The characters a JSON value can start with. *)
Definition startsValue (c : ascii) : bool :=
  Ascii.eqb c "n"%char || Ascii.eqb c "t"%char || Ascii.eqb c "f"%char
  || Ascii.eqb c dquote || Ascii.eqb c "["%char || Ascii.eqb c "{"%char
  || Ascii.eqb c "-"%char || isDigit c.

(** The fuel the parser needs to read a value back. *)
Fixpoint weight (v : value) : nat :=
  match v with
  | VArr items => S (fold_right (fun x n => S (weight x + n)) 0 items)%nat
  | VObj fields =>
      S (fold_right (fun kv n => S (weight (snd kv) + n)) 0 fields)%nat
  | _ => 1%nat
  end.

Definition weightOfItems (items : list value) : nat :=
  fold_right (fun x n => S (weight x + n)) 0%nat items.

Definition weightOfFields (fields : list (str * value)) : nat :=
  fold_right (fun kv n => S (weight (snd kv) + n)) 0%nat fields.

(** The text of a member of an object. *)
Definition member (kv : str * value) : str :=
  let '(k, x) := kv in quote k ++ lit ":" ++ stringify x.

(** A value that is written is read back, whatever delimiter follows. *)
Definition readsBack (v : value) : Prop :=
  wellFormed v ->
  forall (fuel : nat) (rest : str),
    (weight v <= fuel)%nat -> delimited rest = true ->
    parseValue fuel (stringify v ++ rest) = Some (v, rest).

(** The fields of an object under construction are well formed. *)
Definition fieldsWellFormed (fs : list (str * value)) : Prop :=
  NoDup (map fst fs) /\ Forall (fun kv => wellFormed (snd kv)) fs.

End JsonSpec.

Import JsonSpec.

(** ** A sample run *)

Module Sample.

Definition stepValue (name out : str) : value :=
  VObj [ (lit "step", VStr name); (lit "status", VStr "success");
         (lit "output", VStr out) ].

(** The body of the response of the pipeline. *)
Definition pipelineBody : value :=
  VObj [ (lit "status", VStr "success");
         (lit "steps",
          VArr [ stepValue "RFx Parsing" "alice/parsed_rfx.json";
                 stepValue "Clarification Questions" "alice/clarifications.json";
                 stepValue "Pricing Estimate" "alice/pricing.json";
                 stepValue "Architecture Diagram" "alice/architecture.png";
                 stepValue "SOW Generation" "alice/SOW_final.docx" ]);
         (lit "total_time_seconds", VNum 84) ].

(** A Lambda proxy response: the body is JSON text. *)
Definition proxyResponse : value :=
  VObj [ (lit "statusCode", VNum 200);
         (lit "body", VStr (Json.stringify pipelineBody)) ].

Definition rfp : AwsService.File :=
  AwsService.mkFile "rfp.pdf" "application/pdf".

Definition selected : Dashboard.UploadState :=
  {| Dashboard.selectedFile := Some rfp; Dashboard.processing := false;
     Dashboard.progress := Dashboard.idle; Dashboard.results := JV VNull;
     Dashboard.error := [] |}.

(** The pipeline answers after three periods of the simulation. *)
Definition succeeding : AwsService.World :=
  {| AwsService.now := 1700000000000;
     AwsService.uploadProgress := [50; 100];
     AwsService.uploadFailure := None;
     AwsService.periods := 3;
     AwsService.lambda := fun _ => Ok (Json.stringify proxyResponse);
     AwsService.storageFull := false |}.

(** The invocation fails after three periods of the simulation. *)
Definition failing : AwsService.World :=
  {| AwsService.now := 1700000000000;
     AwsService.uploadProgress := [50; 100];
     AwsService.uploadFailure := None;
     AwsService.periods := 3;
     AwsService.lambda := fun _ => Throw (Error "Task timed out");
     AwsService.storageFull := false |}.

End Sample.

(** ** The Dashboard as a machine *)
Module ControlsSpec.

(** What the user does on the upload card: pick a file, or press
    "Process RFP" in some state of the world. *)
Inductive UploadEvent :=
| FileChosen (file : option AwsService.File)
| UploadClicked (userEmail : str) (w : AwsService.World).

Definition uploadStep (s : Dashboard.UploadState * LocalStorage.Storage)
    (e : UploadEvent) : Dashboard.UploadState * LocalStorage.Storage :=
  match e with
  | FileChosen file => (DashboardControls.handleFileSelect file (fst s), snd s)
  | UploadClicked userEmail w =>
      let h := Dashboard.handleUpload (fst s) userEmail (snd s) w in
      (Dashboard.state h, Dashboard.storage h)
  end.

(** The state after a sequence of events, from the mount of the component. *)
Definition afterUploads (presetResults : jsval) (store : LocalStorage.Storage)
    (events : list UploadEvent) : Dashboard.UploadState * LocalStorage.Storage :=
  fold_left uploadStep events (Dashboard.initialUploadState presetResults, store).

(** The modal after a sequence of events. *)
Definition afterModalEvents (events : list DashboardControls.ModalEvent)
  : DashboardControls.Modal :=
  fold_left DashboardControls.modalStep events DashboardControls.initialModal.

(** The zoom is on the grid of the buttons. *)
Definition onGrid (m : DashboardControls.Modal) : Prop :=
  25 <= DashboardControls.imageZoom m <= 300 /\
  (25 | DashboardControls.imageZoom m).

(** The selection is a file of a valid type. *)
Definition validSelection (st : Dashboard.UploadState) : Prop :=
  forall f, Dashboard.selectedFile st = Some f ->
            DashboardControls.isValidType (AwsService.type f) = true.

End ControlsSpec.

Import ControlsSpec.


(** ** Worlds *)
Module WorldSpec.

(** The world [w] with another Lambda. *)
Definition withLambda (w : AwsService.World) (answer : str -> result str)
  : AwsService.World :=
  {| AwsService.now := AwsService.now w;
     AwsService.uploadProgress := AwsService.uploadProgress w;
     AwsService.uploadFailure := AwsService.uploadFailure w;
     AwsService.periods := AwsService.periods w;
     AwsService.lambda := answer;
     AwsService.storageFull := AwsService.storageFull w |}.

(** The upload fails: the network is down. *)
Definition offline : AwsService.World :=
  {| AwsService.now := 1700000000000;
     AwsService.uploadProgress := [50];
     AwsService.uploadFailure := Some (Error "Network Failure");
     AwsService.periods := 3;
     AwsService.lambda := fun _ => Ok (Json.stringify Sample.proxyResponse);
     AwsService.storageFull := false |}.

(** A proxy response that reports a failure of the pipeline. *)
Definition errorResponse : value :=
  VObj [ (lit "statusCode", VNum 500); (lit "body", VStr "Agent failed") ].


(** The number of periods after which a simulation has certainly cleared
    its interval. *)
Definition settleBound (o : AwsService.SimOptions) : nat :=
  Z.to_nat (Z.max 1 (AwsService.ceiling o - AwsService.start o)).

End WorldSpec.

Import WorldSpec.


(** ** The listing of a bucket *)
Module DiscoverySpec.

Import AwsDiscovery.

(** [a] may come before [b] in a listing sorted newest first. *)
Definition newerFirst (a b : S3Object) : Prop := LastModified b <= LastModified a.

(** The listing of one user folder. *)
Definition sampleListing : list S3Object :=
  [ mkS3Object "alice/pricing_outputs/pricing_v1.json" 1000;
    mkS3Object "alice/pricing_outputs/Pricing_v2.JSON" 3000;
    mkS3Object "alice/pricing_outputs/notes.txt" 9000;
    mkS3Object "alice/pricing_outputs/pricing_v3.json" 3000 ].

(** The output bucket of one user. *)
Definition sampleBucket : Listing := fun prefix =>
  if JsString.eqb prefix "alice/aws_architectures/" then
    Ok (Some [ mkS3Object "alice/aws_architectures/architecture_1.json" 2000;
               mkS3Object "alice/aws_architectures/architecture_2.json" 5000 ])
  else if JsString.eqb prefix "alice/pricing_outputs/" then Ok (Some sampleListing)
  else if JsString.eqb prefix "alice/sow_drafts/" then
    Ok (Some [ mkS3Object "alice/sow_drafts/SOW_final.docx" 4000 ])
  else Ok None.

(** Every object of the bucket is fetched as a payload that names it. *)
Definition fetchNamed (key : str) : result value :=
  Ok (VObj [ (lit "source", VStr key) ]).

(** No object can be fetched. *)
Definition fetchFails (key : str) : result value :=
  Throw (Error "Failed to fetch JSON").

End DiscoverySpec.

Import DiscoverySpec.


(** ** The Clarifications page as a machine *)
Module AnswersSpec.

Import ClarificationsPage.

(** The user types [snd e] into the text area of question [fst e]. *)
Definition editStep (answers : Answers) (e : nat * str) : Answers :=
  handleAnswerChange (fst e) (snd e) answers.

(** The answers after a sequence of edits, from the empty object. *)
Definition afterEdits (edits : list (nat * str)) : Answers :=
  fold_left editStep edits [].

(** The text last typed for question [idx], if any. *)
Fixpoint lastEdit (idx : nat) (edits : list (nat * str)) : option str :=
  match edits with
  | [] => None
  | (i, v) :: rest =>
      match lastEdit idx rest with
      | Some w => Some w
      | None => if (idx =? i)%nat then Some v else None
      end
  end.

(** The keys of the answers increase. *)
Definition increasing (answers : Answers) : Prop :=
  StronglySorted lt (map fst answers).

(** The array of questions a clarification payload carries, if any: the
    payload itself, its [questions], or its [clarifications]. *)
Definition chosenItems (json : jsval) : option (list value) :=
  match asArray json with
  | Some l => Some l
  | None =>
      match asArray (getOpt json "questions") with
      | Some l => Some l
      | None => asArray (getOpt json "clarifications")
      end
  end.

(** A question made from an item: the item itself when it is a string, and
    a text that is never blank otherwise. *)
Definition questionFor (it : value) (q : Clarifications.Question) : Prop :=
  match it with
  | VStr s => Clarifications.text q = jsStr s
  | _ => truthy (Clarifications.text q) = true
  end.

(** A listing that is never asked. *)
Definition noListing : AwsDiscovery.Listing := fun _ => Throw TypeError.

(** The clarification artifact of the sample pipeline. *)
Definition sampleFetch (key : str) : result value :=
  if JsString.eqb key "alice/clarifications.json"
  then Ok (VObj [ (lit "questions",
                   VArr [ VStr "What is the budget?";
                          VObj [ (lit "question", VStr "Which region?") ] ]) ])
  else Throw (Error "Failed to fetch JSON").

End AnswersSpec.

Import AnswersSpec.


(** ** The session as a machine *)
Module SessionSpec.

(** The page shown for an entry once at most [fuel] redirections have been
    followed. *)
Fixpoint settle (fuel : nat) (user : option App.User) (r : App.Route)
  : option App.Element :=
  match App.element user r with
  | App.Navigate to =>
      match fuel with
      | O => None
      | S n => settle n user to
      end
  | page => Some page
  end.

(** The user a page was given, if it is not the login page. *)
Definition userOf (page : App.Element) : option App.User :=
  match page with
  | App.DashboardElement u | App.ClarificationsElement u
  | App.ResultsElement u | App.ChatAgentElement u => Some u
  | App.LoginElement | App.Navigate _ => None
  end.

(** What happens to the session: the form of the login page is submitted
    with some address, or "Logout" is pressed on a page that has it. *)
Inductive SessionEvent :=
| Submitted (address : str)
| LoggedOut.

(** The login form exists only while there is no user, and the logout button
    only while there is one. *)
Definition sessionStep (user : option App.User) (e : SessionEvent)
  : option App.User :=
  match e, user with
  | Submitted address, None =>
      match Login.handleSubmit address with
      | Login.LoggedIn a => App.handleLogin a
      | Login.Rejected _ => None
      end
  | Submitted _, Some u => Some u
  | LoggedOut, Some _ => App.handleLogout
  | LoggedOut, None => None
  end.

(** The user after a sequence of events, from the start of the App. *)
Definition session (events : list SessionEvent) : option App.User :=
  fold_left sessionStep events None.

(** The address of the user of a session is one the login accepts. *)
Definition accepted (user : option App.User) : Prop :=
  match user with
  | None => True
  | Some u => Login.handleSubmit (App.email u) = Login.LoggedIn (App.email u)
  end.

End SessionSpec.

Import SessionSpec.


(** ** The inputs the statements are about *)
Module InputSpec.

(** The steps of a pipeline result, as the effects read them:
    [results.body?.steps || results.steps || []]. *)
Definition rawSteps (results : jsval) : jsval :=
  jsOr (getOpt (getOpt results "body") "steps")
       (jsOr (getOpt results "steps") (JV (VArr []))).

(** A field on which [(field || '').toLowerCase()] does not throw: a
    string, or a falsy value. *)
Definition textOrFalsy (v : jsval) : bool :=
  match v with
  | JV (VStr _) => true
  | _ => negb (truthy v)
  end.

(** A step on which the callbacks of the finders do not throw: it is not
    null, and its [step] and [output] are strings or falsy.  On such a step
    [stepOfValue] reads what the callbacks read. *)
Definition typedStep (v : value) : bool :=
  match v with
  | VNull => false
  | _ => textOrFalsy (getOpt (JV v) "step")
         && textOrFalsy (getOpt (JV v) "output")
  end.

(** The steps of the result, when they are an array, are typed. *)
Definition typedResults (results : jsval) : bool :=
  match asArray (rawSteps results) with
  | Some items => forallb typedStep items
  | None => true
  end.

(** A text that is no JSON text whatever follows: it is empty or blank; or
    its first character after the white space starts no JSON value; or it
    opens an object and goes on with neither a quoted key nor the closing
    brace; or it opens an array and goes on with neither a value nor the
    closing bracket.  [JSON.parse] throws a [SyntaxError] on such a text. *)
Definition notJson (text : str) : bool :=
  match Json.skipWs text with
  | [] => true
  | c :: r =>
      if Ascii.eqb c "{"%char then
        match Json.skipWs r with
        | [] => true
        | k :: _ => negb (Ascii.eqb k Json.dquote || Ascii.eqb k "}"%char)
        end
      else if Ascii.eqb c "["%char then
        match Json.skipWs r with
        | [] => true
        | k :: _ => negb (startsValue k || Ascii.eqb k "]"%char)
        end
      else negb (startsValue c)
  end.


End InputSpec.

Import InputSpec.


(* ===================================================================== *)
(** * Properties *)
(* ===================================================================== *)

Module JsStringFacts.

Lemma str_eqb_eq (a b : str) : JsString.eqb a b = true <-> a = b.
Proof.
  revert b; induction a as [|x a IH]; intros [|y b]; simpl; split;
    try congruence; try reflexivity.
  - intros H. apply andb_true_iff in H as [Hx Hab].
    apply Ascii.eqb_eq in Hx. apply IH in Hab. congruence.
  - intros [= -> ->]. rewrite Ascii.eqb_refl. simpl. now apply IH.
Qed.

Lemma str_eqb_refl (a : str) : JsString.eqb a a = true.
Proof. now apply str_eqb_eq. Qed.

Lemma startsWith_app (p r : str) : startsWith (p ++ r) p = true.
Proof.
  induction p as [|x p IH]; simpl; [reflexivity|].
  now rewrite Ascii.eqb_refl.
Qed.

Lemma startsWith_spec (s p : str) :
  startsWith s p = true <-> exists r, s = p ++ r.
Proof.
  split.
  - revert s; induction p as [|x p IH]; intros s H.
    + now exists s.
    + destruct s as [|y s]; simpl in H; [discriminate|].
      apply andb_true_iff in H as [Hx Hs].
      apply Ascii.eqb_eq in Hx. destruct (IH _ Hs) as [r ->].
      exists r. now subst.
  - intros [r ->]. apply startsWith_app.
Qed.

Lemma endsWith_spec (s suffix : str) :
  endsWith s suffix = true <-> exists r, s = r ++ suffix.
Proof.
  unfold endsWith. rewrite startsWith_spec. split.
  - intros [r Hr]. exists (rev r).
    rewrite <- (rev_involutive s), Hr, rev_app_distr.
    now rewrite rev_involutive.
  - intros [r ->]. exists (rev r). apply rev_app_distr.
Qed.

Lemma includes_spec (s sub : str) :
  includes s sub = true <-> exists l r, s = l ++ sub ++ r.
Proof.
  split.
  - induction s as [|c s IH]; simpl; intros H.
    + apply orb_true_iff in H as [H|H]; [|discriminate].
      apply startsWith_spec in H as [r Hr]. now exists [], r.
    + apply orb_true_iff in H as [H|H].
      * apply startsWith_spec in H as [r Hr]. now exists [], r.
      * destruct (IH H) as (l & r & ->). now exists (c :: l), r.
  - intros (l & r & ->). induction l as [|c l IH]; simpl.
    + destruct (sub ++ r) eqn:E; simpl.
      * rewrite <- E, startsWith_app. reflexivity.
      * rewrite <- E, startsWith_app. reflexivity.
    + rewrite IH. apply orb_true_r.
Qed.

End JsStringFacts.

Import JsStringFacts.

(** ** Facts about [find] *)
Section FindFacts.

Context {A : Type} (p : A -> bool).

Lemma findFrom_Some (l : list A) (k i : nat) (x : A) :
  findFrom p k l = Some (i, x) <->
  (k <= i)%nat /\ nth_error l (i - k) = Some x /\ p x = true /\
  (forall j y, (j < i - k)%nat -> nth_error l j = Some y -> p y = false).
Proof.
  revert k; induction l as [|a l IH]; intros k; simpl.
  - split; [discriminate|].
    intros (_ & H & _). now destruct (i - k)%nat.
  - destruct (p a) eqn:Pa.
    + split.
      * intros [= <- <-]. rewrite Nat.sub_diag. simpl.
        repeat split; auto. intros j y Hj. lia.
      * intros (Hk & Hn & Px & Hfirst).
        destruct (i - k)%nat as [|d] eqn:D.
        -- simpl in Hn. injection Hn as <-. f_equal. f_equal. lia.
        -- specialize (Hfirst 0%nat a ltac:(lia) eq_refl). congruence.
    + rewrite IH. split.
      * intros (Hk & Hn & Px & Hfirst).
        replace (i - k)%nat with (S (i - S k)) by lia. simpl.
        repeat split; auto; try lia.
        intros [|j] y Hj Hy; simpl in Hy.
        -- congruence.
        -- apply (Hfirst j); auto. lia.
      * intros (Hk & Hn & Px & Hfirst).
        destruct (i - k)%nat as [|d] eqn:D.
        -- simpl in Hn. congruence.
        -- simpl in Hn. replace (i - S k)%nat with d by lia.
           repeat split; auto; try lia.
           intros j y Hj Hy. apply (Hfirst (S j)); auto. lia.
Qed.

Lemma find_Some (l : list A) (i : nat) (x : A) :
  find p l = Some (i, x) <->
  nth_error l i = Some x /\ p x = true /\
  (forall j y, (j < i)%nat -> nth_error l j = Some y -> p y = false).
Proof.
  unfold find. rewrite findFrom_Some, Nat.sub_0_r.
  split; [intros (_ & H); exact H | intros H; split; [lia | exact H]].
Qed.

Lemma findFrom_None (l : list A) (k : nat) :
  findFrom p k l = None <-> forall x, In x l -> p x = false.
Proof.
  revert k; induction l as [|a l IH]; intros k; simpl.
  - split; [intros _ x []| reflexivity].
  - destruct (p a) eqn:Pa.
    + split; [discriminate|]. intros H.
      specialize (H a (or_introl eq_refl)). congruence.
    + rewrite IH; split.
      * intros H x [<-|Hx]; auto.
      * intros H x Hx. apply H. now right.
Qed.

Lemma find_None (l : list A) :
  find p l = None <-> forall x, In x l -> p x = false.
Proof. apply findFrom_None. Qed.

Lemma find_ext (q : A -> bool) (l : list A) :
  (forall x, p x = q x) -> find p l = find q l.
Proof.
  intros E. unfold find. generalize 0%nat.
  induction l as [|a l IH]; intros k; simpl; [reflexivity|].
  rewrite <- E. destruct (p a); auto.
Qed.

End FindFacts.

Lemma orElse_Some {A : Type} (a b : option A) (x : A) :
  orElse a b = Some x -> a = Some x \/ b = Some x.
Proof. destruct a; simpl; auto. Qed.

(* ===================================================================== *)
(** * Step classification *)
(* ===================================================================== *)

Module ClassifierFacts.

Lemma pricing_ext (steps : list StepRecord) (i : nat) (s : StepRecord) :
  Dashboard.pricingStep steps = Some (i, s) ->
  nth_error steps i = Some s /\ endsWith (lowerOut s) ".json" = true.
Proof.
  intros H. apply orElse_Some in H as [H|H];
    apply find_Some in H as (Hn & Hp & _); split; auto.
  - unfold Dashboard.pricingNamed in Hp.
    now apply andb_true_iff in Hp as [Hp _].
  - unfold Dashboard.pricingFallback in Hp.
    now apply andb_true_iff in Hp as [_ Hp].
Qed.

Lemma clar_ext (steps : list StepRecord) (i : nat) (s : StepRecord) :
  Clarifications.clarStep steps = Some (i, s) ->
  nth_error steps i = Some s /\ endsWith (lowerOut s) ".json" = true.
Proof.
  intros H. apply orElse_Some in H as [H|H];
    apply find_Some in H as (Hn & Hp & _); split; auto.
  unfold Clarifications.clarNamed in Hp.
  now apply andb_true_iff in Hp as [Hp _].
Qed.

Lemma sow_ext (steps : list StepRecord) (i : nat) (s : StepRecord) :
  Dashboard.sowStep steps = Some (i, s) ->
  nth_error steps i = Some s /\
  (endsWith (lowerOut s) ".docx" = true \/ endsWith (lowerOut s) ".pdf" = true).
Proof.
  intros H. apply orElse_Some in H as [H|H];
    apply find_Some in H as (Hn & Hp & _); split; auto.
  - unfold Dashboard.sowNamed in Hp.
    apply andb_true_iff in Hp as [Hp _]. now apply orb_true_iff in Hp.
  - unfold Dashboard.sowFallback in Hp.
    apply andb_true_iff in Hp as [_ Hp]. now apply orb_true_iff in Hp.
Qed.

Lemma architecture_ext (steps : list StepRecord) (i : nat) (s : StepRecord) :
  Dashboard.architectureStep steps = Some (i, s) ->
  nth_error steps i = Some s /\ endsWith (lowerOut s) ".png" = true.
Proof.
  intros H. apply find_Some in H as (Hn & Hp & _); split; auto.
  unfold Dashboard.architectureMatch in Hp.
  now apply andb_true_iff in Hp as [Hp _].
Qed.

Lemma endsWith_last (out suffix : str) :
  endsWith out suffix = true ->
  match hd_error (rev suffix) with
  | Some c => hd_error (rev out) = Some c
  | None => True
  end.
Proof.
  unfold endsWith. destruct (rev suffix) as [|c t]; simpl; [trivial|].
  destruct (rev out) as [|d u]; [discriminate|]. intros H.
  apply andb_true_iff in H as [H _]. apply Ascii.eqb_eq in H. now subst.
Qed.

Lemma hasExt_exclusive (e1 e2 : Ext) (out : str) :
  hasExt e1 out -> hasExt e2 out -> e1 = e2.
Proof.
  destruct e1, e2; unfold hasExt; auto; intros H1 H2;
    try destruct H1 as [H1|H1]; try destruct H2 as [H2|H2];
    apply endsWith_last in H1; apply endsWith_last in H2;
    simpl in H1, H2; congruence.
Qed.

Lemma bound_ext (steps : list StepRecord) (r : Role) (i : nat) (s : StepRecord) :
  classify steps r = Some (i, s) ->
  nth_error steps i = Some s /\ hasExt (roleExt r) (lowerOut s).
Proof.
  destruct r; simpl; intros H.
  - now apply pricing_ext.
  - now apply clar_ext.
  - now apply architecture_ext.
  - now apply sow_ext.
Qed.

Lemma fallbacks_agree (s : StepRecord) :
  Dashboard.pricingFallback s = Clarifications.clarFallback s.
Proof.
  unfold Dashboard.pricingFallback, Clarifications.clarFallback.
  destruct (toLowerCase (orEmpty (output s))); reflexivity.
Qed.

End ClassifierFacts.

Import ClassifierFacts.

(** C1, counterexample: with a single JSON step that mentions neither
    pricing nor clarification, both fallback scans bind that same step, so
    the step is bound to the pricing and to the clarification role. *)
Lemma C1_double_binding : ~ noDoubleBinding parsingOnly.
Proof.
  intros H.
  apply (H Pricing Clarification 0%nat); [discriminate | reflexivity | reflexivity].
Qed.

(** C1, amended: every role is bound to at most one step, which is a step of
    the list; two different roles other than the pair pricing/clarification
    are never bound to the same step, since the output extensions they
    require exclude each other; the fallback scans of pricing and
    clarification skip nothing: when neither role has a named match, both
    are bound to the same step. *)
Theorem C1_binding_disjoint_by_extension (steps : list StepRecord) :
  (forall (r : Role) (i : nat) (s : StepRecord),
      classify steps r = Some (i, s) -> nth_error steps i = Some s) /\
  (forall (r1 r2 : Role) (i : nat),
      roleExt r1 <> roleExt r2 ->
      boundAt (classify steps) r1 = Some i ->
      boundAt (classify steps) r2 <> Some i) /\
  (find Dashboard.pricingNamed steps = None ->
   find Clarifications.clarNamed steps = None ->
   classify steps Pricing = classify steps Clarification).
Proof.
  split; [|split].
  - intros r i s H. now apply bound_ext in H.
  - intros r1 r2 i Hr H1 H2. unfold boundAt in *.
    destruct (classify steps r1) as [[i1 s1]|] eqn:E1; [|discriminate].
    destruct (classify steps r2) as [[i2 s2]|] eqn:E2; [|discriminate].
    simpl in H1, H2. injection H1 as ->. injection H2 as ->.
    apply bound_ext in E1 as [N1 X1]. apply bound_ext in E2 as [N2 X2].
    assert (s1 = s2) as -> by congruence.
    apply Hr. eapply hasExt_exclusive; eauto.
  - intros Hp Hc. simpl.
    unfold Dashboard.pricingStep, Clarifications.clarStep.
    rewrite Hp, Hc. simpl. apply find_ext, fallbacks_agree.
Qed.

Lemma C1_binding_disjoint_witness :
  nth_error fullPipeline 2 = Some (mkStep (Some (lit "Pricing Estimate"))
      (Some (lit "alice/pricing.json")) (Some (lit "success"))) /\
  boundAt (classify fullPipeline) Sow <> Some 2%nat /\
  classify parsingOnly Pricing = classify parsingOnly Clarification.
Proof.
  split; [|split].
  - apply (proj1 (C1_binding_disjoint_by_extension fullPipeline) Pricing).
    reflexivity.
  - apply (proj1 (proj2 (C1_binding_disjoint_by_extension fullPipeline))
             Pricing Sow); [discriminate | reflexivity].
  - apply (proj2 (proj2 (C1_binding_disjoint_by_extension parsingOnly)));
      reflexivity.
Defined.

(** ** The architecture role *)

Lemma architectureMatch_iff (s : StepRecord) :
  Dashboard.architectureMatch s = true <-> pngDiagram s.
Proof.
  unfold Dashboard.architectureMatch, pngDiagram, lowerOut.
  rewrite andb_true_iff, !orb_true_iff. tauto.
Qed.

Lemma architectureJson_iff (s : StepRecord) :
  ArchitectureDiagram.architectureMatch s = true <-> jsonOfArchitectureDiagram s.
Proof.
  unfold ArchitectureDiagram.architectureMatch, jsonOfArchitectureDiagram.
  rewrite !andb_true_iff. destruct (step s) as [name|].
  - rewrite str_eqb_eq. split.
    + intros [[-> Hne] He]. split; auto.
      destruct (output s) as [out|]; [now exists out | discriminate].
    + intros [[= ->] (out & -> & He)]. simpl.
      repeat split; auto. destruct out; [discriminate | reflexivity].
  - split; [intros [[H _] _]; discriminate | intros [H _]; discriminate].
Qed.

Lemma not_true_iff (b : bool) (P : Prop) : (b = true <-> P) -> (b = false <-> ~ P).
Proof. destruct b; intuition congruence. Qed.

Section FirstMatch.

Context (p : StepRecord -> bool) (P : StepRecord -> Prop).
Hypothesis p_iff : forall s, p s = true <-> P s.

Lemma find_first (steps : list StepRecord) (i : nat) (s : StepRecord) :
  find p steps = Some (i, s) <->
  nth_error steps i = Some s /\ P s /\
  (forall j y, (j < i)%nat -> nth_error steps j = Some y -> ~ P y).
Proof.
  rewrite find_Some, p_iff. split; intros (Hn & Hp & Hf); repeat split; auto;
    intros j y Hj Hy; apply (not_true_iff _ _ (p_iff y)); eauto.
Qed.

Lemma find_none (steps : list StepRecord) :
  find p steps = None <-> forall s, In s steps -> ~ P s.
Proof.
  rewrite find_None. split; intros H s Hs;
    apply (not_true_iff _ _ (p_iff s)); auto.
Qed.

End FirstMatch.

(** C8, counterexample: the step "Architecture Diagram" with a [.json]
    output is the first match of the rule of the specification, and the
    Dashboard leaves the role unresolved; a [.png] diagram step under another
    name is a match of the rule, and ArchitectureDiagram finds nothing. *)
Lemma C8_json_not_bound :
  let jsonStep := mkStep (Some (lit "Architecture Diagram"))
                    (Some (lit "alice/architecture.json")) (Some (lit "success")) in
  let pngStep := mkStep (Some (lit "Diagram Rendering"))
                    (Some (lit "alice/diagram.png")) (Some (lit "success")) in
  spec_architectureStep [jsonStep] = Some (0%nat, jsonStep) /\
  classify [jsonStep] Architecture = None /\
  spec_architectureStep [pngStep] = Some (0%nat, pngStep) /\
  ArchitectureDiagram.architectureStep [pngStep] = None.
Proof. repeat split. Qed.

(** C8, amended: the Dashboard binds the architecture role to the first step
    whose lowercased output ends in [.png] and whose name or output mentions
    "architecture" or "diagram"; ArchitectureDiagram loads its data from the
    first step named exactly "Architecture Diagram" whose output ends in
    [.json]; each is unresolved exactly when the list has no such step. *)
Theorem C8_architecture_first_match (steps : list StepRecord) :
  (forall i s,
      classify steps Architecture = Some (i, s) <->
      nth_error steps i = Some s /\ pngDiagram s /\
      (forall j y, (j < i)%nat -> nth_error steps j = Some y -> ~ pngDiagram y)) /\
  (classify steps Architecture = None <->
   forall s, In s steps -> ~ pngDiagram s) /\
  (forall i s,
      ArchitectureDiagram.architectureStep steps = Some (i, s) <->
      nth_error steps i = Some s /\ jsonOfArchitectureDiagram s /\
      (forall j y, (j < i)%nat -> nth_error steps j = Some y ->
                   ~ jsonOfArchitectureDiagram y)) /\
  (ArchitectureDiagram.architectureStep steps = None <->
   forall s, In s steps -> ~ jsonOfArchitectureDiagram s).
Proof.
  split; [|split; [|split]].
  - intros i s. apply (find_first _ _ architectureMatch_iff).
  - apply (find_none _ _ architectureMatch_iff).
  - intros i s. apply (find_first _ _ architectureJson_iff).
  - apply (find_none _ _ architectureJson_iff).
Qed.

Lemma C8_architecture_witness :
  pngDiagram (mkStep (Some (lit "Architecture Diagram"))
      (Some (lit "alice/architecture.png")) (Some (lit "success"))) /\
  (forall s, In s parsingOnly -> ~ jsonOfArchitectureDiagram s).
Proof.
  split.
  - apply (proj1 (C8_architecture_first_match fullPipeline) 3%nat).
    reflexivity.
  - apply (proj1 (proj2 (proj2 (proj2 (C8_architecture_first_match parsingOnly))))).
    reflexivity.
Defined.

(** ** The download listing *)

(** C10: the download listing holds exactly the steps with a non-empty
    output whose lowercased name contains neither "parsing" nor
    "clarification", each as often and in the order the steps have them. *)
Theorem C10_download_listing (steps : list StepRecord) :
  (forall s,
      In s (Dashboard.downloadListing steps) <->
      In s steps /\
      (exists out, output s = Some out /\ out <> []) /\
      includes (toLowerCase (orEmpty (step s))) "parsing" = false /\
      includes (toLowerCase (orEmpty (step s))) "clarification" = false) /\
  (forall before after,
      steps = before ++ after ->
      Dashboard.downloadListing steps =
      Dashboard.downloadListing before ++ Dashboard.downloadListing after).
Proof.
  split.
  - intros s. unfold Dashboard.downloadListing.
    rewrite filter_In. unfold Dashboard.downloadable.
    rewrite !andb_true_iff, !negb_true_iff.
    assert (E : nonEmpty (orEmpty (output s)) = true <->
                exists out, output s = Some out /\ out <> []).
    { destruct (output s) as [[|c out]|]; simpl; split;
        try discriminate; try reflexivity.
      - intros (out & [= <-] & H). congruence.
      - intros _. eexists; split; [reflexivity | discriminate].
      - intros (out & H & _). discriminate. }
    rewrite E. tauto.
  - intros before after ->. apply filter_app.
Qed.

Lemma C10_download_listing_witness :
  In (mkStep (Some (lit "SOW Generation")) (Some (lit "alice/SOW_final.docx"))
        (Some (lit "success"))) fullPipeline /\
  Dashboard.downloadListing fullPipeline =
  Dashboard.downloadListing (firstn 2 fullPipeline)
  ++ Dashboard.downloadListing (skipn 2 fullPipeline).
Proof.
  split.
  - apply (proj1 (proj1 (C10_download_listing fullPipeline) _)).
    simpl. auto.
  - apply (proj2 (C10_download_listing fullPipeline)). reflexivity.
Defined.

(* ===================================================================== *)
(** * Simulated progress *)
(* ===================================================================== *)

Module ProgressFacts.

Import AwsService.

(** What one period emits lies between the previous value, capped by the
    ceiling, and the ceiling. *)
Lemma tick_emits (o : SimOptions) (s s' : Sim) (v : Z) :
  0 <= minStep o ->
  tick o s = (s', [v]) ->
  current s' = v /\ Z.min (current s) (ceiling o) <= v <= ceiling o.
Proof.
  intros Hmin. unfold tick.
  destruct (cleared s); [discriminate|].
  destruct (stopped s); [discriminate|].
  intros [= <- <-]. simpl. split; [reflexivity | lia].
Qed.

Lemma tick_cases (o : SimOptions) (s : Sim) :
  (exists v, tick o s = (fst (tick o s), [v])) \/ tick o s = (s, []).
Proof.
  unfold tick. destruct (cleared s); [now right|].
  destruct (stopped s); [now right|]. left. eexists. reflexivity.
Qed.

(** The values of a sequence of periods are non-decreasing and lie between
    the capped current value and the ceiling. *)
Lemma ticks_sorted (o : SimOptions) (n : nat) (s : Sim) :
  0 <= minStep o ->
  StronglySorted Z.le (snd (ticks o n s)) /\
  Forall (fun v => Z.min (current s) (ceiling o) <= v <= ceiling o)
         (snd (ticks o n s)).
Proof.
  intros Hmin. revert s. induction n as [|n IH]; intros s; simpl.
  - split; constructor.
  - destruct (tick o s) as [s1 e1] eqn:E1.
    destruct (ticks o n s1) as [s2 e2] eqn:E2. simpl.
    specialize (IH s1). rewrite E2 in IH. simpl in IH. destruct IH as [So Bo].
    destruct (tick_cases o s) as [[v Hv]|Hs]; rewrite E1 in *.
    + injection Hv as ->. simpl.
      apply tick_emits in E1 as [Hc Hb]; auto.
      rewrite Hc in Bo. split.
      * constructor; auto.
        eapply Forall_impl; [|exact Bo]. simpl. intros a Ha. lia.
      * constructor; auto.
        eapply Forall_impl; [|exact Bo]. simpl. intros a Ha. lia.
    + injection Hs as -> ->. simpl. now split.
Qed.

Lemma emitted_eq (o : SimOptions) (n : nat) :
  emitted o n =
  Z.min (start o) (ceiling o)
  :: snd (ticks o n {| current := start o; stopped := false; cleared := false |}).
Proof.
  unfold emitted, simulate, startSimulatedProgress.
  destruct (ticks o n _) as [s1 e1]. reflexivity.
Qed.

End ProgressFacts.

Import ProgressFacts.

(** C2, counterexample: with start 99 and ceiling 120 the first period
    emits 102, a value above 100. *)
Lemma C2_exceeds_100 :
  AwsService.emitted (runOptions 99 120) 1 = [99; 102] /\
  ~ Forall (fun v => v <= 100) (AwsService.emitted (runOptions 99 120) 1).
Proof.
  split; [reflexivity|].
  intros H. inversion H as [|a l _ H1]; subst.
  inversion H1 as [|b l' H2 _]; subst. lia.
Qed.

(** C2, amended: for every start, ceiling, non-negative minimal step and
    number of periods, the values handed to [onTick] are non-decreasing and
    never exceed the ceiling; they never exceed 100 when the ceiling is at
    most 100, as are the default ceiling and the one [processRFP] passes. *)
Theorem C2_progress_monotone_bounded (o : AwsService.SimOptions) (n : nat) :
  0 <= AwsService.minStep o ->
  StronglySorted Z.le (AwsService.emitted o n) /\
  Forall (fun v => v <= AwsService.ceiling o) (AwsService.emitted o n) /\
  (AwsService.ceiling o <= 100 ->
   Forall (fun v => v <= 100) (AwsService.emitted o n)).
Proof.
  intros Hmin. rewrite emitted_eq.
  destruct (ticks_sorted o n
              {| AwsService.current := AwsService.start o;
                 AwsService.stopped := false;
                 AwsService.cleared := false |} Hmin) as [So Bo].
  simpl in Bo.
  assert (B : Forall (fun v => v <= AwsService.ceiling o)
                (Z.min (AwsService.start o) (AwsService.ceiling o)
                 :: snd (AwsService.ticks o n
                      {| AwsService.current := AwsService.start o;
                         AwsService.stopped := false;
                         AwsService.cleared := false |}))).
  { constructor; [lia|]. eapply Forall_impl; [|exact Bo]. simpl. intros; lia. }
  split; [|split].
  - constructor; auto. eapply Forall_impl; [|exact Bo]. simpl. intros; lia.
  - exact B.
  - intros Hc. eapply Forall_impl; [|exact B]. simpl. intros; lia.
Qed.

Lemma C2_progress_witness :
  StronglySorted Z.le (AwsService.emitted (runOptions 10 95) 40) /\
  Forall (fun v => v <= 100) (AwsService.emitted (runOptions 10 95) 40).
Proof.
  destruct (C2_progress_monotone_bounded (runOptions 10 95) 40) as (S & _ & B).
  - simpl. lia.
  - split; [exact S | apply B; simpl; lia].
Defined.

(* ===================================================================== *)
(** * Payload normalisation *)
(* ===================================================================== *)

Module ValueFacts.

(** Reading a property of a value other than null never throws. *)
Lemma get_value (v : value) (k : str) :
  v <> VNull -> get (JV v) k = Ok (getOpt (JV v) k).
Proof.
  intros Hv. unfold getOpt.
  destruct v; simpl; try reflexivity; try congruence;
    match goal with |- context [if ?b then _ else _] => destruct b end;
    reflexivity.
Qed.

Lemma get_object (fields : list (str * value)) (k : str) :
  get (JV (VObj fields)) k = Ok (ofOption (lookup k fields)).
Proof. reflexivity. Qed.

Lemma numAdd_assoc (a b c : num) : numAdd a (numAdd b c) = numAdd (numAdd a b) c.
Proof. destruct a, b, c; simpl; auto. f_equal. lia. Qed.

Lemma numSum_integers (zs : list Z) :
  numSum (map Int zs) = Int (fold_right Z.add 0 zs).
Proof. induction zs as [|z zs IH]; simpl; [reflexivity|]. now rewrite IH. Qed.



End ValueFacts.

Import ValueFacts.

(** ** Pricing: the structured view *)

(** C5: the payload selects the structured view, with the low and high
    amounts 100 and 200 in USD, the duration shown as the plain text "3"
    and not as an amount, and the verdict "Feasible" read as feasible; the
    verdict is compared to "feasible" in lower case, whatever its
    capitalisation. *)
Theorem C5_structured_pricing (R : Runtime) :
  (exists e,
     Dashboard.renderPricingTable (JV (pricingCheckPayload "Feasible"))
     = Ok (Dashboard.Structured e (JV (pricingCheckPayload "Feasible"))) /\
     Dashboard.estimatedLow e
     = Some (Dashboard.mkMoney (jsNum 100) (jsStr "USD")) /\
     Dashboard.estimatedHigh e
     = Some (Dashboard.mkMoney (jsNum 200) (jsStr "USD")) /\
     Dashboard.feasible e = true /\
     Dashboard.breakdownRows e
     = [ Dashboard.mkBreakdownRow "Duration (months)" (Dashboard.Plain "3") ]) /\
  (forall verdict : str,
     exists e,
       Dashboard.renderPricingTable (JV (pricingCheckPayload verdict))
       = Ok (Dashboard.Structured e (JV (pricingCheckPayload verdict))) /\
       Dashboard.feasible e = JsString.eqb (toLowerCase verdict) "feasible").
Proof.
  split.
  - eexists. split; [reflexivity|]. repeat split.
  - intros verdict. eexists. split; [reflexivity|]. simpl.
    destruct verdict; reflexivity.
Qed.

(** ** Pricing: the tabular view *)

Module TabularFacts.

Import Dashboard.




Lemma sumTotals_eq `{Runtime} (rows : list Row) :
  sumTotals rows
  = numSum (map (fun r => toNumber (jsOr (total r) (jsNum 0))) rows).
Proof.
  unfold sumTotals.
  assert (G : forall acc,
             fold_left (fun a r => numAdd a (toNumber (jsOr (total r) (jsNum 0))))
                       rows acc
             = numAdd acc
                 (numSum (map (fun r => toNumber (jsOr (total r) (jsNum 0))) rows))).
  { induction rows as [|r rows IH]; intros acc; simpl.
    - destruct acc; simpl; auto. f_equal. lia.
    - rewrite IH. now rewrite numAdd_assoc. }
  rewrite G. destruct (numSum _); reflexivity.
Qed.



Lemma itemsOf_array (items : list value) :
  itemsOf (JV (VArr items)) = Some items.
Proof. reflexivity. Qed.

End TabularFacts.

Import TabularFacts.

(** ** Clarifications: the fallback over the keys *)

Lemma questionOfKey_field (fields : list (str * value)) (k : str) (v : value) :
  lookup k fields = Some v ->
  Clarifications.questionOfKey (JV (VObj fields)) k = Ok (pseudoQuestion k v).
Proof.
  intros Hk. unfold Clarifications.questionOfKey.
  rewrite get_object, Hk. simpl. destruct v; reflexivity.
Qed.

Lemma lookup_NoDup (fields : list (str * value)) (i : nat) (k : str) (v : value) :
  NoDup (map fst fields) ->
  nth_error fields i = Some (k, v) -> lookup k fields = Some v.
Proof.
  revert i; induction fields as [|[k' v'] fields IH]; intros i Hnd Hi.
  - now destruct i.
  - inversion Hnd as [|? ? Hnotin Hnd']; subst. destruct i as [|i]; simpl in *.
    + injection Hi as -> ->. now rewrite str_eqb_refl.
    + destruct (JsString.eqb k k') eqn:E.
      * apply str_eqb_eq in E. subst k'. exfalso. apply Hnotin.
        apply nth_error_In in Hi. now apply (in_map fst) in Hi.
      * now apply (IH i).
Qed.

(** C7: for an object payload, as [JSON.parse] builds it, whose [questions]
    and [clarifications] are no arrays, [processClarifications] returns,
    without throwing, one pseudo-question per key of the object, in the order
    of the keys, each reading "key: value", the value as it is when it is a
    string and through [JSON.stringify] otherwise; [{foo:'bar'}] gives the
    single question "foo: bar". *)
Theorem C7_fallback_one_question_per_key :
  (forall fields : list (str * value),
      Json.wellFormed (VObj fields) ->
      asArray (ofOption (lookup "questions" fields)) = None ->
      asArray (ofOption (lookup "clarifications" fields)) = None ->
      Clarifications.processClarifications (JV (VObj fields))
      = Ok (map (fun '(k, v) => pseudoQuestion k v) fields)) /\
  Clarifications.processClarifications (JV (VObj [ (lit "foo", VStr "bar") ]))
  = Ok [ {| Clarifications.text := jsStr "foo: bar" |} ].
Proof.
  split; [|reflexivity].
  intros fields [Hnd _] Hq Hc. unfold Clarifications.processClarifications.
  unfold getOpt. rewrite !get_object. simpl asArray at 1. rewrite Hq, Hc.
  simpl keys.
  assert (G : forall l : list (str * value),
             (forall i k v, nth_error l i = Some (k, v) -> lookup k fields = Some v) ->
             mapM (Clarifications.questionOfKey (JV (VObj fields))) (map fst l)
             = Ok (map (fun '(k, v) => pseudoQuestion k v) l)).
  { induction l as [|[k v] l IH]; intros Hl; cbn [map fst mapM]; [reflexivity|].
    rewrite (questionOfKey_field fields k v) by apply (Hl 0%nat k v eq_refl).
    cbn [bind]. rewrite IH; [reflexivity|].
    intros i k' v' Hi. apply (Hl (S i)). exact Hi. }
  apply G. intros i k v Hi. now apply (lookup_NoDup fields i).
Qed.

Lemma C7_fallback_witness :
  Clarifications.processClarifications
    (JV (VObj [ (lit "scope", VStr "Which regions?");
                (lit "budget", VNum 5000);
                (lit "questions", VStr "none") ]))
  = Ok [ {| Clarifications.text := jsStr "scope: Which regions?" |};
         {| Clarifications.text := jsStr "budget: 5000" |};
         {| Clarifications.text := jsStr "questions: none" |} ].
Proof.
  apply (proj1 C7_fallback_one_question_per_key
           [ (lit "scope", VStr "Which regions?");
             (lit "budget", VNum 5000);
             (lit "questions", VStr "none") ]).
  - split; [|repeat split].
    repeat constructor; simpl; intuition discriminate.
  - reflexivity.
  - reflexivity.
Defined.

(** ** Architecture: the view of a payload *)

Module ArchitectureFacts.

Import ArchitectureDiagram.

Lemma truthy_value (data : jsval) :
  truthy data = true -> exists v, data = JV v /\ v <> VNull.
Proof.
  destruct data as [| |v]; try discriminate. intros H. exists v. split; auto.
  intros ->. discriminate.
Qed.

Ltac case_bind H :=
  match type of H with
  | context [bind ?e _] =>
      let r := fresh "r" in
      let E := fresh "E" in
      remember e as r eqn:E in *; destruct r; cbn [bind] in H |- *;
      try discriminate H
  end.

Lemma info_without_diagram `{Runtime} (proposal diagram : value)
    (info : ArchitectureInfo) :
  renderArchitectureInfo (JV (payloadOf proposal (Some diagram))) = Ok (Some info) ->
  renderArchitectureInfo (JV (payloadOf proposal None))
  = Ok (Some (withoutDiagram info)).
Proof.
  unfold renderArchitectureInfo, payloadOf.
  cbn [truthy negb get lookup JsString.eqb Ascii.eqb Bool.eqb andb ofOption
       lit list_ascii_of_string bind].
  intros Hd.
  repeat case_bind Hd.
  injection Hd as <-. reflexivity.
Qed.

End ArchitectureFacts.

Import ArchitectureFacts.

(** C3, counterexample: a payload with a complete proposal and no diagram
    is displayed, not replaced by the "no data" state; a payload with a
    diagram and no proposal makes the rendering throw. *)
Lemma C3_absent_subobject_not_no_data :
  (exists info,
     @ArchitectureDiagram.render DecimalRuntime.runtime
       (loaded (JV (payloadOf fullProposal None)))
     = Ok (ArchitectureDiagram.InfoView (Some info))) /\
  @ArchitectureDiagram.render DecimalRuntime.runtime
    (loaded (JV (VObj [ (lit "architecture_diagram",
                         VObj [ (lit "diagram", sampleDiagram) ]) ])))
  = Throw TypeError.
Proof. split; [eexists|]; reflexivity. Qed.

(** C3, amended: with no payload the component shows the "no data" state;
    a payload without [architecture_diagram] is rendered as an empty view,
    without throwing; when the diagram is absent, a payload that is
    displayed with a diagram is displayed all the same, with the same
    project information, services, explanation and notes, and without the
    diagram section. *)
Theorem C3_architecture_degradation (R : Runtime) :
  (forall st : ArchitectureDiagram.State,
      ArchitectureDiagram.loading st = false ->
      ArchitectureDiagram.error st = [] ->
      truthy (ArchitectureDiagram.architectureData st) = false ->
      ArchitectureDiagram.render st = Ok ArchitectureDiagram.NoDataView) /\
  (forall data : jsval,
      truthy data = true ->
      truthy (getOpt data "architecture_diagram") = false ->
      ArchitectureDiagram.render (loaded data)
      = Ok (ArchitectureDiagram.InfoView None)) /\
  (forall (proposal diagram : value) (info : ArchitectureDiagram.ArchitectureInfo),
      ArchitectureDiagram.render (loaded (JV (payloadOf proposal (Some diagram))))
      = Ok (ArchitectureDiagram.InfoView (Some info)) ->
      ArchitectureDiagram.render (loaded (JV (payloadOf proposal None)))
      = Ok (ArchitectureDiagram.InfoView (Some (withoutDiagram info)))).
Proof.
  split; [|split].
  - intros st Hl He Hd. unfold ArchitectureDiagram.render.
    now rewrite Hl, He, Hd.
  - intros data Hd Had. unfold ArchitectureDiagram.render, loaded.
    cbn [ArchitectureDiagram.loading ArchitectureDiagram.error
         ArchitectureDiagram.architectureData nonEmpty].
    unfold ArchitectureDiagram.renderArchitectureInfo. rewrite Hd. cbn [negb].
    destruct (truthy_value _ Hd) as (v & -> & Hv).
    rewrite get_value by assumption. cbn [bind]. now rewrite Had.
  - intros proposal diagram info Hd.
    unfold ArchitectureDiagram.render, loaded in *.
    cbn [ArchitectureDiagram.loading ArchitectureDiagram.error
         ArchitectureDiagram.architectureData nonEmpty] in Hd |- *.
    assert (T : forall d, truthy (JV (payloadOf proposal d)) = true)
      by reflexivity.
    rewrite T in Hd |- *. cbn [negb] in Hd |- *.
    destruct (ArchitectureDiagram.renderArchitectureInfo
                (JV (payloadOf proposal (Some diagram)))) as [[i|]|e] eqn:E;
      try discriminate Hd.
    cbn [bind] in Hd. injection Hd as ->.
    apply info_without_diagram in E. now rewrite E.
Qed.

Lemma C3_architecture_witness :
  @ArchitectureDiagram.render DecimalRuntime.runtime
    ArchitectureDiagram.initialState = Ok ArchitectureDiagram.NoDataView /\
  @ArchitectureDiagram.render DecimalRuntime.runtime
    (loaded (JV (VObj [ (lit "status", VStr "pending") ])))
  = Ok (ArchitectureDiagram.InfoView None) /\
  exists info,
    @ArchitectureDiagram.render DecimalRuntime.runtime
      (loaded (JV (payloadOf fullProposal None)))
    = Ok (ArchitectureDiagram.InfoView (Some info)) /\
    ArchitectureDiagram.mermaidCode info = None.
Proof.
  destruct (C3_architecture_degradation DecimalRuntime.runtime) as (A & B & C).
  split; [|split].
  - apply A; reflexivity.
  - apply B; reflexivity.
  - eexists. split.
    + apply (C fullProposal sampleDiagram). reflexivity.
    + reflexivity.
Defined.

(* ===================================================================== *)
(** * The JSON round trip *)
(* ===================================================================== *)

Module JsonFacts.

Import Json.

(** Induction over a value and the values nested in it. *)
Section ValueInduction.

Variable P : value -> Prop.
Hypothesis Pnull : P VNull.
Hypothesis Pbool : forall b, P (VBool b).
Hypothesis Pnum : forall n, P (VNum n).
Hypothesis Pstr : forall s, P (VStr s).
Hypothesis Parr : forall items, Forall P items -> P (VArr items).
Hypothesis Pobj : forall fields, Forall (fun kv => P (snd kv)) fields -> P (VObj fields).

Lemma value_nested_ind (v : value) : P v.
Proof.
  revert v. fix IH 1. intros [|b|n|s|items|fields].
  - exact Pnull.
  - apply Pbool.
  - apply Pnum.
  - apply Pstr.
  - apply Parr. induction items as [|x l IHl]; constructor.
    + apply IH.
    + exact IHl.
  - apply Pobj. induction fields as [|[k x] l IHl]; constructor.
    + apply IH.
    + exact IHl.
Qed.

End ValueInduction.

(** ** String literals *)

Lemma parseChars_escape (c : ascii) (tail : str) :
  parseChars (escapeChar c ++ tail) = push c (parseChars tail).
Proof.
  destruct c as [[] [] [] [] [] [] [] []]; reflexivity.
Qed.

Lemma parseChars_quoted (s rest : str) :
  parseChars (flat_map escapeChar s ++ dquote :: rest) = Some (s, rest).
Proof.
  induction s as [|c s IH]; [reflexivity|].
  cbn [flat_map]. rewrite <- app_assoc, parseChars_escape, IH. reflexivity.
Qed.

(** ** Number literals *)

Lemma digitsOf_isDigit (d : Decimal.uint) : forallb isDigit (digitsOf d) = true.
Proof.
  unfold digitsOf. induction d; simpl; auto.
Qed.

Lemma delimited_head (c : ascii) (r : str) :
  delimited (c :: r) = true ->
  isDigit c = false /\
  Ascii.eqb c "."%char || Ascii.eqb c "e"%char || Ascii.eqb c "E"%char = false /\
  isWs c = false.
Proof.
  unfold delimited. intros H.
  apply orb_true_iff in H as [H|H]; [apply orb_true_iff in H as [H|H]|];
    apply Ascii.eqb_eq in H; subst c; repeat split.
Qed.

Lemma spanDigits_app (ds rest : str) :
  forallb isDigit ds = true -> delimited rest = true ->
  spanDigits (ds ++ rest) = (ds, rest).
Proof.
  intros Hd Hr. induction ds as [|c ds IH]; simpl in *.
  - destruct rest as [|c r]; [reflexivity|].
    apply delimited_head in Hr as (Hc & _). simpl. now rewrite Hc.
  - apply andb_true_iff in Hd as [Hc Hds]. rewrite Hc, (IH Hds). reflexivity.
Qed.

Lemma isDigit_not_minus (c : ascii) :
  isDigit c = true -> Ascii.eqb c "-"%char = false.
Proof.
  destruct c as [[] [] [] [] [] [] [] []]; intros H; try reflexivity;
    discriminate H.
Qed.

(** The decimal writing of a positive number starts with a digit other
    than 0. *)
Lemma to_uint_head (p : positive) :
  exists c more,
    digitsOf (Pos.to_uint p) = c :: more /\ Ascii.eqb c "0"%char = false.
Proof.
  assert (U : Decimal.unorm (Pos.to_uint p) = Pos.to_uint p).
  { rewrite <- DecimalPos.Unsigned.to_of.
    rewrite DecimalPos.Unsigned.of_to. reflexivity. }
  pose proof (DecimalPos.Unsigned.to_uint_nonnil p) as Hnil.
  pose proof (DecimalPos.Unsigned.to_uint_nonzero p) as Hzero.
  destruct (Pos.to_uint p) as [|u|u|u|u|u|u|u|u|u|u] eqn:E;
    try congruence;
    try (eexists; eexists; split; [reflexivity | reflexivity]).
  exfalso. rewrite DecimalFacts.unorm_D0 in U.
  destruct u as [|u|u|u|u|u|u|u|u|u|u]; try (apply Hzero; reflexivity);
    match type of U with
    | Decimal.unorm ?w = _ =>
        pose proof (DecimalFacts.nb_digits_unorm w ltac:(discriminate)) as L;
        rewrite U in L; simpl in L; lia
    end.
Qed.

Lemma uint_of_digits (p : positive) :
  NilZero.uint_of_string (string_of_list_ascii (digitsOf (Pos.to_uint p)))
  = Some (Pos.to_uint p).
Proof.
  unfold digitsOf. rewrite string_of_list_ascii_of_string.
  pose proof (NilZero.usu (Pos.to_uint p)
                (DecimalPos.Unsigned.to_uint_nonnil p)) as H.
  unfold NilZero.string_of_uint in H.
  destruct (Pos.to_uint p) eqn:E; try exact H.
  exfalso. now apply (DecimalPos.Unsigned.to_uint_nonnil p).
Qed.

Lemma numToStr_pos (p : positive) : numToStr (Zpos p) = digitsOf (Pos.to_uint p).
Proof.
  unfold numToStr, digitsOf. simpl. unfold NilZero.string_of_uint.
  destruct (Pos.to_uint p) eqn:E; try reflexivity.
  exfalso. now apply (DecimalPos.Unsigned.to_uint_nonnil p).
Qed.

Lemma numToStr_neg (p : positive) :
  numToStr (Zneg p) = "-"%char :: digitsOf (Pos.to_uint p).
Proof.
  unfold numToStr, digitsOf. simpl. unfold NilZero.string_of_uint.
  destruct (Pos.to_uint p) eqn:E; try reflexivity.
  exfalso. now apply (DecimalPos.Unsigned.to_uint_nonnil p).
Qed.

Lemma parseDigits (p : positive) (rest : str) :
  delimited rest = true ->
  parseNumber (digitsOf (Pos.to_uint p) ++ rest) = Some (Zpos p, rest) /\
  parseNumber ("-"%char :: digitsOf (Pos.to_uint p) ++ rest) = Some (Zneg p, rest).
Proof.
  intros Hr.
  destruct (to_uint_head p) as (c & more & Hd & Hc).
  pose proof (digitsOf_isDigit (Pos.to_uint p)) as Hall.
  pose proof (uint_of_digits p) as Hu.
  pose proof (spanDigits_app _ rest Hall Hr) as Hs.
  assert (Hrest : match rest with
                  | c :: _ => Ascii.eqb c "."%char || Ascii.eqb c "e"%char
                              || Ascii.eqb c "E"%char
                  | [] => false
                  end = false).
  { destruct rest as [|x r]; [reflexivity|].
    now apply delimited_head in Hr as (_ & Hx & _). }
  assert (Hn : Z.of_N (N.of_uint (Pos.to_uint p)) = Zpos p).
  { unfold N.of_uint. now rewrite DecimalPos.Unsigned.of_to. }
  rewrite Hd in *. simpl in Hall.
  apply andb_true_iff in Hall as [Hdc _].
  split; unfold parseNumber.
  - cbn [app]. rewrite (isDigit_not_minus c Hdc).
    change (c :: more ++ rest) with ((c :: more) ++ rest). rewrite Hs.
    rewrite Hc. cbn [andb]. rewrite Hrest, Hu, Hn. reflexivity.
  - rewrite Ascii.eqb_refl. rewrite Hs.
    rewrite Hc. cbn [andb]. rewrite Hrest, Hu, Hn. reflexivity.
Qed.

Lemma parseNumber_numToStr (n : Z) (rest : str) :
  delimited rest = true ->
  parseNumber (numToStr n ++ rest) = Some (n, rest).
Proof.
  intros Hr. destruct n as [|p|p].
  - change (numToStr 0) with (lit "0"). unfold parseNumber. cbn [lit list_ascii_of_string app].
    cbn [Ascii.eqb Bool.eqb]. cbn [spanDigits].
    change (isDigit "0"%char) with true. cbn iota.
    replace (spanDigits rest) with (@nil ascii, rest)
      by (symmetry; apply (spanDigits_app [] rest eq_refl Hr)).
    cbn [nonEmpty andb].
    destruct rest as [|x r]; [reflexivity|].
    apply delimited_head in Hr as (_ & Hx & _). rewrite Hx. reflexivity.
  - rewrite numToStr_pos. now apply parseDigits.
  - rewrite numToStr_neg. now apply parseDigits.
Qed.

(** ** The first character of a value *)

Lemma startsValue_facts (c : ascii) :
  startsValue c = true ->
  isWs c = false /\ Ascii.eqb c "]"%char = false /\ Ascii.eqb c "}"%char = false.
Proof.
  destruct c as [[] [] [] [] [] [] [] []]; intros H; try discriminate H;
    repeat split.
Qed.

Lemma numToStr_head (n : Z) :
  exists c r, numToStr n = c :: r /\
              (Ascii.eqb c "-"%char || isDigit c = true).
Proof.
  destruct n as [|p|p].
  - exists "0"%char, []. split; reflexivity.
  - rewrite numToStr_pos.
    destruct (to_uint_head p) as (c & more & Hd & _).
    pose proof (digitsOf_isDigit (Pos.to_uint p)) as Hall.
    rewrite Hd in *. simpl in Hall. apply andb_true_iff in Hall as [Hc _].
    exists c, more. split; [reflexivity|]. rewrite Hc. apply orb_true_r.
  - rewrite numToStr_neg. eexists; eexists. split; reflexivity.
Qed.

Lemma stringify_head (v : value) :
  exists c r, stringify v = c :: r /\ startsValue c = true.
Proof.
  destruct v as [|b|n|s|items|fields].
  - eexists; eexists; split; reflexivity.
  - destruct b; eexists; eexists; split; reflexivity.
  - destruct (numToStr_head n) as (c & r & E & Hc).
    exists c, r. split; [exact E|]. unfold startsValue.
    apply orb_true_iff in Hc as [Hc|Hc]; rewrite Hc;
      rewrite ?orb_true_r; reflexivity.
  - eexists; eexists; split; reflexivity.
  - eexists; eexists; split; reflexivity.
  - eexists; eexists; split; reflexivity.
Qed.

(** A number is read by [parseNumber]. *)
Lemma parseValue_number (fuel : nat) (c : ascii) (r : str) :
  Ascii.eqb c "-"%char || isDigit c = true ->
  parseValue (S fuel) (c :: r) = withRest VNum (parseNumber (c :: r)).
Proof.
  destruct c as [[] [] [] [] [] [] [] []]; intros H; try discriminate H;
    reflexivity.
Qed.

(** ** The fuel a value needs *)

Lemma stringify_arr (items : list value) :
  stringify (VArr items) = lit "[" ++ commaSep (map stringify items) ++ lit "]".
Proof. reflexivity. Qed.

Lemma stringify_obj (fields : list (str * value)) :
  stringify (VObj fields) = lit "{" ++ commaSep (map member fields) ++ lit "}".
Proof.
  reflexivity.
Qed.

Lemma commaSep_cons (x : str) (l : list str) :
  l <> [] -> commaSep (x :: l) = x ++ lit "," ++ commaSep l.
Proof. destruct l; [congruence | reflexivity]. Qed.

Lemma wellFormed_arr (items : list value) :
  wellFormed (VArr items) <-> Forall wellFormed items.
Proof.
  cbn [wellFormed]. induction items as [|x l IH].
  - split; constructor.
  - split.
    + intros [Hx Hl]. constructor; [exact Hx | now apply IH].
    + intros H. inversion H; subst. split; [assumption | now apply IH].
Qed.

Lemma wellFormed_obj (fields : list (str * value)) :
  wellFormed (VObj fields) <->
  NoDup (map fst fields) /\ Forall (fun kv => wellFormed (snd kv)) fields.
Proof.
  cbn [wellFormed].
  assert (G : (fix all (l : list (str * value)) : Prop :=
                 match l with
                 | [] => True
                 | (_, x) :: l' => wellFormed x /\ all l'
                 end) fields
              <-> Forall (fun kv => wellFormed (snd kv)) fields).
  { induction fields as [|[k x] l IH].
    - split; constructor.
    - split.
      + intros [Hx Hl]. constructor; [exact Hx | now apply IH].
      + intros H. inversion H; subst. split; [assumption | now apply IH]. }
  now rewrite G.
Qed.

Lemma setField_fresh (k : str) (v : value) (acc : list (str * value)) :
  ~ In k (map fst acc) -> setField k v acc = acc ++ [(k, v)].
Proof.
  induction acc as [|[k' v'] acc IH]; simpl; intros Hk; [reflexivity|].
  destruct (JsString.eqb k k') eqn:E.
  - apply str_eqb_eq in E. subst. exfalso. apply Hk. now left.
  - rewrite IH; [reflexivity|]. intros H. apply Hk. now right.
Qed.

(** ** Reading back a written value *)

Lemma skipWs_value (c : ascii) (z : str) :
  startsValue c = true -> skipWs (c :: z) = c :: z.
Proof.
  intros H. apply startsValue_facts in H as (Hws & _). simpl. now rewrite Hws.
Qed.

Lemma parseValue_array (fuel : nat) (c : ascii) (z : str) :
  startsValue c = true ->
  parseValue (S fuel) ("["%char :: c :: z)
  = withRest VArr (parseElements fuel (c :: z)).
Proof.
  intros H. pose proof (skipWs_value c z H) as Hs.
  apply startsValue_facts in H as (_ & Hc & _).
  cbn [parseValue]. change (skipWs ("["%char :: c :: z)) with ("["%char :: c :: z).
  cbn [Ascii.eqb Bool.eqb andb]. rewrite Hs, Hc. reflexivity.
Qed.

Lemma parseValue_object (fuel : nat) (z : str) :
  parseValue (S fuel) ("{"%char :: dquote :: z)
  = withRest VObj (parseMembers fuel [] (dquote :: z)).
Proof. reflexivity. Qed.

Lemma parseElements_items (items : list value) :
  items <> [] ->
  Forall readsBack items -> Forall wellFormed items ->
  forall (fuel : nat) (rest : str),
    (weightOfItems items <= fuel)%nat ->
    parseElements fuel (commaSep (map stringify items) ++ "]"%char :: rest)
    = Some (items, rest).
Proof.
  induction items as [|x l IH]; [congruence|].
  intros _ HP Hwf fuel rest Hfuel.
  inversion HP as [|? ? Px Pl]; subst. inversion Hwf as [|? ? Wx Wl]; subst.
  unfold weightOfItems in Hfuel. cbn [fold_right] in Hfuel.
  fold (weightOfItems l) in Hfuel.
  destruct fuel as [|fuel]; [lia|]. cbn [parseElements].
  destruct l as [|y l'].
  - cbn [map commaSep].
    rewrite (Px Wx fuel ("]"%char :: rest)) by (try reflexivity; lia).
    reflexivity.
  - rewrite map_cons, commaSep_cons by discriminate.
    rewrite <- !app_assoc. cbn [lit list_ascii_of_string app].
    rewrite (Px Wx fuel) by (try reflexivity; lia).
    assert (Hl : (weightOfItems (y :: l') <= fuel)%nat) by lia.
    pose proof (IH ltac:(discriminate) Pl Wl fuel rest Hl) as E.
    set (tail := commaSep (map stringify (y :: l')) ++ "]"%char :: rest) in *.
    change (skipWs (","%char :: tail)) with (","%char :: tail).
    cbn [Ascii.eqb Bool.eqb andb]. rewrite E. reflexivity.
Qed.

Lemma parseMembers_fields (fields : list (str * value)) :
  fields <> [] ->
  Forall (fun kv => readsBack (snd kv)) fields ->
  Forall (fun kv => wellFormed (snd kv)) fields ->
  forall (acc : list (str * value)) (fuel : nat) (rest : str),
    NoDup (map fst (acc ++ fields)) ->
    (weightOfFields fields <= fuel)%nat ->
    parseMembers fuel acc (commaSep (map member fields) ++ "}"%char :: rest)
    = Some (acc ++ fields, rest).
Proof.
  induction fields as [|[k x] l IH]; [congruence|].
  intros _ HP Hwf acc fuel rest Hnd Hfuel.
  inversion HP as [|? ? Px Pl]; subst. inversion Hwf as [|? ? Wx Wl]; subst.
  cbn [snd] in Px, Wx.
  unfold weightOfFields in Hfuel. cbn [fold_right snd] in Hfuel.
  fold (weightOfFields l) in Hfuel.
  assert (Hfresh : ~ In k (map fst acc)).
  { rewrite map_app in Hnd. cbn [map fst] in Hnd.
    apply NoDup_remove_2 in Hnd. intros H. apply Hnd.
    apply in_or_app. now left. }
  destruct fuel as [|fuel]; [lia|].
  assert (Hhead : forall tail,
    parseMembers (S fuel) acc (member (k, x) ++ tail)
    = match parseValue fuel (stringify x ++ tail) with
      | None => None
      | Some (v, r3) =>
          let acc' := setField k v acc in
          match skipWs r3 with
          | [] => None
          | c3 :: r4 =>
              if Ascii.eqb c3 ","%char then parseMembers fuel acc' r4
              else if Ascii.eqb c3 "}"%char then Some (acc', r4) else None
          end
      end).
  { intros tail. unfold member, quote.
    cbn [lit list_ascii_of_string app]. rewrite <- !app_assoc.
    cbn [app parseMembers].
    change (skipWs (dquote :: ?t)) with (dquote :: t).
    cbn [skipWs]. change (isWs dquote) with false. cbn iota.
    change (Ascii.eqb dquote dquote) with true. cbn iota.
    rewrite parseChars_quoted. reflexivity. }
  destruct l as [|kv l'].
  - cbn [map commaSep]. rewrite Hhead.
    rewrite (Px Wx fuel ("}"%char :: rest)) by (try reflexivity; lia).
    cbn. rewrite setField_fresh by assumption. reflexivity.
  - rewrite map_cons, commaSep_cons by discriminate.
    rewrite <- !app_assoc. rewrite Hhead.
    cbn [lit list_ascii_of_string app].
    rewrite (Px Wx fuel) by (try reflexivity; lia).
    assert (Hl : (weightOfFields (kv :: l') <= fuel)%nat) by lia.
    assert (Hnd' : NoDup (map fst ((acc ++ [(k, x)]) ++ kv :: l'))).
    { now rewrite <- app_assoc. }
    pose proof (IH ltac:(discriminate) Pl Wl (acc ++ [(k, x)]) fuel rest Hnd' Hl)
      as E.
    set (tail := commaSep (map member (kv :: l')) ++ "}"%char :: rest) in *.
    cbv zeta. rewrite setField_fresh by assumption.
    change (skipWs (","%char :: tail)) with (","%char :: tail).
    cbn [Ascii.eqb Bool.eqb andb]. rewrite E. now rewrite <- app_assoc.
Qed.

Lemma stringify_readsBack (v : value) : readsBack v.
Proof.
  induction v as [|b|n|s|items IH|fields IH] using value_nested_ind;
    intros Hwf fuel rest Hfuel Hrest;
    (destruct fuel as [|fuel]; [simpl in Hfuel; lia|]).
  - reflexivity.
  - destruct b; reflexivity.
  - cbn [stringify].
    destruct (numToStr_head n) as (c & r & E & Hc).
    pose proof (parseNumber_numToStr n rest Hrest) as Hn.
    rewrite E in *. cbn [app] in *.
    rewrite (parseValue_number fuel c (r ++ rest) Hc), Hn. reflexivity.
  - cbn [stringify]. unfold quote. cbn [app]. rewrite <- app_assoc.
    cbn [app parseValue].
    change (skipWs (dquote :: ?t)) with (dquote :: t).
    cbn [skipWs]. change (isWs dquote) with false. cbn iota.
    cbn [Ascii.eqb Bool.eqb andb dquote ascii_of_nat ascii_of_N ascii_of_pos
         N.of_nat Pos.of_succ_nat Pos.succ shift zero one].
    rewrite parseChars_quoted. reflexivity.
  - apply wellFormed_arr in Hwf.
    cbn [weight] in Hfuel. fold (weightOfItems items) in Hfuel.
    rewrite stringify_arr. cbn [lit list_ascii_of_string app].
    rewrite <- app_assoc. cbn [app].
    destruct items as [|x l]; [reflexivity|].
    destruct (stringify_head x) as (c & r & E & Hc).
    pose proof (parseElements_items (x :: l) ltac:(discriminate) IH Hwf
                  fuel rest ltac:(lia)) as El.
    assert (Ec : exists z, commaSep (map stringify (x :: l)) ++ "]"%char :: rest
                           = c :: z).
    { destruct l; cbn [map commaSep]; rewrite E; eexists; reflexivity. }
    destruct Ec as [z Ez]. rewrite Ez in *.
    rewrite (parseValue_array fuel c z Hc), El. reflexivity.
  - apply wellFormed_obj in Hwf as [Hnd Hwf].
    cbn [weight] in Hfuel. fold (weightOfFields fields) in Hfuel.
    rewrite stringify_obj. cbn [lit list_ascii_of_string app].
    rewrite <- app_assoc. cbn [app].
    destruct fields as [|[k x] l]; [reflexivity|].
    pose proof (parseMembers_fields ((k, x) :: l) ltac:(discriminate) IH Hwf
                  [] fuel rest Hnd ltac:(lia)) as El.
    assert (Ec : exists z,
               commaSep (map member ((k, x) :: l)) ++ "}"%char :: rest
               = dquote :: z).
    { destruct l; cbn [map commaSep member]; unfold quote; eexists; reflexivity. }
    destruct Ec as [z Ez]. rewrite Ez in *.
    rewrite (parseValue_object fuel z), El. reflexivity.
Qed.

(** The text of a value is at least as long as the fuel the value needs. *)
Lemma weight_le_length (v : value) : (weight v <= length (stringify v))%nat.
Proof.
  induction v as [|b|n|s|items IH|fields IH] using value_nested_ind.
  - simpl. lia.
  - destruct b; simpl; lia.
  - cbn [weight stringify]. destruct (numToStr_head n) as (c & r & E & _).
    rewrite E. simpl. lia.
  - cbn [weight stringify]. unfold quote. simpl. lia.
  - rewrite stringify_arr. cbn [weight]. fold (weightOfItems items).
    rewrite !length_app. cbn [lit list_ascii_of_string length].
    assert (G : (weightOfItems items
                 <= S (length (commaSep (map stringify items))))%nat).
    { induction IH as [|x l Hx Hl IHl]; [simpl; lia|].
      unfold weightOfItems in *. cbn [fold_right].
      destruct l as [|y l'].
      - cbn [map commaSep fold_right]. lia.
      - rewrite map_cons, commaSep_cons by discriminate.
        rewrite !length_app. cbn [lit list_ascii_of_string length]. lia. }
    lia.
  - rewrite stringify_obj. cbn [weight]. fold (weightOfFields fields).
    rewrite !length_app. cbn [lit list_ascii_of_string length].
    assert (G : (weightOfFields fields
                 <= S (length (commaSep (map member fields))))%nat).
    { induction IH as [|[k x] l Hx Hl IHl]; [simpl; lia|].
      unfold weightOfFields in *. cbn [fold_right snd] in *.
      assert (M : (weight x <= length (member (k, x)))%nat).
      { unfold member. rewrite !length_app. lia. }
      destruct l as [|y l'].
      - cbn [map commaSep fold_right]. lia.
      - rewrite map_cons, commaSep_cons by discriminate.
        rewrite !length_app. cbn [lit list_ascii_of_string length]. lia. }
    lia.
Qed.

(** [JSON.parse(JSON.stringify(v))] is [v]. *)
Lemma parse_stringify (v : value) :
  wellFormed v -> parse (stringify v) = Ok v.
Proof.
  intros Hwf. unfold parse.
  pose proof (stringify_readsBack v Hwf (S (length (stringify v))) []) as H.
  rewrite List.app_nil_r in H. rewrite H; [reflexivity | | reflexivity].
  pose proof (weight_le_length v). lia.
Qed.

Lemma stringify_nonEmpty (v : value) : nonEmpty (stringify v) = true.
Proof.
  destruct (stringify_head v) as (c & r & E & _). now rewrite E.
Qed.

End JsonFacts.

Import JsonFacts.

(** ** What the parser returns is well formed *)

Module ParserFacts.

Import Json.

Lemma setField_keys (k : str) (v : value) (acc : list (str * value)) :
  map fst (setField k v acc) = map fst acc \/
  (~ In k (map fst acc) /\ map fst (setField k v acc) = map fst acc ++ [k]).
Proof.
  induction acc as [|[k' v'] acc IH]; simpl.
  - right. split; [tauto | reflexivity].
  - destruct (JsString.eqb k k') eqn:E; simpl.
    + now left.
    + destruct IH as [IH|[Hk IH]].
      * left. now rewrite IH.
      * right. split; [|now rewrite IH].
        intros [->|H]; [|tauto]. now rewrite str_eqb_refl in E.
Qed.

Lemma setField_NoDup (k : str) (v : value) (acc : list (str * value)) :
  NoDup (map fst acc) -> NoDup (map fst (setField k v acc)).
Proof.
  intros H. destruct (setField_keys k v acc) as [E|[Hk E]]; rewrite E; auto.
  apply NoDup_app; auto.
  - repeat constructor. intros [].
  - intros a Ha [<-|[]]. contradiction.
Qed.

Lemma setField_Forall (P : value -> Prop) (k : str) (v : value)
    (acc : list (str * value)) :
  P v -> Forall (fun kv => P (snd kv)) acc ->
  Forall (fun kv => P (snd kv)) (setField k v acc).
Proof.
  intros Hv. induction acc as [|[k' v'] acc IH]; simpl; intros H.
  - repeat constructor. exact Hv.
  - inversion H; subst. destruct (JsString.eqb k k'); constructor; auto.
Qed.

Ltac break H :=
  repeat match type of H with
    | context [match ?x with _ => _ end] => destruct x eqn:?; try discriminate H
    end.

Lemma parser_wellFormed (fuel : nat) :
  (forall s v r, parseValue fuel s = Some (v, r) -> wellFormed v) /\
  (forall s vs r, parseElements fuel s = Some (vs, r) -> Forall wellFormed vs) /\
  (forall acc s fs r,
      fieldsWellFormed acc ->
      parseMembers fuel acc s = Some (fs, r) -> fieldsWellFormed fs).
Proof.
  induction fuel as [|fuel (IHv & IHe & IHm)];
    [repeat split; intros; discriminate|].
  split; [|split].
  - intros s v r H. cbn [parseValue] in H.
    unfold option_map, withRest, expect in H. break H;
      try (injection H as <- <-);
      first [ exact I
            | split; [constructor | exact I]
            | apply wellFormed_arr; eapply IHe; eauto
            | apply wellFormed_obj; eapply (IHm []); eauto; split; constructor ].
  - intros s vs r H. cbn [parseElements] in H. unfold withRest in H. break H;
      injection H as <- <-.
    + constructor; eauto.
    + constructor; eauto.
  - intros acc s fs r [Hnd Hwf] H. cbn [parseMembers] in H. break H.
    + eapply IHm; [|exact H]. split.
      * now apply setField_NoDup.
      * apply setField_Forall; eauto.
    + injection H as <- <-. split.
      * now apply setField_NoDup.
      * apply setField_Forall; eauto.
Qed.

Lemma parse_wellFormed (text : str) (v : value) :
  parse text = Ok v -> wellFormed v.
Proof.
  unfold parse. intros H. break H. injection H as <-.
  eapply (proj1 (parser_wellFormed _)); eauto.
Qed.

End ParserFacts.

Import ParserFacts.

(* ===================================================================== *)
(** * Pricing: the tabular view of an array *)
(* ===================================================================== *)

Module ArrayFacts.


End ArrayFacts.

Import ArrayFacts.




(* ===================================================================== *)
(** * The result cache *)
(* ===================================================================== *)

Module CacheFacts.

Lemma getItem_setItem (k v : str) (store : LocalStorage.Storage) :
  LocalStorage.getItem k (LocalStorage.setItem k v store) = Some v.
Proof.
  induction store as [|[k' v'] store IH]; simpl.
  - now rewrite str_eqb_refl.
  - destruct (JsString.eqb k k') eqn:E; simpl; now rewrite E.
Qed.

Lemma normalizeBody_wellFormed (processing : value) :
  Json.wellFormed processing -> Json.wellFormed (Dashboard.normalizeBody processing).
Proof.
  intros Hwf. unfold Dashboard.normalizeBody.
  destruct processing as [|b|n|s|items|fields]; auto.
  destruct (asString _) as [text|]; auto.
  destruct (Json.parse text) as [parsed|e] eqn:E; auto.
  apply wellFormed_obj in Hwf as [Hnd Hall]. apply wellFormed_obj. split.
  - now apply setField_NoDup.
  - apply setField_Forall; auto. now apply parse_wellFormed in E.
Qed.

Lemma invoke_wellFormed (payload : value) (w : AwsService.World) (v : value) :
  AwsService.invokeLambdaFunction payload w = Ok v -> Json.wellFormed v.
Proof.
  unfold AwsService.invokeLambdaFunction. intros H.
  destruct (AwsService.lambda w _) as [text|]; [|discriminate].
  cbn [bind] in H.
  destruct (Json.parse text) as [result|] eqn:E; [|discriminate].
  cbn [bind] in H. apply parse_wellFormed in E.
  destruct (get (JV result) "statusCode") as [sc|]; [|discriminate].
  cbn [bind] in H.
  destruct (truthy sc && AwsService.differsFrom 200 sc).
  - destruct (get (JV result) "body"); discriminate.
  - now injection H as <-.
Qed.

Lemma processRFP_wellFormed (file : AwsService.File) (userEmail : str)
    (w : AwsService.World) (p : AwsService.Processed) :
  AwsService.returned (AwsService.processRFP file userEmail w) = Ok p ->
  Json.wellFormed (AwsService.processingResult p).
Proof.
  unfold AwsService.processRFP.
  destruct (AwsService.uploadFileToS3 file userEmail w) as [pcts [up|e]];
    [|discriminate].
  destruct (AwsService.startSimulatedProgress _) as [s0 first].
  destruct (AwsService.ticks _ _ s0) as [s1 later].
  destruct (AwsService.invokeLambdaFunction _ w) as [v|e] eqn:E;
    [|discriminate].
  cbn. intros [= <-]. cbn. now apply invoke_wellFormed in E.
Qed.


Lemma parseValue_notValue (fuel : nat) (s : str) (c : ascii) (r : str) :
  Json.skipWs s = c :: r -> startsValue c = false ->
  Json.parseValue fuel s = None.
Proof.
  intros Hs Hc. destruct fuel; [reflexivity|].
  cbn [Json.parseValue]. rewrite Hs.
  destruct c as [[] [] [] [] [] [] [] []]; try discriminate Hc; reflexivity.
Qed.

(** A text that is no JSON text by its shape does not parse. *)
Lemma parse_notJson (text : str) :
  notJson text = true -> Json.parse text = Throw SyntaxError.
Proof.
  unfold notJson, Json.parse. intros H.
  assert (E : Json.parseValue (S (length text)) text = None).
  { destruct (Json.skipWs text) as [|c r] eqn:Es.
    { cbn [Json.parseValue]. now rewrite Es. }
    destruct (Ascii.eqb_spec c "{"%char) as [->|Hobj].
    { cbn [Json.parseValue]. rewrite Es.
      cbn [Ascii.eqb Bool.eqb andb].
      destruct (Json.skipWs r) as [|k r'] eqn:Er; [reflexivity|].
      apply negb_true_iff, orb_false_iff in H as [Hq Hb].
      rewrite Hb.
      destruct (length text) as [|fuel]; [reflexivity|].
      cbn [Json.parseMembers]. rewrite Er, Hq. reflexivity. }
    destruct (Ascii.eqb_spec c "["%char) as [->|Harr].
    { cbn [Json.parseValue]. rewrite Es.
      cbn [Ascii.eqb Bool.eqb andb].
      destruct (Json.skipWs r) as [|k r'] eqn:Er; [reflexivity|].
      apply negb_true_iff, orb_false_iff in H as [Hv Hb].
      rewrite Hb.
      destruct (length text) as [|fuel]; [reflexivity|].
      cbn [Json.parseElements].
      now rewrite (parseValue_notValue fuel r k r' Er Hv). }
    apply negb_true_iff in H.
    now apply (parseValue_notValue _ text c r Es). }
  now rewrite E.
Qed.

End CacheFacts.

Import CacheFacts.



(* ===================================================================== *)
(** * Failure of the invocation *)
(* ===================================================================== *)

Module PipelineFacts.

Import AwsService.

Lemma stopSim_cancelled (s : Sim) :
  stopped (stopSim s) = true /\ cleared (stopSim s) = true.
Proof. split; reflexivity. Qed.

Lemma simulated_le_95 (n : nat) (s0 s1 : Sim) (first later : list Z) :
  startSimulatedProgress pipelineOptions = (s0, first) ->
  ticks pipelineOptions n s0 = (s1, later) ->
  Forall (fun v => v <= 95) (first ++ later).
Proof.
  intros Hs Ht. injection Hs as <- <-.
  pose proof (ticks_sorted pipelineOptions n
                {| current := 10; stopped := false; cleared := false |}
                ltac:(simpl; lia)) as [_ B].
  change (start pipelineOptions) with 10 in Ht. rewrite Ht in B. simpl in B.
  constructor; [simpl; lia|].
  eapply Forall_impl; [|exact B]. simpl. intros; lia.
Qed.

Lemma processValues_upload (percentages : list Z) :
  processValues (mkProgress "upload" "Uploading file..." 0
                 :: map (mkProgress "upload" "Uploading to S3...") percentages)
  = [].
Proof.
  unfold processValues. cbn [filter step]. 
  change (JsString.eqb "upload" "process") with false. cbn iota.
  induction percentages as [|p l IH]; [reflexivity|].
  cbn [map filter step].
  change (JsString.eqb "upload" "process") with false. cbn iota. exact IH.
Qed.

Lemma processValues_app (a b : list ProgressInfo) :
  processValues (a ++ b) = processValues a ++ processValues b.
Proof. unfold processValues. now rewrite filter_app, map_app. Qed.

Lemma processValues_simulated (values : list Z) :
  processValues (map (mkProgress "process" "Processing...") values) = values.
Proof.
  unfold processValues. induction values as [|v l IH]; [reflexivity|].
  cbn [map filter step].
  change (JsString.eqb "process" "process") with true. cbn iota.
  cbn [map progress]. now f_equal.
Qed.

(** The shape of a run whose upload succeeds. *)
Lemma processRFP_uploaded (file : File) (userEmail : str) (w : World) :
  uploadFailure w = None ->
  exists (values : list Z) (s1 : Sim) (up : UploadResult),
    Forall (fun v => v <= 95) values /\
    let run := processRFP file userEmail w in
    timer run = Some (stopSim s1) /\
    match returned run with
    | Ok p =>
        processValues (reported run) = 10 :: values ++ [100] /\
        last (reported run) Dashboard.idle
        = mkProgress "process" "Processing complete!" 100
    | Throw err =>
        processValues (reported run) = 10 :: values /\
        invokeLambdaFunction (pipelinePayload (key up)) w = Throw err
    end.
Proof.
  intros Hup. unfold processRFP, uploadFileToS3. rewrite Hup.
  destruct (startSimulatedProgress pipelineOptions) as [s0 first] eqn:Es.
  destruct (ticks pipelineOptions (periods w) s0) as [s1 later] eqn:Et.
  exists (first ++ later), s1. eexists.
  split; [eapply simulated_le_95; eauto|].
  cbv zeta.
  destruct (invokeLambdaFunction _ w) as [result|err] eqn:Ei;
    cbn [timer returned reported]; (split; [reflexivity|]).
  - split.
    + rewrite !processValues_app, processValues_upload, processValues_simulated.
      reflexivity.
    + rewrite !app_assoc. apply last_last.
  - split; [|exact Ei].
    rewrite !processValues_app, processValues_upload, processValues_simulated.
    reflexivity.
Qed.

End PipelineFacts.

Import PipelineFacts.

(** C4, counterexample: the invocation fails after three periods; the values
    reported for the processing step are 10, 10, 15, 20 and 25, the
    Dashboard then resets the progress to 0, and 100 is never shown for the
    processing step. *)
Lemma C4_failure_without_100 :
  let run := AwsService.processRFP Sample.rfp "alice@hcltech.com" Sample.failing in
  let h := Dashboard.handleUpload Sample.selected "alice@hcltech.com" []
             Sample.failing in
  AwsService.returned run = Throw (Error "Task timed out") /\
  processValues (AwsService.reported run) = [10; 10; 15; 20; 25] /\
  map AwsService.progress (Dashboard.shown h)
  = [0; 50; 100; 100; 10; 10; 15; 20; 25; 0] /\
  ~ In 100 (processValues (AwsService.reported run)).
Proof.
  repeat split. vm_compute. intuition discriminate.
Qed.

(** C4, amended: when the upload succeeds, the simulation is cancelled at the
    end of [processRFP], whether the invocation succeeds or fails; on success
    the last progress reported is 100; on failure [handleUpload] leaves the
    results null with a non-empty error message, stores and navigates
    nothing, the effect on the results clears every role state, no value
    above 95 is reported for the processing step, and the progress is reset
    to 0. *)
Theorem C4_invocation_failure (st : Dashboard.UploadState) (userEmail : str)
    (store : LocalStorage.Storage) (w : AwsService.World)
    (file : AwsService.File) (prev : Dashboard.RoleState) :
  Dashboard.selectedFile st = Some file ->
  AwsService.uploadFailure w = None ->
  let run := AwsService.processRFP file userEmail w in
  let h := Dashboard.handleUpload st userEmail store w in
  (exists s, Dashboard.simulation h = Some s /\
             AwsService.stopped s = true /\ AwsService.cleared s = true) /\
  (forall p, AwsService.returned run = Ok p ->
             last (AwsService.reported run) Dashboard.idle
             = AwsService.mkProgress "process" "Processing complete!" 100) /\
  (forall err, AwsService.returned run = Throw err ->
     Dashboard.results (Dashboard.state h) = JV VNull /\
     Dashboard.error (Dashboard.state h) <> [] /\
     Dashboard.navigated h = None /\
     Dashboard.storage h = store /\
     Dashboard.detectOutputs (Dashboard.results (Dashboard.state h)) prev
     = (Dashboard.noRoles, None) /\
     Forall (fun v => v <= 95) (processValues (AwsService.reported run)) /\
     Dashboard.progress (Dashboard.state h) = Dashboard.idle).
Proof.
  intros Hfile Hup run h.
  destruct (processRFP_uploaded file userEmail w Hup)
    as (values & s1 & up & Hvalues & Htimer & Hrun).
  fold run in Htimer, Hrun.
  assert (Hsim : Dashboard.simulation h = AwsService.timer run).
  { subst h. unfold Dashboard.handleUpload. rewrite Hfile. fold run.
    destruct (AwsService.returned run); reflexivity. }
  split; [|split].
  - exists (AwsService.stopSim s1). rewrite Hsim, Htimer.
    split; [reflexivity | apply stopSim_cancelled].
  - intros p Hp. rewrite Hp in Hrun. apply Hrun.
  - intros err Herr. rewrite Herr in Hrun. destruct Hrun as [Hv _].
    subst h. unfold Dashboard.handleUpload. rewrite Hfile. fold run.
    rewrite Herr.
    cbn [Dashboard.state Dashboard.results Dashboard.error Dashboard.navigated
         Dashboard.storage Dashboard.progress].
    repeat split.
    + unfold Dashboard.messageOr.
      destruct (nonEmpty (messageOf err)) eqn:E.
      * intros H. rewrite H in E. discriminate.
      * discriminate.
    + rewrite Hv. constructor; [lia | exact Hvalues].
Qed.

Lemma C4_invocation_failure_witness :
  Dashboard.results
    (Dashboard.state
       (Dashboard.handleUpload Sample.selected "alice@hcltech.com" []
          Sample.failing)) = JV VNull /\
  last (AwsService.reported
          (AwsService.processRFP Sample.rfp "alice@hcltech.com" Sample.succeeding))
       Dashboard.idle
  = AwsService.mkProgress "process" "Processing complete!" 100.
Proof.
  split.
  - refine (proj1 (proj2 (proj2 (C4_invocation_failure Sample.selected
              "alice@hcltech.com" [] Sample.failing Sample.rfp
              Dashboard.noRoles _ _)) (Error "Task timed out") _)).
    + reflexivity.
    + reflexivity.
    + vm_compute. reflexivity.
  - refine (proj1 (proj2 (C4_invocation_failure Sample.selected
              "alice@hcltech.com" [] Sample.succeeding Sample.rfp
              Dashboard.noRoles _ _)) _ _).
    + reflexivity.
    + reflexivity.
    + vm_compute. reflexivity.
Defined.

(* ===================================================================== *)
(** * Further properties: file names and the finders of the roles *)
(* ===================================================================== *)

Module FinderFacts.

Lemma existsb_slash (s : str) :
  existsb (Ascii.eqb "/"%char) s = true <-> In "/"%char s.
Proof.
  rewrite existsb_exists. split.
  - intros (c & Hc & E). apply Ascii.eqb_eq in E. now subst.
  - intros H. exists "/"%char. split; [exact H | apply Ascii.eqb_refl].
Qed.

(** [a || b] of two finds. *)
Lemma orElse_find (p q : StepRecord -> bool) (steps : list StepRecord) :
  (forall s, p s = true -> q s = true) ->
  (orElse (find p steps) (find q steps) = None <-> find q steps = None) /\
  (forall i s, find p steps = Some (i, s) ->
               orElse (find p steps) (find q steps) = Some (i, s)) /\
  (find p steps = None ->
   orElse (find p steps) (find q steps) = find q steps).
Proof.
  intros Hpq. split; [|split].
  - destruct (find p steps) as [[i s]|] eqn:E; simpl; [|tauto].
    split; [discriminate|]. intros Hq.
    apply find_Some in E as (Hn & Hp & _).
    rewrite find_None in Hq. apply nth_error_In in Hn.
    specialize (Hq s Hn). rewrite (Hpq s Hp) in Hq. discriminate.
  - intros i s ->. reflexivity.
  - intros ->. reflexivity.
Qed.

Lemma endsWith_nonEmpty (s suffix : str) :
  endsWith s suffix = true -> suffix <> [] -> nonEmpty s = true.
Proof.
  intros H Hs. apply endsWith_spec in H as [r ->].
  destruct r; simpl; [|reflexivity]. destruct suffix; [congruence | reflexivity].
Qed.

Lemma pricingNamed_fallback (s : StepRecord) :
  Dashboard.pricingNamed s = true -> Dashboard.pricingFallback s = true.
Proof.
  unfold Dashboard.pricingNamed, Dashboard.pricingFallback.
  intros H. apply andb_true_iff in H as [H _]. rewrite H.
  rewrite (endsWith_nonEmpty _ _ H); [reflexivity | discriminate].
Qed.

Lemma pricingFallback_iff (s : StepRecord) :
  Dashboard.pricingFallback s = true <-> endsWith (lowerOut s) ".json" = true.
Proof.
  unfold Dashboard.pricingFallback. fold (lowerOut s). split.
  - intros H. now apply andb_true_iff in H as [_ H].
  - intros H. rewrite H, (endsWith_nonEmpty _ _ H); [reflexivity | discriminate].
Qed.

Lemma clarNamed_fallback (s : StepRecord) :
  Clarifications.clarNamed s = true -> Clarifications.clarFallback s = true.
Proof.
  unfold Clarifications.clarNamed, Clarifications.clarFallback.
  intros H. now apply andb_true_iff in H as [H _].
Qed.

Lemma sowNamed_fallback (s : StepRecord) :
  Dashboard.sowNamed s = true -> Dashboard.sowFallback s = true.
Proof.
  unfold Dashboard.sowNamed, Dashboard.sowFallback.
  intros H. apply andb_true_iff in H as [H _]. rewrite H.
  apply orb_true_iff in H as [H|H];
    rewrite (endsWith_nonEmpty _ _ H); try reflexivity; discriminate.
Qed.

Lemma sowFallback_iff (s : StepRecord) :
  Dashboard.sowFallback s = true <->
  endsWith (lowerOut s) ".docx" = true \/ endsWith (lowerOut s) ".pdf" = true.
Proof.
  unfold Dashboard.sowFallback. fold (lowerOut s). split.
  - intros H. apply andb_true_iff in H as [_ H]. now apply orb_true_iff in H.
  - intros H. assert (N : nonEmpty (lowerOut s) = true).
    { destruct H as [H|H]; apply (endsWith_nonEmpty _ _ H); discriminate. }
    rewrite N. simpl. now apply orb_true_iff.
Qed.

End FinderFacts.

Import FinderFacts.

(** X1: [s.split('/').pop()] holds no slash, and the key is the file name
    itself when it has no slash, and a directory, a slash and the file name
    otherwise. *)
Theorem X1_lastSegment_is_file_name (s : str) :
  ~ In "/"%char (lastSegment s) /\
  ((~ In "/"%char s /\ lastSegment s = s) \/
   exists dir, s = dir ++ "/"%char :: lastSegment s).
Proof.
  induction s as [|c s [IHn IHs]]; simpl.
  - split; [tauto | left; split; [tauto | reflexivity]].
  - destruct (existsb (Ascii.eqb "/"%char) s) eqn:E.
    + split; [exact IHn|]. right.
      apply existsb_slash in E.
      destruct IHs as [[Hno _]|[dir Hd]]; [contradiction|].
      exists (c :: dir). simpl. now f_equal.
    + assert (Hno : ~ In "/"%char s).
      { intros H. apply existsb_slash in H. congruence. }
      destruct (Ascii.eqb_spec c "/"%char) as [->|Hc].
      * split; [exact Hno|]. right. now exists [].
      * split.
        -- intros [H|H]; [congruence | contradiction].
        -- left. split; [|reflexivity]. intros [H|H]; [congruence | contradiction].
Qed.

(** X2: the pricing step of the Dashboard is the first step named for
    pricing when there is one, whatever JSON steps come before it, and the
    first step with a JSON output otherwise; the role is unresolved exactly
    when no step has an output ending in [.json]. *)
Theorem X2_pricingStep_named_then_first_json (steps : list StepRecord) :
  (forall i s, find Dashboard.pricingNamed steps = Some (i, s) ->
               Dashboard.pricingStep steps = Some (i, s)) /\
  (find Dashboard.pricingNamed steps = None ->
   forall i s,
     Dashboard.pricingStep steps = Some (i, s) <->
     nth_error steps i = Some s /\ endsWith (lowerOut s) ".json" = true /\
     (forall j y, (j < i)%nat -> nth_error steps j = Some y ->
                  endsWith (lowerOut y) ".json" = false)) /\
  (Dashboard.pricingStep steps = None <->
   forall s, In s steps -> endsWith (lowerOut s) ".json" = false).
Proof.
  destruct (orElse_find _ _ steps pricingNamed_fallback) as (Hnone & Hnamed & Hfb).
  split; [exact Hnamed | split].
  - intros Hno i s. unfold Dashboard.pricingStep. rewrite (Hfb Hno).
    rewrite find_Some, pricingFallback_iff.
    split; intros (Hn & Hs & Hf); repeat split; auto; intros j y Hj Hy.
    + specialize (Hf j y Hj Hy).
      destruct (endsWith (lowerOut y) ".json") eqn:E; [|reflexivity].
      apply pricingFallback_iff in E. congruence.
    + specialize (Hf j y Hj Hy).
      destruct (Dashboard.pricingFallback y) eqn:E; [|reflexivity].
      apply pricingFallback_iff in E. congruence.
  - unfold Dashboard.pricingStep. rewrite Hnone, find_None.
    split; intros H s Hs; specialize (H s Hs).
    + destruct (endsWith (lowerOut s) ".json") eqn:E; [|reflexivity].
      apply pricingFallback_iff in E. congruence.
    + destruct (Dashboard.pricingFallback s) eqn:E; [|reflexivity].
      apply pricingFallback_iff in E. congruence.
Qed.

Lemma X2_pricingStep_witness :
  boundAt (classify fullPipeline) Pricing = Some 2%nat /\
  endsWith (lowerOut (mkStep (Some (lit "RFx Parsing"))
                        (Some (lit "alice/parsed_rfx.json"))
                        (Some (lit "success")))) ".json" = true /\
  (forall s, In s [ mkStep (Some (lit "SOW Generation"))
                      (Some (lit "alice/SOW_final.docx")) (Some (lit "success")) ] ->
             endsWith (lowerOut s) ".json" = false).
Proof.
  split; [|split].
  - unfold boundAt. cbn [classify].
    rewrite (proj1 (X2_pricingStep_named_then_first_json fullPipeline) 2%nat
               (mkStep (Some (lit "Pricing Estimate"))
                  (Some (lit "alice/pricing.json")) (Some (lit "success"))));
      reflexivity.
  - apply (proj1 (proj1 (proj2 (X2_pricingStep_named_then_first_json parsingOnly))
                    eq_refl 0%nat _) eq_refl).
  - apply (proj1 (proj2 (proj2 (X2_pricingStep_named_then_first_json _)))).
    reflexivity.
Defined.

(** X3: the SOW step is the first document step that mentions the SOW when
    there is one, and the first step with a [.docx] or [.pdf] output
    otherwise; the role is unresolved exactly when no step has such an
    output, and the key it resolves to is never empty. *)
Theorem X3_sowStep_named_then_first_document (steps : list StepRecord) :
  (forall i s, find Dashboard.sowNamed steps = Some (i, s) ->
               Dashboard.sowStep steps = Some (i, s)) /\
  (find Dashboard.sowNamed steps = None ->
   Dashboard.sowStep steps = find Dashboard.sowFallback steps) /\
  (Dashboard.sowStep steps = None <->
   forall s, In s steps ->
     endsWith (lowerOut s) ".docx" = false /\ endsWith (lowerOut s) ".pdf" = false) /\
  (forall i s, Dashboard.sowStep steps = Some (i, s) ->
               exists out, output s = Some out /\ out <> []).
Proof.
  destruct (orElse_find _ _ steps sowNamed_fallback) as (Hnone & Hnamed & Hfb).
  split; [exact Hnamed | split; [exact Hfb | split]].
  - unfold Dashboard.sowStep. rewrite Hnone, find_None.
    split; intros H s Hs; specialize (H s Hs).
    + destruct (endsWith (lowerOut s) ".docx") eqn:E1;
        destruct (endsWith (lowerOut s) ".pdf") eqn:E2; auto;
        exfalso; assert (F : Dashboard.sowFallback s = true)
          by (apply sowFallback_iff; auto); congruence.
    + destruct (Dashboard.sowFallback s) eqn:E; [|reflexivity].
      apply sowFallback_iff in E. destruct H as [H1 H2].
      destruct E; congruence.
  - intros i s H. apply sow_ext in H as [_ H].
    assert (N : nonEmpty (lowerOut s) = true).
    { destruct H as [H|H]; apply (endsWith_nonEmpty _ _ H); discriminate. }
    unfold lowerOut in N. destruct (output s) as [out|]; [|discriminate].
    exists out. split; [reflexivity|]. intros ->. discriminate.
Qed.

Lemma X3_sowStep_witness :
  Dashboard.sowStep fullPipeline
  = Some (4%nat, mkStep (Some (lit "SOW Generation"))
                   (Some (lit "alice/SOW_final.docx")) (Some (lit "success"))) /\
  Dashboard.sowStep parsingOnly = find Dashboard.sowFallback parsingOnly /\
  (exists out, Some (lit "alice/SOW_final.docx") = Some out /\ out <> []).
Proof.
  destruct (X3_sowStep_named_then_first_document fullPipeline)
    as (Hnamed & _ & _ & Hout).
  split; [|split].
  - apply Hnamed. reflexivity.
  - apply (proj1 (proj2 (X3_sowStep_named_then_first_document parsingOnly))).
    reflexivity.
  - apply (Hout 4%nat (mkStep (Some (lit "SOW Generation"))
                         (Some (lit "alice/SOW_final.docx")) (Some (lit "success")))).
    reflexivity.
Defined.

(** X4: the clarification step is the first JSON step that mentions
    "clarification" when there is one and the first JSON step otherwise; the
    role is resolved exactly when the pricing role is. *)
Theorem X4_clarStep_resolved_with_pricing (steps : list StepRecord) :
  (forall i s, find Clarifications.clarNamed steps = Some (i, s) ->
               Clarifications.clarStep steps = Some (i, s)) /\
  (find Clarifications.clarNamed steps = None ->
   Clarifications.clarStep steps = find Clarifications.clarFallback steps) /\
  (Clarifications.clarStep steps = None <-> Dashboard.pricingStep steps = None).
Proof.
  destruct (orElse_find _ _ steps clarNamed_fallback) as (Hnone & Hnamed & Hfb).
  destruct (orElse_find _ _ steps pricingNamed_fallback) as (Pnone & _ & _).
  split; [exact Hnamed | split; [exact Hfb|]].
  unfold Clarifications.clarStep, Dashboard.pricingStep.
  rewrite Hnone, Pnone.
  rewrite (find_ext Dashboard.pricingFallback Clarifications.clarFallback steps
             fallbacks_agree).
  tauto.
Qed.

Lemma X4_clarStep_witness :
  Clarifications.clarStep fullPipeline
  = Some (1%nat, mkStep (Some (lit "Clarification Questions"))
                   (Some (lit "alice/clarifications.json")) (Some (lit "success"))) /\
  Clarifications.clarStep parsingOnly
  = find Clarifications.clarFallback parsingOnly.
Proof.
  split.
  - apply (proj1 (X4_clarStep_resolved_with_pricing fullPipeline)). reflexivity.
  - apply (proj1 (proj2 (X4_clarStep_resolved_with_pricing parsingOnly))).
    reflexivity.
Defined.

(* ===================================================================== *)
(** * Further properties: the Dashboard *)
(* ===================================================================== *)

Module DashboardFacts.

Lemma lastSegment_no_slash (s : str) : ~ In "/"%char (lastSegment s).
Proof.
  induction s as [|c s IH]; simpl; [tauto|].
  destruct (existsb (Ascii.eqb "/"%char) s) eqn:E; [exact IH|].
  assert (Hno : ~ In "/"%char s).
  { intros H. apply existsb_slash in H. congruence. }
  destruct (Ascii.eqb_spec c "/"%char) as [->|Hc]; [exact Hno|].
  intros [H|H]; [congruence | contradiction].
Qed.

Lemma messageOr_nonEmpty (e : exn) (fallback : str) :
  fallback <> [] -> Dashboard.messageOr e fallback <> [].
Proof.
  intros Hf. unfold Dashboard.messageOr.
  destruct (nonEmpty (messageOf e)) eqn:E; [|exact Hf].
  intros H. rewrite H in E. discriminate.
Qed.

Lemma nonEmpty_true (s : str) : s <> [] -> nonEmpty s = true.
Proof. destruct s; [congruence | reflexivity]. Qed.

End DashboardFacts.

Import DashboardFacts.

(** X5: when the results hold a list of typed steps (none is null, and the
    name and the output of each are strings or falsy, so that no callback of
    the finders throws), the effect starts the fetch of the pricing artifact
    exactly when it marks the pricing as loading, the key fetched is the
    output of the pricing step, the SOW key is empty exactly when no SOW step
    is found, and the file names shown for the SOW and the architecture hold
    no slash; results that are null clear every role, and results whose steps
    are not a list leave the roles as they were. *)
Theorem X5_detectOutputs_roles (results : jsval) (prev : Dashboard.RoleState) :
  (truthy results = false ->
   Dashboard.detectOutputs results prev = (Dashboard.noRoles, None)) /\
  (truthy results = true -> stepsOf results = None ->
   Dashboard.detectOutputs results prev = (prev, None)) /\
  (forall steps,
      truthy results = true -> stepsOf results = Some steps ->
      typedResults results = true ->
      let st := fst (Dashboard.detectOutputs results prev) in
      let started := snd (Dashboard.detectOutputs results prev) in
      started
      = option_map (fun f => orEmpty (output (snd f))) (Dashboard.pricingStep steps) /\
      (Dashboard.pricingLoading st = true <-> started <> None) /\
      Dashboard.pricingError st = [] /\
      (Dashboard.sowKey st = [] <-> Dashboard.sowStep steps = None) /\
      ~ In "/"%char (Dashboard.sowFilename st) /\
      ~ In "/"%char (Dashboard.architectureFilename st)).
Proof.
  split; [|split].
  - intros H. unfold Dashboard.detectOutputs. now rewrite H.
  - intros H Hs. unfold Dashboard.detectOutputs. now rewrite H, Hs.
  - intros steps H Hs _ st started. subst st started.
    unfold Dashboard.detectOutputs. rewrite H, Hs.
    cbn [negb fst snd Dashboard.pricingLoading Dashboard.pricingError
         Dashboard.sowKey Dashboard.sowFilename Dashboard.architectureFilename].
    split; [reflexivity|]. split; [|split; [reflexivity|split; [|split]]].
    + destruct (Dashboard.pricingStep steps); simpl; split;
        congruence || discriminate.
    + destruct (Dashboard.sowStep steps) as [[i s]|] eqn:E; simpl; [|tauto].
      split; [|discriminate]. intros Hk. exfalso.
      apply sow_ext in E as [_ E].
      assert (N : nonEmpty (lowerOut s) = true).
      { destruct E as [E|E]; apply (endsWith_nonEmpty _ _ E); discriminate. }
      unfold lowerOut in N. rewrite Hk in N. discriminate.
    + destruct (Dashboard.sowStep steps); simpl;
        [apply lastSegment_no_slash | tauto].
    + destruct (Dashboard.architectureStep steps); simpl;
        [apply lastSegment_no_slash | tauto].
Qed.

Lemma X5_detectOutputs_witness :
  Dashboard.detectOutputs (JV VNull) Dashboard.noRoles = (Dashboard.noRoles, None) /\
  Dashboard.detectOutputs (JV (VObj [ (lit "steps", VStr "none") ]))
    Dashboard.noRoles = (Dashboard.noRoles, None) /\
  snd (Dashboard.detectOutputs (JV Sample.pipelineBody) Dashboard.noRoles)
  = Some (lit "alice/pricing.json").
Proof.
  destruct (X5_detectOutputs_roles (JV VNull) Dashboard.noRoles) as (A & _ & _).
  destruct (X5_detectOutputs_roles (JV (VObj [ (lit "steps", VStr "none") ]))
              Dashboard.noRoles) as (_ & B & _).
  destruct (X5_detectOutputs_roles (JV Sample.pipelineBody) Dashboard.noRoles)
    as (_ & _ & C).
  split; [|split].
  - apply A. reflexivity.
  - apply B; reflexivity.
  - destruct (C fullPipeline) as (E & _);
      [reflexivity | reflexivity | reflexivity |].
    rewrite E. reflexivity.
Defined.

Module ControlsFacts.

Import DashboardControls.

Lemma modalStep_onGrid (m : Modal) (e : ModalEvent) :
  onGrid m -> onGrid (modalStep m e).
Proof.
  unfold onGrid. intros [Hb [k Hk]].
  destruct e; cbn [modalStep openImageModal closeImageModal zoomIn zoomOut
                   resetZoom imageZoom].
  - split; [lia | now exists 4].
  - split; [lia | now exists 4].
  - split; [lia|].
    destruct (Z.min_spec (imageZoom m + 25) 300) as [[_ ->]|[_ ->]];
      [exists (k + 1); lia | now exists 12].
  - split; [lia|].
    destruct (Z.max_spec (imageZoom m - 25) 25) as [[_ ->]|[_ ->]];
      [now exists 1 | exists (k - 1); lia].
  - split; [lia | now exists 4].
Qed.

Lemma fold_modalStep_onGrid (events : list ModalEvent) (m : Modal) :
  onGrid m -> onGrid (fold_left modalStep events m).
Proof.
  revert m. induction events as [|e events IH]; intros m H; simpl; [exact H|].
  apply IH, modalStep_onGrid, H.
Qed.

Lemma modal_eq (m m' : Modal) :
  imageModalOpen m = imageModalOpen m' -> imageZoom m = imageZoom m' -> m = m'.
Proof. destruct m, m'; simpl; intros -> ->; reflexivity. Qed.

Lemma uploadStep_validSelection (s : Dashboard.UploadState * LocalStorage.Storage)
    (e : UploadEvent) :
  validSelection (fst s) -> validSelection (fst (uploadStep s e)).
Proof.
  intros H. destruct e as [[file|]|userEmail w];
    cbn [uploadStep fst handleFileSelect].
  - destruct (isValidType (AwsService.type file)) eqn:E; cbn [negb].
    + intros f [= <-]. exact E.
    + exact H.
  - exact H.
  - unfold Dashboard.handleUpload.
    destruct (Dashboard.selectedFile (fst s)) as [file|] eqn:Ef.
    + destruct (AwsService.returned _); cbn [Dashboard.state].
      * intros f; discriminate.
      * intros f [= <-]. now apply H.
    + intros f; discriminate.
Qed.

Lemma fold_uploadStep_validSelection (events : list UploadEvent)
    (s : Dashboard.UploadState * LocalStorage.Storage) :
  validSelection (fst s) -> validSelection (fst (fold_left uploadStep events s)).
Proof.
  revert s. induction events as [|e events IH]; intros s H; simpl; [exact H|].
  apply IH, uploadStep_validSelection, H.
Qed.

End ControlsFacts.

Import ControlsFacts.

(** X6: whatever sequence of open, close, zoom-in, zoom-out and reset the
    user performs, the zoom of the image modal stays between 25 and 300 and a
    multiple of 25; the zoom-out and zoom-in buttons are disabled exactly in
    the states where their handler would change nothing. *)
Theorem X6_zoom_stays_on_grid (events : list DashboardControls.ModalEvent) :
  let m := afterModalEvents events in
  25 <= DashboardControls.imageZoom m <= 300 /\
  (25 | DashboardControls.imageZoom m) /\
  (DashboardControls.zoomOutDisabled m = true <-> DashboardControls.zoomOut m = m) /\
  (DashboardControls.zoomInDisabled m = true <-> DashboardControls.zoomIn m = m).
Proof.
  intros m.
  assert (H : onGrid m).
  { apply fold_modalStep_onGrid. split; [simpl; lia | now exists 4]. }
  destruct H as [Hb Hd]. split; [exact Hb|]. split; [exact Hd|].
  unfold DashboardControls.zoomOutDisabled, DashboardControls.zoomInDisabled.
  rewrite !Z.leb_le. split; split.
  - intros H. apply modal_eq; [reflexivity|]. simpl. lia.
  - intros H. apply (f_equal DashboardControls.imageZoom) in H. simpl in H. lia.
  - intros H. apply modal_eq; [reflexivity|]. simpl. lia.
  - intros H. apply (f_equal DashboardControls.imageZoom) in H. simpl in H. lia.
Qed.

Lemma X6_zoom_witness :
  DashboardControls.zoomOut
    (afterModalEvents [DashboardControls.Open; DashboardControls.ZoomOut;
                       DashboardControls.ZoomOut; DashboardControls.ZoomOut;
                       DashboardControls.ZoomOut])
  = afterModalEvents [DashboardControls.Open; DashboardControls.ZoomOut;
                      DashboardControls.ZoomOut; DashboardControls.ZoomOut;
                      DashboardControls.ZoomOut].
Proof.
  refine (proj1 (proj1 (proj2 (proj2 (X6_zoom_stays_on_grid
            [DashboardControls.Open; DashboardControls.ZoomOut;
             DashboardControls.ZoomOut; DashboardControls.ZoomOut;
             DashboardControls.ZoomOut])))) _).
  reflexivity.
Defined.

(** X7: whatever files the user picks and whenever the upload is started,
    whatever the network and the Lambda do, the file the Dashboard holds as
    selected is a PDF or a DOCX: only such a file is ever handed to
    [processRFP]. *)
Theorem X7_selection_is_pdf_or_docx (presetResults : jsval)
    (store : LocalStorage.Storage) (events : list UploadEvent)
    (f : AwsService.File) :
  Dashboard.selectedFile (fst (afterUploads presetResults store events)) = Some f ->
  AwsService.type f = lit "application/pdf" \/
  AwsService.type f
  = lit "application/vnd.openxmlformats-officedocument.wordprocessingml.document".
Proof.
  intros H.
  assert (V : validSelection (fst (afterUploads presetResults store events))).
  { apply fold_uploadStep_validSelection. intros g; discriminate. }
  specialize (V f H). unfold DashboardControls.isValidType in V.
  apply existsb_exists in V as (t & Ht & E). apply str_eqb_eq in E. subst t.
  destruct Ht as [<-|[<-|[]]]; auto.
Qed.

Lemma X7_selection_witness :
  AwsService.type Sample.rfp = lit "application/pdf" \/
  AwsService.type Sample.rfp
  = lit "application/vnd.openxmlformats-officedocument.wordprocessingml.document".
Proof.
  refine (X7_selection_is_pdf_or_docx JUndef []
            [ FileChosen (Some Sample.rfp);
              FileChosen (Some (AwsService.mkFile "notes.txt" "text/plain"));
              UploadClicked "alice@hcltech.com" Sample.failing ]
            Sample.rfp _).
  vm_compute. reflexivity.
Defined.

(* ===================================================================== *)
(** * Further properties: the pipeline *)
(* ===================================================================== *)

Module SimulationFacts.

Import AwsService.

Lemma ticks_cleared (o : SimOptions) (n : nat) (s : Sim) :
  cleared s = true -> ticks o n s = (s, []).
Proof.
  intros H. induction n as [|n IH]; [reflexivity|].
  cbn [ticks]. unfold tick. rewrite H, IH. reflexivity.
Qed.

Lemma ticks_add (o : SimOptions) (a b : nat) (s : Sim) :
  ticks o (a + b) s
  = (fst (ticks o b (fst (ticks o a s))),
     snd (ticks o a s) ++ snd (ticks o b (fst (ticks o a s)))).
Proof.
  revert s. induction a as [|a IH]; intros s.
  - cbn [Nat.add ticks fst snd app]. now destruct (ticks o b s).
  - cbn [Nat.add ticks]. destruct (tick o s) as [s1 e1]. rewrite IH.
    destruct (ticks o a s1) as [s2 e2]. cbn [fst snd].
    now rewrite app_assoc.
Qed.

Lemma last_app_nonEmpty (a b : list Z) (d : Z) :
  b <> [] -> last (a ++ b) d = last b d.
Proof.
  intros Hb. induction a as [|x a IH]; [reflexivity|].
  cbn [app]. destruct (a ++ b) eqn:E.
  - apply app_eq_nil in E as [_ E]. contradiction.
  - rewrite <- E, <- IH. cbn [last]. now rewrite E.
Qed.

(** A running simulation reaches its ceiling within as many periods as the
    distance left. *)
Lemma ticks_settle (o : SimOptions) (k : nat) (s : Sim) :
  0 < minStep o ->
  cleared s = false -> stopped s = false ->
  (1 <= k)%nat -> ceiling o - current s <= Z.of_nat k ->
  cleared (fst (ticks o k s)) = true /\
  current (fst (ticks o k s)) = ceiling o /\
  snd (ticks o k s) <> [] /\
  last (snd (ticks o k s)) 0 = ceiling o.
Proof.
  intros Hmin. revert s. induction k as [|k IH]; intros s Hc Hs Hk Hd; [lia|].
  cbn [ticks]. destruct (tick o s) as [s1 e1] eqn:Et.
  unfold tick in Et. rewrite Hc, Hs in Et. cbv zeta in Et.
  injection Et as <- <-.
  set (delta := Z.max (minStep o) (Z.min (maxStep o) (Z.max _ _))).
  assert (Hdelta : 1 <= delta) by (subst delta; lia).
  set (current' := Z.min (current s + delta) (ceiling o)).
  destruct (ceiling o <=? current') eqn:E.
  - rewrite ticks_cleared by reflexivity. cbn [fst snd current cleared app last].
    apply Z.leb_le in E. repeat split; [subst current'; lia | discriminate |
                                        subst current'; lia].
  - apply Z.leb_gt in E.
    set (s1 := {| current := current'; stopped := false; cleared := false |}).
    destruct (IH s1) as (A & B & C & D); [reflexivity | reflexivity | | |].
    + subst s1 current'. cbn [current] in *. lia.
    + subst s1 current'. cbn [current]. lia.
    + destruct (ticks o k s1) as [s2 e2]. cbn [fst snd] in *.
      repeat split; auto.
      * discriminate.
      * change (last ((current' :: []) ++ e2) 0 = ceiling o).
        now rewrite last_app_nonEmpty.
Qed.

End SimulationFacts.

Import SimulationFacts.

(** X8: a simulated progress whose minimal step is positive stops by
    itself: after [settleBound] periods (the distance from the start to the
    ceiling, at least one) the interval has been cleared, the value is the
    ceiling, the last value handed to [onTick] is the ceiling, and further
    periods hand nothing more to [onTick]. *)
Theorem X8_simulation_settles (o : AwsService.SimOptions) (n : nat) :
  0 < AwsService.minStep o ->
  (settleBound o <= n)%nat ->
  AwsService.cleared (fst (AwsService.simulate o n)) = true /\
  AwsService.current (fst (AwsService.simulate o n)) = AwsService.ceiling o /\
  last (AwsService.emitted o n) 0 = AwsService.ceiling o /\
  AwsService.emitted o n = AwsService.emitted o (settleBound o).
Proof.
  intros Hmin Hn.
  set (s0 := {| AwsService.current := AwsService.start o;
                AwsService.stopped := false; AwsService.cleared := false |}).
  destruct (ticks_settle o (settleBound o) s0 Hmin eq_refl eq_refl)
    as (A & B & C & D).
  { unfold settleBound. lia. }
  { unfold settleBound. cbn [s0 AwsService.current]. lia. }
  assert (E : AwsService.ticks o n s0
              = AwsService.ticks o (settleBound o) s0).
  { replace n with (settleBound o + (n - settleBound o))%nat by lia.
    rewrite ticks_add, ticks_cleared by exact A. cbn [fst snd].
    rewrite List.app_nil_r. now destruct (AwsService.ticks o (settleBound o) s0). }
  rewrite !emitted_eq. fold s0. unfold AwsService.simulate,
    AwsService.startSimulatedProgress. fold s0. rewrite E.
  destruct (AwsService.ticks o (settleBound o) s0) as [s1 e1].
  cbn [fst snd] in *. repeat split; auto.
  change (last ((Z.min (AwsService.start o) (AwsService.ceiling o) :: []) ++ e1) 0
          = AwsService.ceiling o).
  now rewrite last_app_nonEmpty.
Qed.

Lemma X8_simulation_witness :
  last (AwsService.emitted AwsService.pipelineOptions 100) 0 = 95.
Proof.
  refine (proj1 (proj2 (proj2 (X8_simulation_settles
            AwsService.pipelineOptions 100 _ _)))).
  - reflexivity.
  - vm_compute. lia.
Defined.

Module RunFacts.

Import AwsService.

Lemma map_progress_upload (percentages : list Z) :
  map progress (map (mkProgress "upload" "Uploading to S3...") percentages)
  = percentages.
Proof.
  induction percentages as [|p l IH]; [reflexivity|].
  cbn [map progress]. now f_equal.
Qed.

Lemma Forall_upload (percentages : list Z) :
  Forall (fun e => step e = lit "upload")
         (map (mkProgress "upload" "Uploading to S3...") percentages).
Proof. induction percentages; constructor; auto. Qed.

(** The values of the simulation of [processRFP] lie between 10 and 95 and
    never decrease. *)
Lemma pipeline_values (n : nat) (s0 s1 : Sim) (first later : list Z) :
  startSimulatedProgress pipelineOptions = (s0, first) ->
  ticks pipelineOptions n s0 = (s1, later) ->
  StronglySorted Z.le (first ++ later) /\
  Forall (fun v => 10 <= v <= 95) (first ++ later).
Proof.
  intros Hs Ht. injection Hs as <- <-.
  pose proof (ticks_sorted pipelineOptions n
                {| current := 10; stopped := false; cleared := false |}
                ltac:(simpl; lia)) as [S B].
  change (start pipelineOptions) with 10 in Ht. rewrite Ht in S, B.
  cbn [snd] in S, B.
  assert (B' : Forall (fun v => 10 <= v <= 95) later).
  { eapply Forall_impl; [|exact B]. simpl. intros; lia. }
  split.
  - constructor; [exact S|]. eapply Forall_impl; [|exact B']. simpl. intros; lia.
  - constructor; [simpl; lia | exact B'].
Qed.

Lemma sorted_snoc (l : list Z) (x : Z) :
  StronglySorted Z.le l -> Forall (fun v => v <= x) l ->
  StronglySorted Z.le (l ++ [x]).
Proof.
  induction 1 as [|a l S IH F]; intros B; cbn [app].
  - constructor; constructor.
  - inversion B as [|? ? Ha Hl]; subst. constructor; [now apply IH|].
    apply Forall_app. split; [exact F | constructor; [exact Ha | constructor]].
Qed.

End RunFacts.

Import RunFacts.

(** X9: when the upload fails, [processRFP] throws an error whose message
    is "Failed to upload: " followed by the message of the failure; only
    upload events were reported (0, then the percentages of the transfer),
    the simulation was never started, and the Lambda plays no part in the
    run; [handleUpload] then shows that very message, keeps the file
    selected, leaves the results null, and neither stores nor navigates. *)
Theorem X9_upload_failure (file : AwsService.File) (userEmail : str)
    (w : AwsService.World) (err : exn) :
  AwsService.uploadFailure w = Some err ->
  let run := AwsService.processRFP file userEmail w in
  AwsService.returned run
  = Throw (Error (lit "Failed to upload: " ++ messageOf err)) /\
  AwsService.timer run = None /\
  map AwsService.progress (AwsService.reported run)
  = 0 :: AwsService.uploadProgress w /\
  Forall (fun e => AwsService.step e = lit "upload") (AwsService.reported run) /\
  (forall answer,
      AwsService.processRFP file userEmail (withLambda w answer) = run) /\
  (forall (st : Dashboard.UploadState) (store : LocalStorage.Storage),
      Dashboard.selectedFile st = Some file ->
      let h := Dashboard.handleUpload st userEmail store w in
      Dashboard.error (Dashboard.state h)
      = lit "Failed to upload: " ++ messageOf err /\
      Dashboard.selectedFile (Dashboard.state h) = Some file /\
      Dashboard.results (Dashboard.state h) = JV VNull /\
      Dashboard.storage h = store /\
      Dashboard.navigated h = None /\
      Dashboard.simulation h = None).
Proof.
  intros Hup run.
  assert (E : run
              = {| AwsService.reported :=
                     AwsService.mkProgress "upload" "Uploading file..." 0
                     :: map (AwsService.mkProgress "upload" "Uploading to S3...")
                          (AwsService.uploadProgress w);
                   AwsService.timer := None;
                   AwsService.returned :=
                     Throw (Error (lit "Failed to upload: " ++ messageOf err)) |}).
  { subst run. unfold AwsService.processRFP, AwsService.uploadFileToS3.
    rewrite Hup. reflexivity. }
  split; [now rewrite E|]. split; [now rewrite E|].
  split; [|split; [|split]].
  - rewrite E. cbn [AwsService.reported map AwsService.progress].
    now rewrite map_progress_upload.
  - rewrite E. cbn [AwsService.reported]. constructor; [reflexivity|].
    apply Forall_upload.
  - intros answer. rewrite E.
    unfold AwsService.processRFP, AwsService.uploadFileToS3, withLambda.
    cbn [AwsService.uploadFailure AwsService.uploadProgress AwsService.now].
    rewrite Hup. reflexivity.
  - intros st store Hfile h. subst h. unfold Dashboard.handleUpload.
    rewrite Hfile. fold run. rewrite E.
    cbn [AwsService.returned AwsService.timer AwsService.reported
         Dashboard.state Dashboard.error Dashboard.selectedFile
         Dashboard.results Dashboard.storage Dashboard.navigated
         Dashboard.simulation].
    repeat split.
Qed.

Lemma X9_upload_failure_witness :
  Dashboard.error
    (Dashboard.state
       (Dashboard.handleUpload Sample.selected "alice@hcltech.com" [] offline))
  = lit "Failed to upload: Network Failure".
Proof.
  refine (proj1 (proj2 (proj2 (proj2 (proj2 (proj2
            (X9_upload_failure Sample.rfp "alice@hcltech.com" offline
               (Error "Network Failure") _)))))
            Sample.selected [] _)).
  - reflexivity.
  - reflexivity.
Defined.

(** X10: in every run of [processRFP], whatever the upload and the Lambda
    do, the progress values reported for the step "process" never decrease
    and lie between 10 and 100, and 100 is among them exactly when the run
    returns a result. *)
Theorem X10_process_progress (file : AwsService.File) (userEmail : str)
    (w : AwsService.World) :
  let run := AwsService.processRFP file userEmail w in
  StronglySorted Z.le (processValues (AwsService.reported run)) /\
  Forall (fun v => 10 <= v <= 100) (processValues (AwsService.reported run)) /\
  (In 100 (processValues (AwsService.reported run))
   <-> exists p, AwsService.returned run = Ok p).
Proof.
  intros run. subst run. unfold AwsService.processRFP, AwsService.uploadFileToS3.
  destruct (AwsService.uploadFailure w) as [err|].
  - cbn [AwsService.reported AwsService.returned].
    rewrite processValues_upload. split; [constructor|]. split; [constructor|].
    split; [intros [] | intros [p H]; discriminate].
  - destruct (AwsService.startSimulatedProgress AwsService.pipelineOptions)
      as [s0 first] eqn:Es.
    destruct (AwsService.ticks AwsService.pipelineOptions (AwsService.periods w) s0)
      as [s1 later] eqn:Et.
    destruct (pipeline_values _ _ _ _ _ Es Et) as [S B].
    assert (S10 : StronglySorted Z.le (10 :: first ++ later)).
    { constructor; [exact S|]. eapply Forall_impl; [|exact B]. simpl. intros; lia. }
    assert (B10 : Forall (fun v => 10 <= v <= 95) (10 :: first ++ later)).
    { constructor; [lia | exact B]. }
    destruct (AwsService.invokeLambdaFunction _ w) as [result|e];
      cbn [AwsService.reported AwsService.returned];
      rewrite !processValues_app, processValues_upload, processValues_simulated;
      cbn [processValues filter map AwsService.step AwsService.progress app];
      change (JsString.eqb "upload" "process") with false;
      change (JsString.eqb "process" "process") with true;
      cbn [processValues filter map AwsService.step AwsService.progress app].
    + change (10 :: (first ++ later) ++ [100])
        with ((10 :: first ++ later) ++ [100]).
      split; [|split].
      * apply sorted_snoc; [exact S10|].
        eapply Forall_impl; [|exact B10]. simpl. intros; lia.
      * apply Forall_app. split.
        -- eapply Forall_impl; [|exact B10]. simpl. intros; lia.
        -- constructor; [lia | constructor].
      * split; [intros _; eexists; reflexivity|].
        intros _. apply in_or_app. right. now left.
    + split; [exact S10|]. split.
      * eapply Forall_impl; [|exact B10]. simpl. intros; lia.
      * split; [|intros [p H]; discriminate].
        intros H. rewrite Forall_forall in B10. apply B10 in H. lia.
Qed.

Lemma X10_process_progress_witness :
  In 100 (processValues
            (AwsService.reported
               (AwsService.processRFP Sample.rfp "alice@hcltech.com"
                  Sample.succeeding))).
Proof.
  refine (proj2 (proj2 (proj2 (X10_process_progress Sample.rfp
            "alice@hcltech.com" Sample.succeeding))) _).
  eexists. vm_compute. reflexivity.
Defined.

Module ResponseFacts.

Lemma lookup_setField_same (k : str) (v : value) (fields : list (str * value)) :
  lookup k (Json.setField k v fields) = Some v.
Proof.
  induction fields as [|[k' v'] fields IH]; simpl.
  - now rewrite str_eqb_refl.
  - destruct (JsString.eqb k k') eqn:E; simpl; now rewrite E.
Qed.

Lemma lookup_setField_other (k k0 : str) (v : value) (fields : list (str * value)) :
  JsString.eqb k k0 = false ->
  lookup k (Json.setField k0 v fields) = lookup k fields.
Proof.
  intros Hk. induction fields as [|[k' v'] fields IH]; simpl.
  - now rewrite Hk.
  - destruct (JsString.eqb k0 k') eqn:E; simpl.
    + apply str_eqb_eq in E. subst k'. now rewrite Hk.
    + now rewrite IH.
Qed.

Lemma normalizeBody_parsed (fields : list (str * value)) (text : str) (b : value) :
  lookup "body" fields = Some (VStr text) -> Json.parse text = Ok b ->
  Dashboard.normalizeBody (VObj fields) = VObj (Json.setField "body" b fields).
Proof.
  intros Hl Hp. unfold Dashboard.normalizeBody, getOpt.
  rewrite get_object, Hl. cbn [ofOption asString]. now rewrite Hp.
Qed.

End ResponseFacts.

Import ResponseFacts.



(** X12: the normalisation of a Lambda proxy response in [handleUpload]
    changes no field other than [body]; a body that is the JSON text of a
    well-formed value is replaced by that value; a body that is no text, or
    a text that is no JSON by its shape (a plain message, an empty or blank
    text), leaves the response as it is; and after a successful run whose
    response carries the body as JSON text, the results the Dashboard holds
    and navigates with carry the body as a value. *)
Theorem X12_normalizeBody_unwraps (processing : value) :
  (forall k, JsString.eqb k "body" = false ->
     getOpt (JV (Dashboard.normalizeBody processing)) k
     = getOpt (JV processing) k) /\
  (forall fields b,
     processing = VObj fields ->
     lookup "body" fields = Some (VStr (Json.stringify b)) ->
     Json.wellFormed b ->
     Dashboard.normalizeBody processing = VObj (Json.setField "body" b fields) /\
     getOpt (JV (Dashboard.normalizeBody processing)) "body" = JV b) /\
  (asString (getOpt (JV processing) "body") = None ->
   Dashboard.normalizeBody processing = processing) /\
  (forall text,
     asString (getOpt (JV processing) "body") = Some text ->
     notJson text = true ->
     Dashboard.normalizeBody processing = processing) /\
  (forall st userEmail store w file p fields b,
     Dashboard.selectedFile st = Some file ->
     AwsService.returned (AwsService.processRFP file userEmail w) = Ok p ->
     AwsService.processingResult p = processing ->
     processing = VObj fields ->
     lookup "body" fields = Some (VStr (Json.stringify b)) ->
     Json.wellFormed b ->
     let h := Dashboard.handleUpload st userEmail store w in
     Dashboard.results (Dashboard.state h)
     = JV (VObj (Json.setField "body" b fields)) /\
     Dashboard.navigated h
     = Some (lit "/clarifications", JV (VObj (Json.setField "body" b fields)))).
Proof.
  assert (P : forall fields b,
             processing = VObj fields ->
             lookup "body" fields = Some (VStr (Json.stringify b)) ->
             Json.wellFormed b ->
             Dashboard.normalizeBody processing
             = VObj (Json.setField "body" b fields)).
  { intros fields b -> Hl Hwf.
    apply (normalizeBody_parsed _ _ _ Hl), parse_stringify, Hwf. }
  split; [|split; [|split; [|split]]].
  - intros k Hk. unfold Dashboard.normalizeBody.
    destruct processing as [|b|n|s|items|fields]; try reflexivity.
    destruct (asString _) as [text|]; [|reflexivity].
    destruct (Json.parse text) as [parsed|]; [|reflexivity].
    unfold getOpt. rewrite !get_object.
    now rewrite lookup_setField_other.
  - intros fields b Hp Hl Hwf. rewrite (P fields b Hp Hl Hwf).
    split; [reflexivity|]. unfold getOpt.
    now rewrite get_object, lookup_setField_same.
  - intros H. unfold Dashboard.normalizeBody.
    destruct processing; try reflexivity. now rewrite H.
  - intros text H Hn. unfold Dashboard.normalizeBody.
    destruct processing; try reflexivity. rewrite H.
    now rewrite (parse_notJson text Hn).
  - intros st userEmail store w file p fields b Hfile Hrun Hp Hf Hl Hwf h.
    subst h. unfold Dashboard.handleUpload. rewrite Hfile, Hrun.
    cbn [Dashboard.state Dashboard.results Dashboard.navigated].
    rewrite Hp, (P fields b Hf Hl Hwf). split; reflexivity.
Qed.

Lemma X12_normalizeBody_witness :
  Dashboard.results
    (Dashboard.state
       (Dashboard.handleUpload Sample.selected "alice@hcltech.com" []
          Sample.succeeding))
  = JV (VObj [ (lit "statusCode", VNum 200); (lit "body", Sample.pipelineBody) ]) /\
  getOpt (JV (Dashboard.normalizeBody errorResponse)) "statusCode"
  = getOpt (JV errorResponse) "statusCode" /\
  Dashboard.normalizeBody Sample.pipelineBody = Sample.pipelineBody /\
  Dashboard.normalizeBody errorResponse = errorResponse.
Proof.
  split; [|split; [|split]].
  - refine (proj1 (proj2 (proj2 (proj2 (proj2
              (X12_normalizeBody_unwraps Sample.proxyResponse))))
              Sample.selected "alice@hcltech.com" [] Sample.succeeding
              Sample.rfp
              (AwsService.mkProcessed
                 (AwsService.mkUploadResult true
                    (lit "alice/1700000000000_rfp.pdf")
                    AwsService.S3_INPUT_BUCKET)
                 Sample.proxyResponse)
              [ (lit "statusCode", VNum 200);
                (lit "body", VStr (Json.stringify Sample.pipelineBody)) ]
              Sample.pipelineBody _ _ _ _ _ _)).
    + reflexivity.
    + vm_compute. reflexivity.
    + reflexivity.
    + reflexivity.
    + reflexivity.
    + apply parse_wellFormed with (text := Json.stringify Sample.pipelineBody).
      vm_compute. reflexivity.
  - apply (proj1 (X12_normalizeBody_unwraps errorResponse)). reflexivity.
  - apply (proj1 (proj2 (proj2 (X12_normalizeBody_unwraps Sample.pipelineBody)))).
    reflexivity.
  - apply (proj1 (proj2 (proj2 (proj2 (X12_normalizeBody_unwraps errorResponse))))
             (lit "Agent failed")).
    + reflexivity.
    + reflexivity.
Defined.

(* ===================================================================== *)
(** * Further properties: the discovery of the files of a user *)
(* ===================================================================== *)

Module DiscoveryFacts.

Import AwsDiscovery.

Lemma insertNewest_perm (x : S3Object) (l : list S3Object) :
  Permutation (insertNewest x l) (x :: l).
Proof.
  induction l as [|y l IH]; cbn [insertNewest]; [reflexivity|].
  destruct (LastModified y <=? LastModified x); [reflexivity|].
  rewrite IH. apply perm_swap.
Qed.

Lemma sortNewestFirst_perm (l : list S3Object) :
  Permutation (sortNewestFirst l) l.
Proof.
  induction l as [|x l IH]; [reflexivity|].
  change (sortNewestFirst (x :: l)) with (insertNewest x (sortNewestFirst l)).
  rewrite insertNewest_perm. now constructor.
Qed.

Lemma insertNewest_sorted (x : S3Object) (l : list S3Object) :
  StronglySorted newerFirst l -> StronglySorted newerFirst (insertNewest x l).
Proof.
  induction 1 as [|y l S IH F]; cbn [insertNewest].
  - constructor; constructor.
  - destruct (Z.leb_spec (LastModified y) (LastModified x)) as [L|L].
    + constructor; [constructor; assumption|].
      constructor; [exact L|].
      eapply Forall_impl; [|exact F]. unfold newerFirst. intros; lia.
    + constructor; [exact IH|].
      apply (Permutation_Forall (Permutation_sym (insertNewest_perm x l))).
      constructor; [unfold newerFirst; lia | exact F].
Qed.

Lemma sortNewestFirst_sorted (l : list S3Object) :
  StronglySorted newerFirst (sortNewestFirst l).
Proof.
  induction l as [|x l IH]; [constructor|].
  change (sortNewestFirst (x :: l)) with (insertNewest x (sortNewestFirst l)).
  now apply insertNewest_sorted.
Qed.

(** The head of the sorted listing: the newest entry, and among equally new
    ones the first of the listing. *)
Lemma sortNewestFirst_head (l : list S3Object) :
  match hd_error (sortNewestFirst l) with
  | None => l = []
  | Some f =>
      exists i, nth_error l i = Some f /\
        forall j g, nth_error l j = Some g ->
          LastModified g <= LastModified f /\
          ((j < i)%nat -> LastModified g < LastModified f)
  end.
Proof.
  induction l as [|x l IH]; [reflexivity|].
  change (sortNewestFirst (x :: l)) with (insertNewest x (sortNewestFirst l)).
  destruct (sortNewestFirst l) as [|y s]; cbn [hd_error insertNewest] in *.
  - subst l. exists 0%nat. split; [reflexivity|].
    intros [|[|j]] g; cbn; intros [= <-]. split; lia.
  - destruct IH as (i & Hi & Hmax).
    destruct (Z.leb_spec (LastModified y) (LastModified x)) as [L|L];
      cbn [hd_error].
    + exists 0%nat. split; [reflexivity|].
      intros [|j] g; cbn [nth_error].
      * intros [= <-]. split; lia.
      * intros Hg. destruct (Hmax j g Hg) as [Hle _]. split; lia.
    + exists (S i). split; [exact Hi|].
      intros [|j] g; cbn [nth_error].
      * intros [= <-]. split; lia.
      * intros Hg. destruct (Hmax j g Hg) as [Hle Hlt]. split; [exact Hle|].
        intros Hj. apply Hlt. lia.
Qed.

End DiscoveryFacts.

Import DiscoveryFacts.

(** X13: [listUserFiles] returns the entries of the listing that pass the
    filter of the file type, each as often as it is listed, sorted so that
    no entry comes before a newer one; with no file type, or an empty one,
    every entry is kept; a listing without [Contents] gives the empty list,
    and a failure of the listing is thrown as it is. *)
Theorem X13_listUserFiles_newest_first
    (contents : option (list AwsDiscovery.S3Object)) (fileType : option str) :
  exists files,
    AwsDiscovery.listUserFiles (Ok contents) fileType = Ok files /\
    StronglySorted newerFirst files /\
    (forall t, fileType = Some t -> nonEmpty t = true ->
       Permutation files
         (filter (AwsDiscovery.matchesType t)
            (match contents with Some l => l | None => [] end))) /\
    (fileType = None \/ fileType = Some [] ->
     Permutation files (match contents with Some l => l | None => [] end)) /\
    (contents = None -> files = []) /\
    (forall e, AwsDiscovery.listUserFiles (Throw e) fileType = Throw e).
Proof.
  unfold AwsDiscovery.listUserFiles. cbn [bind].
  eexists. split; [reflexivity|].
  split; [apply sortNewestFirst_sorted|].
  split; [|split; [|split]].
  - intros t -> Ht. rewrite Ht. apply sortNewestFirst_perm.
  - intros [->| ->]; apply sortNewestFirst_perm.
  - intros ->. destruct fileType as [t|]; [|reflexivity].
    destruct (nonEmpty t); reflexivity.
  - reflexivity.
Qed.

Lemma X13_listUserFiles_witness :
  exists files,
    AwsDiscovery.listUserFiles (Ok (Some sampleListing)) (Some (lit "pricing"))
    = Ok files /\
    Permutation files
      (filter (AwsDiscovery.matchesType "pricing") sampleListing).
Proof.
  destruct (X13_listUserFiles_newest_first (Some sampleListing)
              (Some (lit "pricing"))) as (files & E & _ & P & _).
  exists files. split; [exact E|]. apply (P (lit "pricing")); reflexivity.
Defined.

(** X14: [findLatestUserFile] returns null exactly when no entry of the
    listing passes the filter of the file type; otherwise it returns an
    entry that passes the filter and is at least as new as every other one
    that does, and strictly newer than those listed before it. *)
Theorem X14_findLatestUserFile_newest
    (contents : list AwsDiscovery.S3Object) (fileType : str) :
  nonEmpty fileType = true ->
  let matching := filter (AwsDiscovery.matchesType fileType) contents in
  exists latest,
    AwsDiscovery.findLatestUserFile (Ok (Some contents)) fileType = Ok latest /\
    (latest = None <->
     forall f, In f contents -> AwsDiscovery.matchesType fileType f = false) /\
    (forall f, latest = Some f ->
       In f contents /\ AwsDiscovery.matchesType fileType f = true /\
       (forall g, In g contents -> AwsDiscovery.matchesType fileType g = true ->
                  AwsDiscovery.LastModified g <= AwsDiscovery.LastModified f) /\
       exists i, nth_error matching i = Some f /\
         forall j g, (j < i)%nat -> nth_error matching j = Some g ->
                     AwsDiscovery.LastModified g < AwsDiscovery.LastModified f).
Proof.
  intros Ht matching.
  unfold AwsDiscovery.findLatestUserFile, AwsDiscovery.listUserFiles.
  cbn [bind]. rewrite Ht. fold matching.
  eexists. split; [reflexivity|].
  pose proof (sortNewestFirst_head matching) as H.
  destruct (hd_error (AwsDiscovery.sortNewestFirst matching)) as [f|].
  - destruct H as (i & Hi & Hmax). split.
    + split; [discriminate|]. intros Hno. exfalso.
      apply nth_error_In in Hi. apply filter_In in Hi as [Hin Hm].
      rewrite (Hno f Hin) in Hm. discriminate.
    + intros g [= <-].
      pose proof (nth_error_In _ _ Hi) as Hf. apply filter_In in Hf as [Hin Hm].
      split; [exact Hin|]. split; [exact Hm|]. split.
      * intros g Hg Hgm.
        assert (Hg' : In g matching) by (apply filter_In; auto).
        apply In_nth_error in Hg' as [j Hj]. now apply (Hmax j g).
      * exists i. split; [exact Hi|]. intros j g Hj Hg.
        now apply (Hmax j g).
  - split.
    + split; [|reflexivity]. intros _ f Hf.
      destruct (AwsDiscovery.matchesType fileType f) eqn:E; [|reflexivity].
      assert (Hin : In f matching) by (apply filter_In; auto).
      rewrite H in Hin. contradiction.
    + intros f; discriminate.
Qed.

Lemma X14_findLatestUserFile_witness :
  AwsDiscovery.findLatestUserFile (Ok (Some sampleListing)) "pricing"
  = Ok (Some (AwsDiscovery.mkS3Object "alice/pricing_outputs/Pricing_v2.JSON" 3000)).
Proof.
  destruct (X14_findLatestUserFile_newest sampleListing "pricing" eq_refl)
    as (latest & E & _).
  rewrite E. vm_compute in E. injection E as <-. reflexivity.
Defined.

(* ===================================================================== *)
(** * Further properties: the login *)
(* ===================================================================== *)

Module LoginFacts.

Import Login.

Lemma spanLocal_app (s l rest : str) :
  spanLocal s = (l, rest) -> s = l ++ rest /\ Forall (fun c => localChar c = true) l.
Proof.
  revert l rest. induction s as [|c s IH]; intros l rest; cbn [spanLocal].
  - intros [= <- <-]. split; [reflexivity | constructor].
  - destruct (localChar c) eqn:E.
    + destruct (spanLocal s) as [l' rest'].
      intros [= <- <-]. destruct (IH l' rest' eq_refl) as [-> F].
      split; [reflexivity | now constructor].
    + intros [= <- <-]. split; [reflexivity | constructor].
Qed.

Lemma spanLocal_domain (l : str) :
  Forall (fun c => localChar c = true) l -> spanLocal (l ++ domain) = (l, domain).
Proof.
  induction 1 as [|c l Hc F IH]; [reflexivity|].
  cbn [app spanLocal]. now rewrite Hc, IH.
Qed.

Lemma beforeAt_local (l r : str) :
  Forall (fun c => localChar c = true) l ->
  AwsService.beforeAt (l ++ "@"%char :: r) = l.
Proof.
  induction 1 as [|c l Hc F IH]; [reflexivity|].
  cbn [app AwsService.beforeAt].
  unfold localChar in Hc. apply andb_true_iff in Hc as [_ Hc].
  apply negb_true_iff in Hc. now rewrite Hc, IH.
Qed.

End LoginFacts.

Import LoginFacts.

(** X15: [handleSubmit] calls [onLogin], with the address as entered,
    exactly when the address is a non-empty local part without white space
    or ["@"] followed by ["@hcltech.com"]; the user name the upload and the
    discovery derive from an accepted address is that local part; an address
    that does not end with the domain gets the first message, and any other
    rejected address the second. *)
Theorem X15_login_accepts_domain_addresses (email : str) :
  (forall e, Login.handleSubmit email = Login.LoggedIn e <->
     e = email /\
     exists l, email = l ++ Login.domain /\ l <> [] /\
               Forall (fun c => Login.isSpace c = false /\ c <> "@"%char) l) /\
  (forall e, Login.handleSubmit email = Login.LoggedIn e ->
     exists l, email = l ++ Login.domain /\ AwsService.beforeAt email = l /\
       forall folder, AwsDiscovery.userPrefix email folder
                      = l ++ lit "/" ++ folder ++ lit "/") /\
  (endsWith email Login.domain = false ->
   Login.handleSubmit email
   = Login.Rejected "Only @hcltech.com email addresses are allowed") /\
  (forall msg, Login.handleSubmit email = Login.Rejected msg ->
     endsWith email Login.domain = true ->
     msg = lit "Please enter a valid email address").
Proof.
  assert (A : forall e, Login.handleSubmit email = Login.LoggedIn e ->
            e = email /\
            exists l, email = l ++ Login.domain /\ l <> [] /\
                      Forall (fun c => Login.localChar c = true) l).
  { intros e. unfold Login.handleSubmit, Login.emailRegex.
    destruct (endsWith email Login.domain); cbn [negb]; [|discriminate].
    destruct (Login.spanLocal email) as [l rest] eqn:E.
    destruct (nonEmpty l && JsString.eqb rest Login.domain) eqn:B;
      cbn [negb]; [|discriminate].
    intros [= <-]. split; [reflexivity|].
    apply andb_true_iff in B as [Hl Hr]. apply str_eqb_eq in Hr. subst rest.
    apply spanLocal_app in E as [-> F]. exists l. split; [reflexivity|].
    split; [|exact F]. intros ->. discriminate. }
  assert (C : forall c, Login.localChar c = true <->
                        Login.isSpace c = false /\ c <> "@"%char).
  { intros c. unfold Login.localChar.
    rewrite andb_true_iff, !negb_true_iff.
    destruct (Ascii.eqb_spec c "@"%char); intuition congruence. }
  split; [|split; [|split]].
  - intros e. split.
    + intros H. destruct (A e H) as (-> & l & -> & Hl & F).
      split; [reflexivity|]. exists l. split; [reflexivity|]. split; [exact Hl|].
      eapply Forall_impl; [|exact F]. intros c. apply C.
    + intros (-> & l & -> & Hl & F).
      assert (F' : Forall (fun c => Login.localChar c = true) l).
      { eapply Forall_impl; [|exact F]. intros c. apply C. }
      unfold Login.handleSubmit, Login.emailRegex.
      assert (Hend : endsWith (l ++ Login.domain) Login.domain = true).
      { apply endsWith_spec. now exists l. }
      rewrite Hend, (spanLocal_domain l F'), str_eqb_refl. cbn [negb].
      destruct l; [congruence | reflexivity].
  - intros e H. destruct (A e H) as (_ & l & -> & _ & F).
    exists l. split; [reflexivity|].
    assert (B : AwsService.beforeAt (l ++ Login.domain) = l).
    { apply (beforeAt_local l "hcltech.com" F). }
    split; [exact B|]. intros folder. unfold AwsDiscovery.userPrefix.
    now rewrite B.
  - intros H. unfold Login.handleSubmit. now rewrite H.
  - intros msg H Hend. unfold Login.handleSubmit in H. rewrite Hend in H.
    cbn [negb] in H. destruct (Login.emailRegex email); cbn [negb] in H.
    + discriminate.
    + now injection H as <-.
Qed.

Lemma X15_login_witness :
  Login.handleSubmit "alice@hcltech.com" = Login.LoggedIn (lit "alice@hcltech.com") /\
  AwsService.beforeAt "alice@hcltech.com" = lit "alice" /\
  Login.handleSubmit "alice@example.com"
  = Login.Rejected "Only @hcltech.com email addresses are allowed" /\
  (exists msg, Login.handleSubmit "a b@hcltech.com" = Login.Rejected msg /\
               msg = lit "Please enter a valid email address").
Proof.
  destruct (X15_login_accepts_domain_addresses "alice@hcltech.com")
    as (A & B & _ & _).
  destruct (X15_login_accepts_domain_addresses "alice@example.com")
    as (_ & _ & C & _).
  destruct (X15_login_accepts_domain_addresses "a b@hcltech.com")
    as (_ & _ & _ & D).
  split; [|split; [|split]].
  - apply A. split; [reflexivity|]. exists (lit "alice").
    split; [reflexivity|]. split; [discriminate|].
    repeat constructor; discriminate.
  - destruct (B (lit "alice@hcltech.com") eq_refl) as (l & El & Eb & _).
    rewrite Eb. apply app_inv_tail with (l := Login.domain). exact (eq_sym El).
  - apply C. reflexivity.
  - eexists. split; [reflexivity|]. apply D; reflexivity.
Defined.

(* ===================================================================== *)
(** * Further properties: the Clarifications page *)
(* ===================================================================== *)

Module ClarificationsFacts.

Import ClarificationsPage.

Lemma answerAt_same (index : nat) (v : str) (prev : Answers) :
  answerAt index (handleAnswerChange index v prev) = Some v.
Proof.
  induction prev as [|[i w] prev IH]; cbn [handleAnswerChange answerAt].
  - now rewrite Nat.eqb_refl.
  - destruct (Nat.ltb_spec index i) as [L|L]; cbn [answerAt].
    + now rewrite Nat.eqb_refl.
    + destruct (Nat.eqb_spec index i) as [->|N]; cbn [answerAt].
      * now rewrite Nat.eqb_refl.
      * destruct (Nat.eqb_spec index i); [contradiction | exact IH].
Qed.

Lemma answerAt_other (index j : nat) (v : str) (prev : Answers) :
  j <> index ->
  answerAt j (handleAnswerChange index v prev) = answerAt j prev.
Proof.
  intros Hj. induction prev as [|[i w] prev IH];
    cbn [handleAnswerChange answerAt].
  - destruct (Nat.eqb_spec j index); [contradiction | reflexivity].
  - destruct (Nat.ltb_spec index i) as [L|L]; cbn [answerAt].
    + destruct (Nat.eqb_spec j index); [contradiction | reflexivity].
    + destruct (Nat.eqb_spec index i) as [->|N]; cbn [answerAt].
      * destruct (Nat.eqb_spec j i); [contradiction | reflexivity].
      * now rewrite IH.
Qed.

Lemma handleAnswerChange_keys (index : nat) (v : str) (prev : Answers) (k : nat) :
  In k (map fst (handleAnswerChange index v prev)) ->
  k = index \/ In k (map fst prev).
Proof.
  induction prev as [|[i w] prev IH]; cbn [handleAnswerChange map fst In].
  - intros [<-|[]]. now left.
  - destruct (Nat.ltb_spec index i) as [L|L]; cbn [map fst In].
    + intros [<-|H]; [now left | now right].
    + destruct (Nat.eqb_spec index i) as [->|N]; cbn [map fst In].
      * intros H. now right.
      * intros [<-|H]; [right; now left|].
        destruct (IH H) as [->|H']; [now left | right; now right].
Qed.

Lemma handleAnswerChange_increasing (index : nat) (v : str) (prev : Answers) :
  increasing prev -> increasing (handleAnswerChange index v prev).
Proof.
  unfold increasing. induction prev as [|[i w] prev IH];
    cbn [handleAnswerChange map fst]; intros H.
  - constructor; constructor.
  - inversion H as [|? ? S F]; subst.
    destruct (Nat.ltb_spec index i) as [L|L]; cbn [map fst].
    + constructor; [exact H|]. constructor; [exact L|].
      eapply Forall_impl; [|exact F]. cbn. intros; lia.
    + destruct (Nat.eqb_spec index i) as [->|N]; cbn [map fst].
      * exact H.
      * constructor; [now apply IH|].
        apply Forall_forall. intros k Hk.
        apply handleAnswerChange_keys in Hk as [->|Hk]; [lia|].
        rewrite Forall_forall in F. now apply F.
Qed.

Lemma afterEdits_from (edits : list (nat * str)) (a : Answers) (idx : nat) :
  answerAt idx (fold_left editStep edits a)
  = match lastEdit idx edits with
    | Some w => Some w
    | None => answerAt idx a
    end.
Proof.
  revert a. induction edits as [|[i v] edits IH]; intros a; [reflexivity|].
  cbn [fold_left lastEdit]. rewrite IH.
  destruct (lastEdit idx edits); [reflexivity|].
  unfold editStep. cbn [fst snd].
  destruct (Nat.eqb_spec idx i) as [->|N].
  - apply answerAt_same.
  - now apply answerAt_other.
Qed.

Lemma fold_editStep_increasing (edits : list (nat * str)) (a : Answers) :
  increasing a -> increasing (fold_left editStep edits a).
Proof.
  revert a. induction edits as [|e edits IH]; intros a H; [exact H|].
  cbn [fold_left]. apply IH, handleAnswerChange_increasing, H.
Qed.

Lemma numToStr_inj (a b : Z) : numToStr a = numToStr b -> a = b.
Proof.
  intros H.
  pose proof (parseNumber_numToStr a [] eq_refl) as Ha.
  pose proof (parseNumber_numToStr b [] eq_refl) as Hb.
  rewrite H, Hb in Ha. congruence.
Qed.

Lemma answersValue_wellFormed (answers : Answers) :
  increasing answers -> Json.wellFormed (answersValue answers).
Proof.
  intros H. unfold answersValue. apply wellFormed_obj. split.
  - rewrite map_map.
    assert (E : map (fun x : nat * str => fst (let '(i, w) := x in (natToStr i, VStr w)))
                    answers
                = map natToStr (map fst answers)).
    { rewrite map_map. apply map_ext. now intros [i w]. }
    rewrite E. clear E. unfold increasing in H.
    induction H as [|k l S IH F]; [constructor|].
    cbn [map]. constructor; [|exact IH].
    intros Hin. apply in_map_iff in Hin as (k' & Hk & Hin).
    apply numToStr_inj, Nat2Z.inj in Hk. subst k'.
    rewrite Forall_forall in F. specialize (F k Hin). lia.
  - apply Forall_forall. intros [k x] Hin.
    apply in_map_iff in Hin as ([i w] & [= <- <-] & _). exact I.
Qed.

Lemma getItem_setItem_other (k k' v : str) (store : LocalStorage.Storage) :
  JsString.eqb k k' = false ->
  LocalStorage.getItem k (LocalStorage.setItem k' v store)
  = LocalStorage.getItem k store.
Proof.
  intros Hk. induction store as [|[k0 v0] store IH]; cbn.
  - now rewrite Hk.
  - destruct (JsString.eqb k' k0) eqn:E; cbn.
    + apply str_eqb_eq in E. subst k0. now rewrite Hk.
    + now rewrite IH.
Qed.

Lemma nonEmpty_lower (s : StepRecord) :
  nonEmpty (lowerOut s) = true -> nonEmpty (orEmpty (output s)) = true.
Proof. unfold lowerOut. now destruct (orEmpty (output s)). Qed.

End ClarificationsFacts.

Import ClarificationsFacts.

(** X16: when [loadClarifications] has run, the page shows an error exactly
    when no list of questions was produced; the questions are those produced,
    or unchanged on an error; when the results hold a clarification step the
    outcome depends neither on the user nor on the listing of the bucket, not
    even when the fetch of the artifact fails; with neither results nor a user
    address the error is the "No clarifications found" message. *)
Theorem X16_loadClarifications_outcome (results : jsval) (userEmail : option str)
    (fetched : str -> result value) (bucket : AwsDiscovery.Listing)
    (st : ClarificationsPage.State) :
  let found := ClarificationsPage.findClarifications results userEmail fetched bucket in
  let st' := ClarificationsPage.loadClarifications results userEmail fetched bucket st in
  ClarificationsPage.loading st' = false /\
  (ClarificationsPage.error st' = [] <-> exists qs, found = Ok (Some qs)) /\
  (forall qs, found = Ok (Some qs) -> ClarificationsPage.questions st' = qs) /\
  (ClarificationsPage.error st' <> [] ->
   ClarificationsPage.questions st' = ClarificationsPage.questions st) /\
  (forall steps i s,
     truthy results = true -> stepsOf results = Some steps ->
     Clarifications.clarStep steps = Some (i, s) ->
     forall userEmail' bucket',
       ClarificationsPage.loadClarifications results userEmail' fetched bucket' st
       = st') /\
  (truthy results = false -> userEmail = None ->
   ClarificationsPage.error st'
   = lit "No clarifications found. Please process an RFP first.").
Proof.
  intros found st'. subst st'. unfold ClarificationsPage.loadClarifications.
  fold found.
  split; [destruct found as [[qs|]|e]; reflexivity|].
  split; [|split; [|split; [|split]]].
  - destruct found as [[qs|]|e]; cbn [ClarificationsPage.error].
    + split; [eauto | reflexivity].
    + split; [discriminate | intros [qs H]; discriminate].
    + split; [|intros [qs H]; discriminate].
      intros H. exfalso. revert H. apply messageOr_nonEmpty. discriminate.
  - intros qs ->. reflexivity.
  - destruct found as [[qs|]|e]; cbn [ClarificationsPage.error
                                      ClarificationsPage.questions];
      [congruence | reflexivity | reflexivity].
  - intros steps i s Ht Hs Hc userEmail' bucket'.
    assert (N : nonEmpty (orEmpty (output s)) = true).
    { apply nonEmpty_lower. apply clar_ext in Hc as [_ Hc].
      apply (endsWith_nonEmpty _ _ Hc). discriminate. }
    assert (E : forall u b,
               ClarificationsPage.findClarifications results u fetched b
               = (json <- fetched (orEmpty (output s)) ;;
                  qs <- Clarifications.processClarifications (JV json) ;;
                  Ok (Some qs))).
    { intros u b. unfold ClarificationsPage.findClarifications.
      rewrite Ht, Hs, Hc, N.
      destruct (fetched (orEmpty (output s))) as [json|e]; [|reflexivity].
      cbn [bind].
      destruct (Clarifications.processClarifications (JV json)); reflexivity. }
    subst found. now rewrite !E.
  - intros Ht ->. subst found. unfold ClarificationsPage.findClarifications.
    rewrite Ht. reflexivity.
Qed.

Lemma X16_loadClarifications_witness :
  ClarificationsPage.questions
    (ClarificationsPage.loadClarifications (JV Sample.pipelineBody)
       (Some (lit "alice@hcltech.com")) sampleFetch noListing
       ClarificationsPage.initialState)
  = [ Clarifications.mkQuestion (jsStr "What is the budget?");
      Clarifications.mkQuestion (jsStr "Which region?") ] /\
  ClarificationsPage.error
    (ClarificationsPage.loadClarifications (JV VNull) None sampleFetch noListing
       ClarificationsPage.initialState)
  = lit "No clarifications found. Please process an RFP first.".
Proof.
  split.
  - refine (proj1 (proj2 (proj2 (X16_loadClarifications_outcome
              (JV Sample.pipelineBody) (Some (lit "alice@hcltech.com"))
              sampleFetch noListing ClarificationsPage.initialState))) _ _).
    vm_compute. reflexivity.
  - refine (proj2 (proj2 (proj2 (proj2 (proj2 (X16_loadClarifications_outcome
              (JV VNull) None sampleFetch noListing
              ClarificationsPage.initialState))))) _ _); reflexivity.
Defined.

(** X17: after any sequence of edits the text area of a question shows the
    text last typed for it, and nothing for a question never edited; an edit
    changes the answer of no other question; the keys of the answers stay
    increasing and distinct, so the text [handleContinue] stores for them
    parses back to the same object. *)
Theorem X17_answers_keep_last_edit (edits : list (nat * str)) :
  (forall idx, ClarificationsPage.shownAnswer idx (afterEdits edits)
               = orEmpty (lastEdit idx edits)) /\
  (forall index v j, j <> index ->
     ClarificationsPage.answerAt j
       (ClarificationsPage.handleAnswerChange index v (afterEdits edits))
     = ClarificationsPage.answerAt j (afterEdits edits)) /\
  increasing (afterEdits edits) /\
  Json.parse (Json.stringify (ClarificationsPage.answersValue (afterEdits edits)))
  = Ok (ClarificationsPage.answersValue (afterEdits edits)).
Proof.
  assert (I : increasing (afterEdits edits)).
  { apply fold_editStep_increasing. constructor. }
  split; [|split; [|split]].
  - intros idx. unfold ClarificationsPage.shownAnswer, afterEdits.
    rewrite afterEdits_from. now destruct (lastEdit idx edits).
  - intros index v j Hj. now apply answerAt_other.
  - exact I.
  - apply parse_stringify, answersValue_wellFormed, I.
Qed.

Lemma X17_answers_witness :
  ClarificationsPage.answerAt 0
    (ClarificationsPage.handleAnswerChange 1 "AWS"
       (afterEdits [ (0%nat, lit "Yes"); (2%nat, lit "No") ]))
  = Some (lit "Yes").
Proof.
  rewrite (proj1 (proj2 (X17_answers_keep_last_edit
             [ (0%nat, lit "Yes"); (2%nat, lit "No") ])) 1%nat (lit "AWS") 0%nat).
  - reflexivity.
  - discriminate.
Defined.

(** X18: the Results page shows what the Clarifications page showed: for
    every location state and every cache, the results the Clarifications page
    reads are, after [handleContinue], the results the Results page reads,
    whether the writes of [handleContinue] succeed or fail.  After an upload
    that succeeds, the Dashboard navigates with the results it holds; whenever
    these are truthy or the upload could write the cache, the Clarifications
    page reads them, so that the Results page reads them in turn, and also
    after a reload of the page when the upload or the first write of
    [handleContinue] could write the cache. *)
Theorem X18_results_reach_results_page :
  (forall (locationResults : jsval) (store : LocalStorage.Storage)
          (shown : value) (answers : ClarificationsPage.Answers)
          (firstFails secondFails : bool),
      ClarificationsPage.results locationResults store = JV shown ->
      let c := ClarificationsPage.handleContinue shown answers store
                 firstFails secondFails in
      Results.results (ClarificationsPage.stateResults c)
        (ClarificationsPage.storage c) = JV shown) /\
  (forall (st : Dashboard.UploadState) (userEmail : str)
          (store : LocalStorage.Storage) (w : AwsService.World)
          (file : AwsService.File) (p : AwsService.Processed)
          (computed : value),
      Dashboard.selectedFile st = Some file ->
      AwsService.returned (AwsService.processRFP file userEmail w) = Ok p ->
      let h := Dashboard.handleUpload st userEmail store w in
      Dashboard.results (Dashboard.state h) = JV computed ->
      Dashboard.navigated h = Some (lit "/clarifications", JV computed) /\
      (truthy (JV computed) = true \/ AwsService.storageFull w = false ->
       ClarificationsPage.results (JV computed) (Dashboard.storage h)
       = JV computed /\
       forall (answers : ClarificationsPage.Answers)
              (firstFails secondFails : bool),
         let c := ClarificationsPage.handleContinue computed answers
                    (Dashboard.storage h) firstFails secondFails in
         Results.results (ClarificationsPage.stateResults c)
           (ClarificationsPage.storage c) = JV computed /\
         (AwsService.storageFull w = false \/ firstFails = false ->
          Results.results JUndef (ClarificationsPage.storage c) = JV computed))).
Proof.
  assert (Falsy : forall v, truthy (JV v) = false -> Json.wellFormed v).
  { intros [|b|n|s|items|fields]; try discriminate; intros _; exact I. }
  assert (Written : forall (v : value) answers s f2,
            LocalStorage.getItem "rfx_results"
              (ClarificationsPage.storage
                 (ClarificationsPage.handleContinue v answers s false f2))
            = Some (Json.stringify v)).
  { intros v answers s f2. unfold ClarificationsPage.handleContinue.
    cbn [ClarificationsPage.storage].
    destruct f2; [apply getItem_setItem|].
    rewrite getItem_setItem_other by reflexivity. apply getItem_setItem. }
  assert (Read : forall (v : value) s,
            Json.wellFormed v ->
            LocalStorage.getItem "rfx_results" s = Some (Json.stringify v) ->
            forall l, Results.results l s = (if truthy l then l else JV v) /\
                      ClarificationsPage.results l s
                      = (if truthy l then l else JV v)).
  { intros v s Hwf Hg l. unfold Results.results, ClarificationsPage.results, jsOr.
    rewrite Hg, stringify_nonEmpty, (parse_stringify _ Hwf). split; reflexivity. }
  assert (Shown : forall locationResults store shown answers f1 f2,
            ClarificationsPage.results locationResults store = JV shown ->
            Results.results
              (ClarificationsPage.stateResults
                 (ClarificationsPage.handleContinue shown answers store f1 f2))
              (ClarificationsPage.storage
                 (ClarificationsPage.handleContinue shown answers store f1 f2))
            = JV shown).
  { intros locationResults store shown answers f1 f2 H.
    destruct (truthy (JV shown)) eqn:Ht.
    - unfold Results.results, ClarificationsPage.handleContinue.
      cbn [ClarificationsPage.stateResults]. now rewrite Ht.
    - destruct f1.
      + unfold ClarificationsPage.results, jsOr in H.
        destruct (truthy locationResults) eqn:Hl.
        { rewrite H in Hl. congruence. }
        unfold Results.results, ClarificationsPage.handleContinue.
        cbn [ClarificationsPage.stateResults ClarificationsPage.storage].
        rewrite Ht. exact H.
      + rewrite (proj1 (Read shown _ (Falsy _ Ht) (Written shown answers store f2) _)).
        cbn [ClarificationsPage.handleContinue ClarificationsPage.stateResults].
        now rewrite Ht. }
  split.
  - intros locationResults store shown answers firstFails secondFails H c.
    subst c. now apply (Shown locationResults).
  - intros st userEmail store w file p computed Hfile Hrun h Hc.
    assert (Hwf : Json.wellFormed computed).
    { subst h. unfold Dashboard.handleUpload in Hc. rewrite Hfile, Hrun in Hc.
      cbn [Dashboard.state Dashboard.results] in Hc. injection Hc as <-.
      apply normalizeBody_wellFormed, (processRFP_wellFormed _ _ _ _ Hrun). }
    assert (Hh : Dashboard.navigated h = Some (lit "/clarifications", JV computed) /\
                 Dashboard.storage h
                 = if AwsService.storageFull w then store
                   else LocalStorage.setItem "rfx_results"
                          (Json.stringify computed) store).
    { subst h. unfold Dashboard.handleUpload in *. rewrite Hfile, Hrun in *.
      cbn [Dashboard.state Dashboard.results Dashboard.navigated
           Dashboard.storage] in *.
      injection Hc as <-. split; reflexivity. }
    destruct Hh as (Hn & Hs).
    assert (Hg : AwsService.storageFull w = false ->
                 LocalStorage.getItem "rfx_results" (Dashboard.storage h)
                 = Some (Json.stringify computed)).
    { intros Hf. rewrite Hs, Hf. apply getItem_setItem. }
    split; [exact Hn|]. intros Hcase.
    assert (Page : ClarificationsPage.results (JV computed) (Dashboard.storage h)
                   = JV computed).
    { destruct (truthy (JV computed)) eqn:Ht.
      - unfold ClarificationsPage.results, jsOr. now rewrite Ht.
      - destruct Hcase as [Hcase|Hf]; [discriminate|].
        rewrite (proj2 (Read computed _ Hwf (Hg Hf) _)). now rewrite Ht. }
    split; [exact Page|].
    intros answers firstFails secondFails c. subst c. split.
    + now apply (Shown (JV computed)).
    + intros Hreload.
      assert (Hcache : LocalStorage.getItem "rfx_results"
                         (ClarificationsPage.storage
                            (ClarificationsPage.handleContinue computed answers
                               (Dashboard.storage h) firstFails secondFails))
                       = Some (Json.stringify computed)).
      { destruct firstFails.
        - destruct Hreload as [Hf|Hf]; [|discriminate].
          cbn [ClarificationsPage.handleContinue ClarificationsPage.storage].
          exact (Hg Hf).
        - apply Written. }
      now rewrite (proj1 (Read computed _ Hwf Hcache _)).
Qed.

Lemma X18_results_witness :
  Results.results
    (ClarificationsPage.stateResults
       (ClarificationsPage.handleContinue VNull [] 
          [ (lit "rfx_results", lit "undefined") ] true true))
    (ClarificationsPage.storage
       (ClarificationsPage.handleContinue VNull []
          [ (lit "rfx_results", lit "undefined") ] true true))
  = JV VNull /\
  Results.results JUndef
    (ClarificationsPage.storage
       (ClarificationsPage.handleContinue
          (VObj [ (lit "statusCode", VNum 200); (lit "body", Sample.pipelineBody) ])
          []
          (Dashboard.storage
             (Dashboard.handleUpload Sample.selected "alice@hcltech.com" []
                Sample.succeeding))
          true true))
  = JV (VObj [ (lit "statusCode", VNum 200); (lit "body", Sample.pipelineBody) ]).
Proof.
  split.
  - refine (proj1 X18_results_reach_results_page (JV VNull)
              [ (lit "rfx_results", lit "undefined") ] VNull [] true true _).
    reflexivity.
  - refine (proj2 (proj2 (proj2 (proj2 X18_results_reach_results_page
              Sample.selected "alice@hcltech.com" [] Sample.succeeding Sample.rfp
              (AwsService.mkProcessed
                 (AwsService.mkUploadResult true
                    (lit "alice/1700000000000_rfp.pdf")
                    AwsService.S3_INPUT_BUCKET)
                 Sample.proxyResponse)
              (VObj [ (lit "statusCode", VNum 200);
                      (lit "body", Sample.pipelineBody) ])
              _ _ _) _) [] true true) _).
    + reflexivity.
    + vm_compute. reflexivity.
    + vm_compute. reflexivity.
    + left. reflexivity.
    + left. reflexivity.
Defined.

(* ===================================================================== *)
(** * Further properties: the views of the pricing payload *)
(* ===================================================================== *)

Module PricingViewFacts.

Import Dashboard.

Lemma get_truthy (v : jsval) (k : str) :
  truthy v = true -> get v k = Ok (getOpt v k).
Proof.
  intros H. destruct (truthy_value v H) as (x & -> & Hx). now apply get_value.
Qed.




Lemma mapM_ok {A B : Type} (f : A -> result B) (l : list A) :
  (forall x, In x l -> exists y, f x = Ok y) ->
  exists ys, mapM f l = Ok ys /\ length ys = length l.
Proof.
  induction l as [|a l IH]; intros H; cbn [mapM].
  - now exists [].
  - destruct (H a (or_introl eq_refl)) as [y ->]. cbn [bind].
    destruct IH as (ys & -> & L); [intros x Hx; apply H; now right|].
    cbn [bind]. exists (y :: ys). split; [reflexivity|]. cbn. now rewrite L.
Qed.

Lemma mapM_throw {A B : Type} (f : A -> result B) (l : list A) (bad : A) (e : exn) :
  In bad l -> f bad = Throw e ->
  (forall x, In x l -> (exists y, f x = Ok y) \/ f x = Throw e) ->
  mapM f l = Throw e.
Proof.
  induction l as [|a l IH]; intros Hin Hbad Hall; [contradiction|].
  cbn [mapM]. destruct (Hall a (or_introl eq_refl)) as [[y Hy]|Hy]; rewrite Hy;
    [|reflexivity].
  cbn [bind]. destruct Hin as [->|Hin]; [congruence|].
  rewrite IH; auto. intros x Hx. apply Hall. now right.
Qed.





Lemma value_null_dec (v : value) : v = VNull \/ v <> VNull.
Proof. destruct v; [now left | right; discriminate ..]. Qed.


End PricingViewFacts.

Import PricingViewFacts.



(* ===================================================================== *)
(** * Further properties: the pricing card, the summary and the gallery *)
(* ===================================================================== *)

(** X20: for results whose steps are typed (none is null, and the name and
    the output of each are strings or falsy), once the fetch the results
    effect started has settled, the pricing card shows the error message,
    which is never empty, when the fetch failed, whatever pricing data was
    loaded before; it shows the table of the fetched payload when the fetch
    succeeded with a truthy payload, and is absent when the payload is falsy;
    and it is absent when the steps hold no pricing step. *)
Theorem X20_pricing_card_after_fetch (results : jsval) (prev : Dashboard.RoleState)
    (steps : list StepRecord) :
  truthy results = true -> stepsOf results = Some steps ->
  typedResults results = true ->
  let st := fst (Dashboard.detectOutputs results prev) in
  (Dashboard.pricingStep steps = None ->
   DashboardControls.pricingCard st = DashboardControls.NoCard) /\
  (Dashboard.pricingStep steps <> None ->
   DashboardControls.pricingCard st = DashboardControls.CardLoading false /\
   (forall e, exists msg,
      DashboardControls.pricingCard (Dashboard.pricingSettled (Throw e) st)
      = DashboardControls.CardError msg /\ msg <> []) /\
   (forall data,
      DashboardControls.pricingCard (Dashboard.pricingSettled (Ok data) st)
      = if truthy (JV data) then DashboardControls.CardTable (JV data)
        else DashboardControls.NoCard)).
Proof.
  intros Ht Hs _ st. subst st. unfold Dashboard.detectOutputs. rewrite Ht, Hs.
  cbn [negb fst]. split.
  - intros ->. reflexivity.
  - intros Hp. destruct (Dashboard.pricingStep steps) as [[i s]|]; [|congruence].
    cbn [option_map]. split; [reflexivity|]. split.
    + intros e. exists (Dashboard.messageOr e "Failed to load pricing data").
      assert (N : Dashboard.messageOr e "Failed to load pricing data" <> [])
        by (apply messageOr_nonEmpty; discriminate).
      split; [|exact N].
      unfold DashboardControls.pricingCard, Dashboard.pricingSettled.
      cbn [Dashboard.pricingLoading Dashboard.pricingError Dashboard.pricingData].
      rewrite (nonEmpty_true _ N). rewrite orb_true_r. reflexivity.
    + intros data.
      unfold DashboardControls.pricingCard, Dashboard.pricingSettled.
      cbn [Dashboard.pricingLoading Dashboard.pricingError Dashboard.pricingData
           nonEmpty orb].
      rewrite orb_false_r. reflexivity.
Qed.

Lemma X20_pricing_card_witness :
  DashboardControls.pricingCard
    (fst (Dashboard.detectOutputs (JV Sample.pipelineBody) Dashboard.noRoles))
  = DashboardControls.CardLoading false.
Proof.
  refine (proj1 (proj2 (X20_pricing_card_after_fetch (JV Sample.pipelineBody)
            Dashboard.noRoles fullPipeline _ _ _) _)).
  - reflexivity.
  - reflexivity.
  - reflexivity.
  - discriminate.
Defined.



Module SummaryFacts.

Lemma falsy_length (v : jsval) :
  truthy v = false -> truthy (getOpt v "length") = false.
Proof.
  destruct v as [| |[|b|n|s|items|fields]]; try discriminate; try reflexivity.
  destruct s; [reflexivity | discriminate].
Qed.

Lemma array_length (items : list value) :
  getOpt (JV (VArr items)) "length" = jsNum (Z.of_nat (length items)).
Proof. reflexivity. Qed.

Lemma truthy_count (items : list value) :
  items <> [] -> truthy (jsNum (Z.of_nat (length items))) = true.
Proof. destruct items; [congruence | reflexivity]. Qed.

End SummaryFacts.

Import SummaryFacts.

(** X22: the number of steps the summary shows is never 0 nor absent; when
    the results hold a non-empty list of steps, the one the Dashboard
    displays and binds the roles from, it is the length of that list; and
    when no processing time is reported, the estimated time is 30 seconds
    per step shown. *)
Theorem X22_stepCount_matches_steps (R : Runtime) (results : jsval) :
  truthy (DashboardControls.stepCount results) = true /\
  (forall steps,
     stepsOf results = Some steps -> steps <> [] ->
     DashboardControls.stepCount results = jsNum (Z.of_nat (length steps))) /\
  (forall n,
     DashboardControls.stepCount results = jsNum n ->
     truthy (getOpt (getOpt results "body") "total_time_seconds") = false ->
     truthy (getOpt results "total_time_seconds") = false ->
     DashboardControls.processingTime results
     = lit "~" ++ numToStr (n * 30) ++ lit "s (estimated)").
Proof.
  split; [|split].
  - unfold DashboardControls.stepCount, jsOr.
    destruct (truthy (getOpt (getOpt (getOpt results "body") "steps") "length"))
      eqn:E1; [exact E1|].
    destruct (truthy (getOpt (getOpt results "steps") "length")) eqn:E2;
      [exact E2 | reflexivity].
  - intros steps Hs Hne. unfold stepsOf in Hs. unfold DashboardControls.stepCount.
    set (bs := getOpt (getOpt results "body") "steps") in *.
    set (rs := getOpt results "steps") in *.
    unfold jsOr in Hs |- *.
    destruct (truthy bs) eqn:Eb.
    + destruct bs as [| |[| | | |items|]]; try discriminate Hs.
      cbn [asArray option_map] in Hs. injection Hs as <-.
      rewrite array_length, length_map.
      rewrite truthy_count; [reflexivity|]. now destruct items.
    + rewrite (falsy_length _ Eb).
      destruct (truthy rs) eqn:Er.
      * destruct rs as [| |[| | | |items|]]; try discriminate Hs.
        cbn [asArray option_map] in Hs. injection Hs as <-.
        rewrite array_length, length_map.
        rewrite truthy_count; [reflexivity|]. now destruct items.
      * cbn [asArray option_map map] in Hs. injection Hs as <-. congruence.
  - intros n Hn H1 H2. unfold DashboardControls.processingTime, jsOr.
    rewrite H1, H2, Hn. reflexivity.
Qed.

Lemma X22_stepCount_witness :
  DashboardControls.stepCount (JV Sample.pipelineBody) = jsNum 5 /\
  @DashboardControls.processingTime DecimalRuntime.runtime
    (JV (VObj [ (lit "steps", VArr [ VNull; VNull ]) ]))
  = lit "~60s (estimated)".
Proof.
  destruct (X22_stepCount_matches_steps DecimalRuntime.runtime
              (JV Sample.pipelineBody)) as (_ & A & _).
  destruct (X22_stepCount_matches_steps DecimalRuntime.runtime
              (JV (VObj [ (lit "steps", VArr [ VNull; VNull ]) ]))) as (_ & _ & B).
  split.
  - apply (A fullPipeline); [reflexivity | discriminate].
  - apply (B 2); reflexivity.
Defined.

Module GalleryFacts.

Import AwsDiscovery.

Lemma gallery_index (elapsedMs : Z) :
  0 <= elapsedMs ->
  let d := elapsedMs / (1000 * 60 * 60 * 24) in
  0 <= d /\ Z.rem d (Z.of_nat (length architectureDiagrams)) = d mod 2.
Proof.
  intros H d. assert (Hd : 0 <= d) by (apply Z.div_pos; lia).
  split; [exact Hd|]. now apply Z.rem_mod_nonneg.
Qed.

End GalleryFacts.

Import GalleryFacts.

(** X23: for every non-negative number of milliseconds elapsed since the
    start of the year, [getRandomArchitectureDiagram] selects a diagram of its
    list, never an undefined key: the first one when the number of whole
    periods of 86400000 milliseconds elapsed is even and the second one when
    it is odd; the key ends in [.png], and the [url] of the result is the
    direct link of that diagram, the very link [getArchitectureDiagramUrl]
    falls back on when signing fails. *)
Theorem X23_gallery_selects_listed_diagram (elapsedMs : Z) :
  0 <= elapsedMs ->
  let g := AwsDiscovery.getRandomArchitectureDiagram elapsedMs in
  exists key,
    AwsDiscovery.diagramKey g = Some key /\
    nth_error AwsDiscovery.architectureDiagrams
      (Z.to_nat ((elapsedMs / 86400000) mod 2)) = Some key /\
    In key AwsDiscovery.architectureDiagrams /\
    endsWith key ".png" = true /\
    AwsDiscovery.diagramUrl g
    = AwsDiscovery.getS3FileUrl AwsService.S3_OUTPUT_BUCKET key /\
    forall e, AwsDiscovery.getArchitectureDiagramUrl key (Throw e)
              = AwsDiscovery.diagramUrl g.
Proof.
  intros H g. subst g. unfold AwsDiscovery.getRandomArchitectureDiagram.
  destruct (gallery_index elapsedMs H) as [Hd Hr].
  cbv zeta in Hr, Hd |- *.
  change (1000 * 60 * 60 * 24) with 86400000 in *.
  rewrite Hr.
  set (d := elapsedMs / 86400000) in *.
  assert (Hm : d mod 2 = 0 \/ d mod 2 = 1).
  { pose proof (Z.mod_pos_bound d 2 ltac:(lia)). lia. }
  destruct Hm as [-> | ->];
    cbn [Z.ltb Z.compare Z.to_nat Pos.to_nat Pos.iter_op Nat.add nth_error
         AwsDiscovery.architectureDiagrams AwsDiscovery.diagramKey
         AwsDiscovery.diagramUrl];
    eexists; (split; [reflexivity|]); (split; [reflexivity|]);
    (split; [cbn; tauto|]); (split; [reflexivity|]);
    (split; [reflexivity|]); intros e; reflexivity.
Qed.

Lemma X23_gallery_witness :
  exists key,
    AwsDiscovery.diagramKey (AwsDiscovery.getRandomArchitectureDiagram 26438400000)
    = Some key /\
    nth_error AwsDiscovery.architectureDiagrams
      (Z.to_nat ((26438400000 / 86400000) mod 2)) = Some key.
Proof.
  destruct (X23_gallery_selects_listed_diagram 26438400000 ltac:(lia))
    as (key & Hk & Hn & _).
  exists key. split; [exact Hk | exact Hn].
Defined.

Module QuestionFacts.

Import Clarifications.

Lemma mapM_inv {A B : Type} (f : A -> result B) (l : list A) (ys : list B) :
  mapM f l = Ok ys ->
  length ys = length l /\
  forall j x y, nth_error l j = Some x -> nth_error ys j = Some y -> f x = Ok y.
Proof.
  revert ys. induction l as [|a l IH]; intros ys; cbn [mapM].
  - intros [= <-]. split; [reflexivity|]. intros [|j]; discriminate.
  - destruct (f a) as [y0|] eqn:Ea; cbn [bind]; [|discriminate].
    destruct (mapM f l) as [ys'|] eqn:El; cbn [bind]; [|discriminate].
    intros [= <-]. destruct (IH _ eq_refl) as [L N]. split.
    + cbn. now rewrite L.
    + intros [|j] x y; cbn [nth_error].
      * intros [= <-] [= <-]. exact Ea.
      * apply N.
Qed.

Lemma jsOr_truthy_r (a b : jsval) : truthy b = true -> truthy (jsOr a b) = true.
Proof. intros H. unfold jsOr. now destruct (truthy a) eqn:E. Qed.

Lemma stringify_truthy (q : value) : truthy (jsStr (Json.stringify q)) = true.
Proof. apply stringify_nonEmpty. Qed.

Lemma questionOfItem_cases (q : value) :
  (q <> VNull -> exists r, questionOfItem q = Ok r /\ questionFor q r) /\
  (q = VNull -> questionOfItem q = Throw TypeError).
Proof.
  split; [|intros ->; reflexivity].
  intros Hq. unfold questionOfItem.
  destruct q as [|b|n|s|items|fields]; try congruence;
    try (rewrite !get_value by discriminate; cbn [bind]; eexists;
         split; [reflexivity|]; cbn [questionFor text];
         repeat apply jsOr_truthy_r; apply stringify_truthy).
  eexists. split; reflexivity.
Qed.

Lemma questionOfEntry_cases (q : value) :
  (q <> VNull -> exists r, questionOfEntry q = Ok r /\ questionFor q r) /\
  (q = VNull -> questionOfEntry q = Throw TypeError).
Proof.
  split; [|intros ->; reflexivity].
  intros Hq. unfold questionOfEntry.
  destruct q as [|b|n|s|items|fields]; try congruence;
    try (rewrite !get_value by discriminate; cbn [bind]; eexists;
         split; [reflexivity|]; cbn [questionFor text];
         repeat apply jsOr_truthy_r; apply stringify_truthy).
  eexists. split; reflexivity.
Qed.

(** Mapping a function that throws on null only. *)
Lemma mapM_questions (f : value -> result Question) (items : list value) :
  (forall q, (q <> VNull -> exists r, f q = Ok r /\ questionFor q r) /\
             (q = VNull -> f q = Throw TypeError)) ->
  (~ In VNull items ->
   exists qs, mapM f items = Ok qs /\ length qs = length items /\
     forall i it q, nth_error items i = Some it -> nth_error qs i = Some q ->
                    questionFor it q) /\
  (In VNull items -> mapM f items = Throw TypeError).
Proof.
  intros Hf. split.
  - intros Hno.
    destruct (mapM_ok f items) as (qs & E & L).
    { intros x Hx. destruct (proj1 (Hf x)) as (r & Hr & _); [|eauto].
      intros ->. contradiction. }
    exists qs. split; [exact E|]. split; [exact L|].
    intros i it q Hi Hq.
    pose proof (proj2 (mapM_inv _ _ _ E) i it q Hi Hq) as Hfq.
    destruct (proj1 (Hf it)) as (r & Hr & P).
    { intros ->. apply Hno. now apply nth_error_In in Hi. }
    congruence.
  - intros Hin. apply (mapM_throw f items VNull TypeError Hin).
    + now apply Hf.
    + intros x Hx. destruct (value_null_dec x) as [->|Hx'].
      * right. now apply Hf.
      * left. destruct (proj1 (Hf x) Hx') as (r & Hr & _). eauto.
Qed.

End QuestionFacts.

Import QuestionFacts.

(** X24: [processClarifications] on any payload: an array of strings gives
    those strings as questions, in order; when the payload carries an array
    of questions (itself, its [questions], else its [clarifications]) the
    result has one question per item, in order, a string item as it is and
    any other item with a text that is never blank, and the call throws
    exactly when an item is null; when it carries none, the call never throws
    and gives one question per key of the payload. *)
Theorem X24_processClarifications_shapes (json : jsval) :
  (forall texts,
     json = JV (VArr (map VStr texts)) ->
     Clarifications.processClarifications json
     = Ok (map (fun t => Clarifications.mkQuestion (jsStr t)) texts)) /\
  (forall items,
     chosenItems json = Some items -> ~ In VNull items ->
     exists qs,
       Clarifications.processClarifications json = Ok qs /\
       length qs = length items /\
       forall i it q, nth_error items i = Some it -> nth_error qs i = Some q ->
                      questionFor it q) /\
  (forall items,
     chosenItems json = Some items -> In VNull items ->
     Clarifications.processClarifications json = Throw TypeError) /\
  (chosenItems json = None ->
   exists qs,
     Clarifications.processClarifications json = Ok qs /\
     length qs = length (keys (jsOr json emptyObject))).
Proof.
  assert (Sel : forall items, chosenItems json = Some items ->
            exists f,
              Clarifications.processClarifications json = mapM f items /\
              forall q, (q <> VNull -> exists r, f q = Ok r /\ questionFor q r) /\
                        (q = VNull -> f q = Throw TypeError)).
  { intros items H. unfold chosenItems in H.
    unfold Clarifications.processClarifications.
    destruct (asArray json) as [l|].
    - injection H as ->. exists Clarifications.questionOfItem.
      split; [reflexivity | apply questionOfItem_cases].
    - destruct (asArray (getOpt json "questions")) as [l|].
      + injection H as ->. exists Clarifications.questionOfEntry.
        split; [reflexivity | apply questionOfEntry_cases].
      + rewrite H. exists Clarifications.questionOfEntry.
        split; [reflexivity | apply questionOfEntry_cases]. }
  split; [|split; [|split]].
  - intros texts ->. clear Sel. unfold Clarifications.processClarifications.
    cbn [asArray]. induction texts as [|t texts IH]; [reflexivity|].
    cbn [map mapM Clarifications.questionOfItem bind]. rewrite IH. reflexivity.
  - intros items H Hno. destruct (Sel items H) as (f & -> & Hf).
    now apply mapM_questions.
  - intros items H Hin. destruct (Sel items H) as (f & -> & Hf).
    now apply mapM_questions.
  - intros H. unfold chosenItems in H.
    unfold Clarifications.processClarifications.
    destruct (asArray json); [discriminate|].
    destruct (asArray (getOpt json "questions")); [discriminate|].
    rewrite H. apply mapM_ok. intros k Hk.
    unfold Clarifications.questionOfKey.
    destruct (truthy json) eqn:Ht.
    + rewrite (get_truthy _ _ Ht). cbn [bind]. eexists. reflexivity.
    + unfold jsOr in Hk. rewrite Ht in Hk. destruct Hk.
Qed.

Lemma X24_processClarifications_witness :
  Clarifications.processClarifications
    (JV (VArr (map VStr [ lit "Budget?"; lit "Timeline?" ])))
  = Ok [ Clarifications.mkQuestion (jsStr "Budget?");
         Clarifications.mkQuestion (jsStr "Timeline?") ] /\
  Clarifications.processClarifications
    (JV (VObj [ (lit "questions", VArr [ VStr "Budget?"; VNull ]) ]))
  = Throw TypeError /\
  (exists qs,
     Clarifications.processClarifications
       (JV (VObj [ (lit "clarifications", VArr [ VObj [ (lit "id", VNum 7) ] ]) ]))
     = Ok qs /\ length qs = 1%nat) /\
  (exists qs,
     Clarifications.processClarifications (JV (VStr "none")) = Ok qs /\
     length qs = 4%nat).
Proof.
  split; [|split; [|split]].
  - apply (proj1 (X24_processClarifications_shapes _) [ lit "Budget?"; lit "Timeline?" ]).
    reflexivity.
  - apply (proj1 (proj2 (proj2 (X24_processClarifications_shapes _)))
             [ VStr "Budget?"; VNull ]); [reflexivity | right; now left].
  - destruct (proj1 (proj2 (X24_processClarifications_shapes
                (JV (VObj [ (lit "clarifications",
                             VArr [ VObj [ (lit "id", VNum 7) ] ]) ]))))
                [ VObj [ (lit "id", VNum 7) ] ]) as (qs & E & L & _).
    + reflexivity.
    + intros [H|[]]. discriminate.
    + exists qs. split; [exact E | exact L].
  - destruct (proj2 (proj2 (proj2 (X24_processClarifications_shapes
                (JV (VStr "none")))))) as (qs & E & L).
    + reflexivity.
    + exists qs. split; [exact E | exact L].
Defined.

(* ===================================================================== *)
(** * Further properties: the request of the pipeline *)
(* ===================================================================== *)

(** X25: when the upload succeeds, the key of the uploaded object is the
    user name, a slash, the time of the upload, an underscore and the name of
    the file; the run depends on the Lambda only through its answer to one
    request, the JSON text of the payload with that key, which reads back as
    the payload: the action [full_pipeline], the input bucket and the key;
    and a run that returns a result returns that key with it. *)
Theorem X25_pipeline_request (file : AwsService.File) (userEmail : str)
    (w : AwsService.World) :
  AwsService.uploadFailure w = None ->
  let s3Key :=
    AwsService.beforeAt userEmail ++ lit "/" ++ numToStr (AwsService.now w)
    ++ lit "_" ++ AwsService.name file in
  let request := Json.stringify (AwsService.pipelinePayload s3Key) in
  Json.parse request = Ok (AwsService.pipelinePayload s3Key) /\
  getOpt (JV (AwsService.pipelinePayload s3Key)) "s3_key" = jsStr s3Key /\
  (forall answer answer',
     answer request = answer' request ->
     AwsService.processRFP file userEmail (withLambda w answer)
     = AwsService.processRFP file userEmail (withLambda w answer')) /\
  (forall p,
     AwsService.returned (AwsService.processRFP file userEmail w) = Ok p ->
     AwsService.key (AwsService.uploadResult p) = s3Key /\
     AwsService.bucket (AwsService.uploadResult p) = AwsService.S3_INPUT_BUCKET /\
     AwsService.invokeLambdaFunction (AwsService.pipelinePayload s3Key) w
     = Ok (AwsService.processingResult p)).
Proof.
  intros Hup s3Key request.
  split; [|split; [reflexivity | split]].
  - apply parse_stringify. apply wellFormed_obj. split.
    + cbn [map fst]. repeat constructor; cbn; intuition discriminate.
    + repeat constructor.
  - intros answer answer' H.
    unfold AwsService.processRFP, AwsService.uploadFileToS3, withLambda.
    cbn [AwsService.uploadFailure AwsService.uploadProgress AwsService.now
         AwsService.periods].
    rewrite Hup.
    destruct (AwsService.startSimulatedProgress AwsService.pipelineOptions)
      as [s0 first].
    destruct (AwsService.ticks AwsService.pipelineOptions (AwsService.periods w) s0)
      as [s1 later].
    cbn [AwsService.key]. fold s3Key.
    unfold AwsService.invokeLambdaFunction. cbn [AwsService.lambda].
    fold request. now rewrite H.
  - intros p. unfold AwsService.processRFP, AwsService.uploadFileToS3.
    rewrite Hup.
    destruct (AwsService.startSimulatedProgress AwsService.pipelineOptions)
      as [s0 first].
    destruct (AwsService.ticks AwsService.pipelineOptions (AwsService.periods w) s0)
      as [s1 later].
    cbn [AwsService.key]. fold s3Key.
    destruct (AwsService.invokeLambdaFunction (AwsService.pipelinePayload s3Key) w)
      as [result|e]; cbn [AwsService.returned]; [|discriminate].
    intros [= <-]. repeat split.
Qed.

Lemma X25_pipeline_request_witness :
  Json.parse
    (Json.stringify
       (AwsService.pipelinePayload (lit "alice/1700000000000_rfp.pdf")))
  = Ok (AwsService.pipelinePayload (lit "alice/1700000000000_rfp.pdf")).
Proof.
  refine (proj1 (X25_pipeline_request Sample.rfp "alice@hcltech.com"
                   Sample.succeeding _)).
  reflexivity.
Defined.

(* ===================================================================== *)
(** * Further properties: the files of the user *)
(* ===================================================================== *)

Module FilesFacts.

Import AwsDiscovery DashboardFiles.

(** What [findLatestUserFile] returns passes the filter of its type. *)
Lemma findLatest_matches (response : result (option (list S3Object)))
    (fileType : str) (f : S3Object) :
  nonEmpty fileType = true ->
  findLatestUserFile response fileType = Ok (Some f) ->
  matchesType fileType f = true.
Proof.
  intros Ht. unfold findLatestUserFile, listUserFiles.
  destruct response as [contents|e]; [|discriminate].
  cbn [bind]. rewrite Ht. intros [= H].
  set (l := filter _ _) in H.
  assert (Hin : In f (sortNewestFirst l)).
  { destruct (sortNewestFirst l); [discriminate|].
    injection H as ->. now left. }
  apply (Permutation_in _ (sortNewestFirst_perm l)) in Hin.
  subst l. now apply filter_In in Hin.
Qed.

Lemma architectures_json (userEmail : str) (bucket : Listing) (f : S3Object) :
  findUserArchitectures userEmail bucket = Ok (Some f) ->
  endsWith (toLowerCase (Key f)) ".json" = true.
Proof.
  intros H. apply findLatest_matches in H; [|reflexivity].
  unfold matchesType in H.
  change (JsString.eqb "architectures" "clarifications") with false in H.
  change (JsString.eqb "architectures" "architectures") with true in H.
  cbn iota in H. now apply andb_true_iff in H as [_ H].
Qed.

Lemma sow_docx (userEmail : str) (bucket : Listing) (f : S3Object) :
  findUserSOW userEmail bucket = Ok (Some f) ->
  endsWith (toLowerCase (Key f)) ".docx" = true.
Proof.
  intros H. apply findLatest_matches in H; [|reflexivity].
  unfold matchesType in H.
  change (JsString.eqb "sow" "clarifications") with false in H.
  change (JsString.eqb "sow" "architectures") with false in H.
  change (JsString.eqb "sow" "pricing") with false in H.
  change (JsString.eqb "sow" "sow") with true in H.
  cbn iota in H. now apply andb_true_iff in H as [_ H].
Qed.

End FilesFacts.

Import FilesFacts.

(** X26: the handler of "Refresh Files": when an architecture file is
    found its key is set, with its file name, even if a later step fails, and
    that key ends in [.json]; the SOW key changes only when every step
    succeeded, to the key of the file found, which ends in [.docx], and then
    the error is left as it was; the pricing data change only to the fetched
    content of the pricing file found; when the listing of the architectures
    fails nothing changes but the error; and the error is left as it was or
    set to "Failed to refresh files". *)
Theorem X26_refresh_files (userEmail : str) (bucket : AwsDiscovery.Listing)
    (fetched : str -> result value) (st : Dashboard.RoleState) (error : str) :
  let r := DashboardFiles.refreshFiles userEmail bucket fetched st error in
  (forall f,
     AwsDiscovery.findUserArchitectures userEmail bucket = Ok (Some f) ->
     Dashboard.architectureKey (fst r) = AwsDiscovery.Key f /\
     Dashboard.architectureFilename (fst r) = lastSegment (AwsDiscovery.Key f) /\
     endsWith (toLowerCase (AwsDiscovery.Key f)) ".json" = true) /\
  (Dashboard.sowKey (fst r) <> Dashboard.sowKey st ->
   exists f,
     AwsDiscovery.findUserSOW userEmail bucket = Ok (Some f) /\
     Dashboard.sowKey (fst r) = AwsDiscovery.Key f /\
     Dashboard.sowFilename (fst r) = lastSegment (AwsDiscovery.Key f) /\
     endsWith (toLowerCase (AwsDiscovery.Key f)) ".docx" = true /\
     snd r = error) /\
  (Dashboard.pricingData (fst r) <> Dashboard.pricingData st ->
   exists f data,
     AwsDiscovery.findUserPricing userEmail bucket = Ok (Some f) /\
     fetched (AwsDiscovery.Key f) = Ok data /\
     Dashboard.pricingData (fst r) = JV data) /\
  (forall e,
     AwsDiscovery.findUserArchitectures userEmail bucket = Throw e ->
     r = (st, lit "Failed to refresh files")) /\
  (snd r = error \/ snd r = lit "Failed to refresh files").
Proof.
  intros r. subst r. unfold DashboardFiles.refreshFiles.
  destruct (AwsDiscovery.findUserArchitectures userEmail bucket)
    as [archFile|ea] eqn:Ea.
  2:{ cbn [fst snd]. split; [intros f; discriminate|].
      split; [congruence|]. split; [congruence|].
      split; [reflexivity | now right]. }
  set (st1 := DashboardFiles.whenFound archFile DashboardFiles.withArchitecture st).
  assert (S1 : Dashboard.sowKey st1 = Dashboard.sowKey st /\
               Dashboard.pricingData st1 = Dashboard.pricingData st).
  { subst st1. destruct archFile; split; reflexivity. }
  destruct S1 as [S1 P1].
  assert (A1 : forall f, archFile = Some f ->
               Dashboard.architectureKey st1 = AwsDiscovery.Key f /\
               Dashboard.architectureFilename st1 = lastSegment (AwsDiscovery.Key f)).
  { intros f ->. split; reflexivity. }
  destruct (AwsDiscovery.findUserPricing userEmail bucket)
    as [pricingFile|ep] eqn:Ep.
  2:{ cbn [fst snd]. split.
      { intros f [= ->]. destruct (A1 f eq_refl) as [K N].
        split; [exact K|]. split; [exact N|].
        now apply (architectures_json userEmail bucket). }
      split; [congruence|]. split; [congruence|].
      split; [discriminate | now right]. }
  set (fetching := match pricingFile with
                   | Some f => _
                   | None => Ok st1
                   end).
  assert (F : match fetching with
              | Ok st2 =>
                  Dashboard.sowKey st2 = Dashboard.sowKey st1 /\
                  Dashboard.architectureKey st2 = Dashboard.architectureKey st1 /\
                  Dashboard.architectureFilename st2
                  = Dashboard.architectureFilename st1 /\
                  (Dashboard.pricingData st2 = Dashboard.pricingData st1 \/
                   exists f data, pricingFile = Some f /\
                     fetched (AwsDiscovery.Key f) = Ok data /\
                     Dashboard.pricingData st2 = JV data)
              | Throw _ => True
              end).
  { subst fetching. destruct pricingFile as [f|].
    - destruct (fetched (AwsDiscovery.Key f)) as [data|] eqn:Ef; cbn [bind];
        [|exact I].
      repeat split. right. exists f, data. repeat split. exact Ef.
    - repeat split. now left. }
  destruct fetching as [st2|ef].
  2:{ cbn [fst snd]. split.
      { intros f [= ->]. destruct (A1 f eq_refl) as [K N].
        split; [exact K|]. split; [exact N|].
        now apply (architectures_json userEmail bucket). }
      split; [congruence|]. split; [congruence|].
      split; [discriminate | now right]. }
  destruct F as (S2 & K2 & N2 & P2).
  destruct (AwsDiscovery.findUserSOW userEmail bucket) as [sowFile|es] eqn:Es.
  2:{ cbn [fst snd]. split.
      { intros f [= ->]. destruct (A1 f eq_refl) as [K N].
        split; [congruence|]. split; [congruence|].
        now apply (architectures_json userEmail bucket). }
      split; [congruence|]. split.
      { intros Hp. destruct P2 as [P2|(f & data & -> & Ef & P2)];
          [congruence|]. exists f, data. auto. }
      split; [discriminate | now right]. }
  cbn [fst snd].
  assert (W : Dashboard.architectureKey
                (DashboardFiles.whenFound sowFile DashboardFiles.withSow st2)
              = Dashboard.architectureKey st2 /\
              Dashboard.architectureFilename
                (DashboardFiles.whenFound sowFile DashboardFiles.withSow st2)
              = Dashboard.architectureFilename st2 /\
              Dashboard.pricingData
                (DashboardFiles.whenFound sowFile DashboardFiles.withSow st2)
              = Dashboard.pricingData st2).
  { destruct sowFile; repeat split. }
  destruct W as (WK & WN & WP).
  split.
  { intros f [= ->]. destruct (A1 f eq_refl) as [K N].
    split; [congruence|]. split; [congruence|].
    now apply (architectures_json userEmail bucket). }
  split.
  { intros Hs. destruct sowFile as [f|].
    - exists f. split; [reflexivity|]. split; [reflexivity|].
      split; [reflexivity|]. split; [|reflexivity].
      now apply (sow_docx userEmail bucket).
    - exfalso. apply Hs. cbn [DashboardFiles.whenFound]. congruence. }
  split.
  { intros Hp. rewrite WP in Hp |- *.
    destruct P2 as [P2|(f & data & -> & Ef & P2)]; [congruence|].
    exists f, data. auto. }
  split; [discriminate | now left].
Qed.

Lemma X26_refresh_files_witness :
  Dashboard.architectureKey
    (fst (DashboardFiles.refreshFiles "alice@hcltech.com" sampleBucket fetchFails
            Dashboard.noRoles []))
  = lit "alice/aws_architectures/architecture_2.json" /\
  (exists f,
     AwsDiscovery.findUserSOW "alice@hcltech.com" sampleBucket = Ok (Some f) /\
     Dashboard.sowKey
       (fst (DashboardFiles.refreshFiles "alice@hcltech.com" sampleBucket
               fetchNamed Dashboard.noRoles []))
     = AwsDiscovery.Key f).
Proof.
  split.
  - refine (proj1 (proj1 (X26_refresh_files "alice@hcltech.com" sampleBucket
              fetchFails Dashboard.noRoles [])
              (AwsDiscovery.mkS3Object
                 "alice/aws_architectures/architecture_2.json" 5000) _)).
    vm_compute. reflexivity.
  - destruct (proj1 (proj2 (X26_refresh_files "alice@hcltech.com" sampleBucket
                fetchNamed Dashboard.noRoles []))) as (f & Hf & Hk & _).
    + vm_compute. discriminate.
    + exists f. split; [exact Hf | exact Hk].
Defined.

(** X27: [loadLatestFiles], run at the mount of the Dashboard: without a
    user address nothing changes; the SOW and the architecture it loads do not
    depend on whether the pricing can be fetched; when no listing and no fetch
    fails, "Refresh Files" loads exactly the same roles and leaves the error
    as it was; and a file name it sets holds no slash. *)
Theorem X27_mount_loads_latest_files (userEmail : option str)
    (bucket : AwsDiscovery.Listing) (fetched : str -> result value)
    (st : Dashboard.RoleState) :
  let st' := DashboardFiles.loadLatestFiles userEmail bucket fetched st in
  (userEmail = None \/ userEmail = Some [] -> st' = st) /\
  (forall fetched',
     let st'' := DashboardFiles.loadLatestFiles userEmail bucket fetched' st in
     Dashboard.sowKey st'' = Dashboard.sowKey st' /\
     Dashboard.sowFilename st'' = Dashboard.sowFilename st' /\
     Dashboard.architectureKey st'' = Dashboard.architectureKey st' /\
     Dashboard.architectureFilename st'' = Dashboard.architectureFilename st') /\
  (forall email a p s error,
     userEmail = Some email -> email <> [] ->
     AwsDiscovery.findUserArchitectures email bucket = Ok a ->
     AwsDiscovery.findUserPricing email bucket = Ok p ->
     (forall f, p = Some f -> exists data, fetched (AwsDiscovery.Key f) = Ok data) ->
     AwsDiscovery.findUserSOW email bucket = Ok s ->
     DashboardFiles.refreshFiles email bucket fetched st error = (st', error)) /\
  (~ In "/"%char (Dashboard.sowFilename st) ->
   ~ In "/"%char (Dashboard.sowFilename st')) /\
  (~ In "/"%char (Dashboard.architectureFilename st) ->
   ~ In "/"%char (Dashboard.architectureFilename st')).
Proof.
  intros st'.
  assert (Same : forall email a p s error,
            userEmail = Some email -> email <> [] ->
            AwsDiscovery.findUserArchitectures email bucket = Ok a ->
            AwsDiscovery.findUserPricing email bucket = Ok p ->
            (forall f, p = Some f ->
                       exists data, fetched (AwsDiscovery.Key f) = Ok data) ->
            AwsDiscovery.findUserSOW email bucket = Ok s ->
            DashboardFiles.refreshFiles email bucket fetched st error
            = (st', error)).
  { intros email a p s error -> Hne Ha Hp Hf Hs. subst st'.
    unfold DashboardFiles.refreshFiles, DashboardFiles.loadLatestFiles.
    rewrite Ha, Hp, Hs. destruct email; [congruence|]. cbn [nonEmpty negb].
    destruct p as [f|]; [|reflexivity].
    destruct (Hf f eq_refl) as [data Hd]. rewrite Hd. reflexivity. }
  split; [|split; [|split; [exact Same|]]]; clear Same; subst st';
    unfold DashboardFiles.loadLatestFiles.
  - intros [->| ->]; reflexivity.
  - intros fetched'. cbv zeta.
    destruct userEmail as [email|]; [|repeat split].
    destruct (nonEmpty email); cbn [negb]; [|repeat split].
    destruct (AwsDiscovery.findUserArchitectures email bucket) as [[a|]|];
      [| |repeat split];
      (destruct (AwsDiscovery.findUserPricing email bucket) as [[p|]|];
       [| |repeat split]);
      (destruct (AwsDiscovery.findUserSOW email bucket) as [[s|]|]);
      try (destruct (fetched (AwsDiscovery.Key p)));
      try (destruct (fetched' (AwsDiscovery.Key p)));
      repeat split.
  - destruct userEmail as [email|]; [|tauto].
    destruct (nonEmpty email); cbn [negb]; [|tauto].
    destruct (AwsDiscovery.findUserArchitectures email bucket) as [[a|]|];
      [| |tauto];
      (destruct (AwsDiscovery.findUserPricing email bucket) as [[p|]|]);
      try (destruct (AwsDiscovery.findUserSOW email bucket) as [[s|]|]);
      try (destruct (fetched (AwsDiscovery.Key p)));
      cbn; (split; [try tauto | try tauto]);
      intros _; apply lastSegment_no_slash.
Qed.

Lemma X27_mount_witness :
  DashboardFiles.refreshFiles "alice@hcltech.com" sampleBucket fetchNamed
    Dashboard.noRoles []
  = (DashboardFiles.loadLatestFiles (Some (lit "alice@hcltech.com")) sampleBucket
       fetchNamed Dashboard.noRoles, []) /\
  DashboardFiles.loadLatestFiles (Some []) sampleBucket fetchNamed Dashboard.noRoles
  = Dashboard.noRoles.
Proof.
  split.
  - refine (proj1 (proj2 (proj2 (X27_mount_loads_latest_files
              (Some (lit "alice@hcltech.com")) sampleBucket fetchNamed
              Dashboard.noRoles))) (lit "alice@hcltech.com") _ _ _ []
              eq_refl _ eq_refl eq_refl _ eq_refl).
    + discriminate.
    + intros f _. eexists. reflexivity.
  - apply (proj1 (X27_mount_loads_latest_files (Some []) sampleBucket fetchNamed
                    Dashboard.noRoles)).
    now right.
Defined.

(* ===================================================================== *)
(** * Further properties: the architecture component after its effect *)
(* ===================================================================== *)

(** X28: once the effect of ArchitectureDiagram has run on a list of steps
    and its fetch has settled, the component never shows the loading state;
    with no step named "Architecture Diagram" that has a JSON output it shows
    the "no data" state, whatever it held before; when the fetch fails it
    shows the error message, which is never empty; when the fetch gives null
    it shows the "no data" state; and when it gives another payload the
    component shows what [renderArchitectureInfo] gives for that payload, and
    throws when it throws. *)
Theorem X28_architecture_after_effect (R : Runtime) (steps : list StepRecord)
    (fetched : str -> result value) (st : ArchitectureDiagram.State) :
  let st' := ArchitectureDiagram.loadArchitecture steps fetched st in
  ArchitectureDiagram.render st' <> Ok ArchitectureDiagram.LoadingView /\
  (ArchitectureDiagram.architectureStep steps = None ->
   ArchitectureDiagram.render st' = Ok ArchitectureDiagram.NoDataView) /\
  (forall i s e,
     ArchitectureDiagram.architectureStep steps = Some (i, s) ->
     fetched (orEmpty (output s)) = Throw e ->
     exists msg, ArchitectureDiagram.render st'
                 = Ok (ArchitectureDiagram.ErrorView msg) /\ msg <> []) /\
  (forall i s data,
     ArchitectureDiagram.architectureStep steps = Some (i, s) ->
     fetched (orEmpty (output s)) = Ok data ->
     ArchitectureDiagram.render st'
     = if truthy (JV data)
       then info <- ArchitectureDiagram.renderArchitectureInfo (JV data) ;;
            Ok (ArchitectureDiagram.InfoView info)
       else Ok ArchitectureDiagram.NoDataView).
Proof.
  intros st'. subst st'. unfold ArchitectureDiagram.loadArchitecture.
  destruct (ArchitectureDiagram.architectureStep steps) as [[i s]|].
  - destruct (fetched (orEmpty (output s))) as [data|e] eqn:Ef.
    + unfold ArchitectureDiagram.render.
      cbn [ArchitectureDiagram.loading ArchitectureDiagram.error
           ArchitectureDiagram.architectureData nonEmpty].
      split.
      { destruct (truthy (JV data)); cbn [negb]; [|discriminate].
        destruct (ArchitectureDiagram.renderArchitectureInfo (JV data));
          discriminate. }
      split; [discriminate|]. split.
      { intros i' s' e [= <- <-]. congruence. }
      intros i' s' data' [= <- <-] Hd. rewrite Ef in Hd. injection Hd as <-.
      now destruct (truthy (JV data)).
    + set (msg := if nonEmpty (messageOf e) then messageOf e
                  else lit "Failed to load architecture diagram").
      assert (N : nonEmpty msg = true).
      { subst msg. destruct (nonEmpty (messageOf e)) eqn:E; [exact E | reflexivity]. }
      unfold ArchitectureDiagram.render.
      cbn [ArchitectureDiagram.loading ArchitectureDiagram.error
           ArchitectureDiagram.architectureData].
      fold msg. rewrite N.
      split; [discriminate|]. split; [discriminate|]. split.
      * intros i' s' e' _ _. exists msg. split; [reflexivity|].
        intros H. rewrite H in N. discriminate.
      * intros i' s' data [= <- <-] Hd. congruence.
  - split; [discriminate|]. split; [reflexivity|].
    split; intros; discriminate.
Qed.

Lemma X28_architecture_witness :
  @ArchitectureDiagram.render DecimalRuntime.runtime
    (ArchitectureDiagram.loadArchitecture fullPipeline fetchFails
       (loaded (JV (payloadOf fullProposal None))))
  = Ok ArchitectureDiagram.NoDataView.
Proof.
  refine (proj1 (proj2 (X28_architecture_after_effect DecimalRuntime.runtime
            fullPipeline fetchFails (loaded (JV (payloadOf fullProposal None))))) _).
  reflexivity.
Defined.

(* ===================================================================== *)
(** * Further properties: the session and the routes *)
(* ===================================================================== *)

Module SessionFacts.

Lemma handleSubmit_accepted (address a : str) :
  Login.handleSubmit address = Login.LoggedIn a ->
  a = address /\
  exists l, address = l ++ Login.domain /\ l <> [] /\
            Forall (fun c => Login.localChar c = true) l.
Proof.
  unfold Login.handleSubmit, Login.emailRegex.
  destruct (endsWith address Login.domain); cbn [negb]; [|discriminate].
  destruct (Login.spanLocal address) as [l rest] eqn:E.
  destruct (nonEmpty l && JsString.eqb rest Login.domain) eqn:B;
    cbn [negb]; [|discriminate].
  intros [= <-]. split; [reflexivity|].
  apply andb_true_iff in B as [Hl Hr]. apply str_eqb_eq in Hr. subst rest.
  apply spanLocal_app in E as [-> F]. exists l. split; [reflexivity|].
  split; [|exact F]. intros ->. discriminate.
Qed.

Lemma sessionStep_accepted (user : option App.User) (e : SessionEvent) :
  accepted user -> accepted (sessionStep user e).
Proof.
  intros H. destruct e as [address|], user as [u|]; cbn [sessionStep];
    try exact H; try exact I.
  destruct (Login.handleSubmit address) as [msg|a] eqn:E; [exact I|].
  cbn [App.handleLogin accepted App.email].
  destruct (handleSubmit_accepted _ _ E) as [-> _]. exact E.
Qed.

Lemma session_accepted (events : list SessionEvent) (user : option App.User) :
  accepted user -> accepted (fold_left sessionStep events user).
Proof.
  revert user. induction events as [|e events IH]; intros user H; [exact H|].
  cbn [fold_left]. apply IH, sessionStep_accepted, H.
Qed.

End SessionFacts.

Import SessionFacts.

(** X29: every entry of the routes settles on a page after at most two
    redirections; without a user that page is the login page, whatever the
    entry, and with a user it is never the login page and is given that
    user; and after any sequence of submitted addresses and logouts the
    user, if there is one, has an address the login accepts: a non-empty
    local part followed by ["@hcltech.com"], and that local part is the user
    name the upload and the discovery of the files use. *)
Theorem X29_routes_and_session (events : list SessionEvent) (r : App.Route) :
  let user := session events in
  (exists page,
     settle 2 user r = Some page /\
     (forall to, page <> App.Navigate to) /\
     (user = None <-> page = App.LoginElement) /\
     (forall u, user = Some u -> userOf page = Some u)) /\
  (forall u,
     user = Some u ->
     exists l,
       App.email u = l ++ Login.domain /\ l <> [] /\
       AwsService.beforeAt (App.email u) = l /\
       forall folder, AwsDiscovery.userPrefix (App.email u) folder
                      = l ++ lit "/" ++ folder ++ lit "/").
Proof.
  intros user. split.
  - destruct user as [u|]; destruct r; cbn; eexists;
      (split; [reflexivity|]); (split; [discriminate|]);
      (split; [split; intros; (discriminate || reflexivity)|]);
      intros u'; (discriminate || (intros [= <-]; reflexivity)).
  - intros u Hu.
    assert (A : accepted user) by (apply session_accepted; exact I).
    rewrite Hu in A. cbn [accepted] in A.
    destruct (handleSubmit_accepted _ _ A) as (_ & l & El & Hl & F).
    exists l. split; [exact El|]. split; [exact Hl|].
    assert (B : AwsService.beforeAt (App.email u) = l).
    { rewrite El. apply (beforeAt_local l "hcltech.com" F). }
    split; [exact B|]. intros folder. unfold AwsDiscovery.userPrefix.
    now rewrite B.
Qed.

Lemma X29_routes_witness :
  exists l,
    lit "alice@hcltech.com" = l ++ Login.domain /\ l <> [] /\
    AwsService.beforeAt "alice@hcltech.com" = l.
Proof.
  destruct (proj2 (X29_routes_and_session
              [ Submitted "alice@example.com"; Submitted "alice@hcltech.com" ]
              App.RootRoute) (App.mkUser "alice@hcltech.com") eq_refl)
    as (l & El & Hl & Hb & _).
  exists l. split; [exact El|]. split; [exact Hl | exact Hb].
Defined.
